(** * SiteTracker file exporter: shallow embedding and verified properties

    The development follows [sitetracker_file_exporter.py] (and the older
    one-file script [merge_sitetracker_docids_to_files.py], whose [main]
    carries the same statements inline).

    Modelling conventions.
    - A Python [str] is a Rocq [string]; its characters are code points
      below 256, which is what an HTTP header decoded by the [requests]
      library holds.
    - A dataframe loaded with [dtype=str] holds, in every cell, either a
      [str] or a missing value; the two missing values that occur in the
      program are the float [NaN] (written by the CSV reader and by the
      left join) and [pd.NA] (written by the attachment URL lambda).
      A cell of the metadata table that the CSV reader would type as a
      number is kept as its text; the only statements that look at such
      cells compute the two size columns, which are left to the
      environment.
    - The row index of a dataframe is not modelled: no statement of the
      program reads it.
    - A raised exception is a value of [exn]; fallible code returns
      [result].
    - The code that talks to the outside (the Salesforce CLI, HTTP, the
      two written files, [print]) is a computation against a script of
      replies: it yields the events in order, how it ended, and the
      replies left over.  [argparse] and a failure of [to_csv] are not
      modelled. *)

From Stdlib Require Import ZArith Lia Ascii.
From Stdlib Require DecimalString.
From stdpp Require Import base option list strings gmap.

Local Open Scope Z_scope.
Local Open Scope nat_scope.

(** ** Python builtins used by the program *)

Module py.

(** [SystemExit] carries the argument it was raised with. *)
Inductive exit_arg :=
| ExitNone
| ExitInt (code : Z)
| ExitObj (message : string).

(** The exceptions the program meets.  The messages of [AttributeError]
    and [ValueError] are not modelled. *)
Inductive exn :=
| KeyError (key : string)
| FileNotFoundError (path : string)
| MergeError (labels : list string)
| RuntimeError (message : string)
| HTTPError (status : Z)
| ParserError (message : string)
| JSONDecodeError
| ConnectionError
| AttributeError
| ValueError
| SystemExit (arg : exit_arg).

(** [isinstance(e, Exception)]: [SystemExit] derives from
    [BaseException] only, so an [except Exception] handler (such as the
    one in [sf_org_auth]) does not catch it. *)
Definition is_Exception (e : exn) : bool :=
  match e with
  | SystemExit _ => false
  | _ => true
  end.

(** Exit status of the interpreter when [e] reaches the top level:
    [SystemExit(None)] is 0, [SystemExit(n)] is [n], any other
    [SystemExit] argument is printed and the status is 1; an uncaught
    [Exception] prints a traceback and the status is 1. *)
Definition exit_status (e : exn) : Z :=
  match e with
  | SystemExit ExitNone => 0%Z
  | SystemExit (ExitInt n) => n
  | SystemExit (ExitObj _) => 1%Z
  | _ => 1%Z
  end.

Inductive result (A : Type) :=
| Ok (a : A)
| Raise (e : exn).
Global Arguments Ok {A} a.
Global Arguments Raise {A} e.

Definition bind {A B} (r : result A) (k : A → result B) : result B :=
  match r with
  | Ok a => k a
  | Raise e => Raise e
  end.

(** [str.isspace] on one code point below 256. *)
Definition isspace (a : ascii) : bool :=
  let n := nat_of_ascii a in
  ((9 <=? n) && (n <=? 13)) || ((28 <=? n) && (n <=? 32))
  || (n =? 133) || (n =? 160).

Fixpoint lstrip (s : string) : string :=
  match s with
  | EmptyString => EmptyString
  | String a s' => if isspace a then lstrip s' else s
  end.

Fixpoint rstrip (s : string) : string :=
  match s with
  | EmptyString => EmptyString
  | String a s' =>
      match rstrip s' with
      | EmptyString => if isspace a then EmptyString else String a EmptyString
      | r => String a r
      end
  end.

(** [s.strip()] *)
Definition strip (s : string) : string := rstrip (lstrip s).

(** [str.lower] on one code point below 256: the ASCII capitals and the
    Latin-1 capitals (192 to 222 without the multiplication sign 215)
    move up by 32, everything else is unchanged. *)
Definition lower_char (a : ascii) : ascii :=
  let n := nat_of_ascii a in
  if ((65 <=? n) && (n <=? 90))
     || ((192 <=? n) && (n <=? 222) && negb (n =? 215))
  then ascii_of_nat (n + 32)
  else a.

Fixpoint lower (s : string) : string :=
  match s with
  | EmptyString => EmptyString
  | String a s' => String (lower_char a) (lower s')
  end.

(** [s.split(sep)] for a one-character separator. *)
Fixpoint split_go (sep : ascii) (cur s : string) : list string :=
  match s with
  | EmptyString => [String.rev cur]
  | String a s' =>
      if decide (a = sep) then String.rev cur :: split_go sep EmptyString s'
      else split_go sep (String a cur) s'
  end.
Definition split (sep : ascii) (s : string) : list string :=
  split_go sep EmptyString s.

(** Truth value of a [str]: the empty string is false. *)
Definition truthy (s : string) : bool :=
  match s with
  | EmptyString => false
  | String _ _ => true
  end.

(** A decoded JSON document, as [response.json()] returns it. *)
#[warnings="-register-all"] Inductive jvalue :=
| JNull
| JBool (b : bool)
| JNum (n : Z)
| JStr (s : string)
| JList (items : list jvalue)
| JDict (items : list (string * jvalue)).

(** A [dict] with [str] keys, in insertion order. *)
Definition dict := list (string * jvalue).

(** [d.get(key)]; [None] stands for Python's [None]. *)
Fixpoint dict_get (d : dict) (key : string) : option jvalue :=
  match d with
  | [] => None
  | (k, v) :: d' => if decide (k = key) then Some v else dict_get d' key
  end.

(** [v == s] for a value [v] that [dict.get] returned and a [str] [s]. *)
Definition eq_str (v : option jvalue) (s : string) : bool :=
  match v with
  | Some (JStr x) => bool_decide (x = s)
  | _ => false
  end.

End py.

Global Instance result_bind : MBind py.result := λ A B k r, py.bind r k.

(** ** The fragment of pandas used by the program *)

Module pd.
Import py.

Inductive cell :=
| Str (s : string)
| NaN
| NA.

Global Instance cell_eq_dec : EqDecision cell.
Proof. solve_decision. Defined.

(** [pd.notna(c)] *)
Definition notna (c : cell) : bool :=
  match c with
  | Str _ => true
  | _ => false
  end.

(** [str(c)], which is also what an f-string and [astype(str)] produce. *)
Definition to_str (c : cell) : string :=
  match c with
  | Str s => s
  | NaN => "nan"
  | NA => "<NA>"
  end.

(** A dataframe: column labels and, row by row, one cell per label. *)
Record DataFrame := mkDataFrame {
  columns : list string;
  data : list (list cell);
}.

(** [pd.DataFrame()] *)
Definition empty_frame : DataFrame := mkDataFrame [] [].

(** [len(df)] *)
Definition len (df : DataFrame) : nat := length (data df).

(** [df.empty]: some axis has length 0. *)
Definition empty (df : DataFrame) : bool :=
  match columns df, data df with
  | [], _ | _, [] => true
  | _, _ => false
  end.

(** Every row has one cell per column. *)
Definition rectangular (df : DataFrame) : Prop :=
  Forall (λ r, length r = length (columns df)) (data df).

(** [label in df.columns] *)
Definition has_column (df : DataFrame) (label : string) : bool :=
  bool_decide (label ∈ columns df).

(** [columns.get_loc(label)]: position of the first column [label]. *)
Fixpoint get_loc (label : string) (cols : list string) : option nat :=
  match cols with
  | [] => None
  | c :: cols' =>
      if decide (c = label) then Some 0
      else S <$> get_loc label cols'
  end.

(** The cell of a row at a position; a row of a well-formed frame has
    a cell at every column position. *)
Definition at_pos (i : nat) (row : list cell) : cell := nth i row NaN.

(** The label occurs more than once among the labels. pandas allows
    it; [df[label]] is then a DataFrame with all these columns and no
    Series, and a merge on that label is refused. *)
Definition repeated (label : string) (cols : list string) : bool :=
  bool_decide (1 < length (filter (λ c, c = label) cols)).

(** [df[label]] where it is a Series, as the list of its values in row
    order: the column [label], which is the first one with that label.
    The functions that can be handed a table with [label] repeated (the
    loader returns one when a name is requested twice), which are
    [extract_docids] and [merge_site_tracker_and_files], test [repeated]
    and raise what pandas raises on the DataFrame.  The labels of the
    metadata table come from [pd.read_csv] and [pd.concat] and are
    distinct. *)
Definition getitem (df : DataFrame) (label : string) : result (list cell) :=
  match get_loc label (columns df) with
  | Some i => Ok (at_pos i <$> data df)
  | None => Raise (KeyError label)
  end.

(** [df[label] = values] with one value per row: an existing column is
    overwritten in place, a new one is appended on the right. *)
Definition setitem (df : DataFrame) (label : string) (values : list cell)
  : DataFrame :=
  match get_loc label (columns df) with
  | Some i =>
      mkDataFrame (columns df)
        (zip_with (λ row v, <[i := v]> row) (data df) values)
  | None =>
      mkDataFrame (columns df ++ [label])
        (zip_with (λ row v, row ++ [v]) (data df) values)
  end.

(** [series.dropna()] *)
Definition dropna (s : list cell) : list cell :=
  filter (λ c, notna c = true) s.

(** [series.astype(str)]: every value becomes a [str]. *)
Definition astype_str (s : list cell) : list string := to_str <$> s.

(** [series[series.str.len() > 0]] on a Series of [str]. *)
Definition nonempty_strs (s : list string) : list string :=
  filter (λ x, 0 < String.length x) s.

(** [series.unique()]: the distinct values in order of first
    appearance; [seen] plays the hash table. *)
Fixpoint unique_go {A} `{EqDecision A} (seen : list A) (l : list A) : list A :=
  match l with
  | [] => []
  | x :: l' =>
      if decide (x ∈ seen) then unique_go seen l'
      else x :: unique_go (x :: seen) l'
  end.
Definition unique {A} `{EqDecision A} (l : list A) : list A := unique_go [] l.

(** [series.isin(values)] for a set of [str]: a missing value is in no
    such set. *)
Definition isin (s : list cell) (values : gset string) : list bool :=
  (λ c, match c with
        | Str x => bool_decide (x ∈ values)
        | _ => false
        end) <$> s.

(** [df[mask]] for a boolean Series with one entry per row. *)
Fixpoint mask_rows (rows : list (list cell)) (mask : list bool)
  : list (list cell) :=
  match rows, mask with
  | r :: rows', b :: mask' =>
      if b then r :: mask_rows rows' mask' else mask_rows rows' mask'
  | _, _ => []
  end.

Definition getitem_mask (df : DataFrame) (mask : list bool) : DataFrame :=
  mkDataFrame (columns df) (mask_rows (data df) mask).

(** Rows whose cell at position [i] was not seen before, in order. *)
Fixpoint drop_duplicates_go (i : nat) (seen : list cell)
    (rows : list (list cell)) : list (list cell) :=
  match rows with
  | [] => []
  | r :: rows' =>
      if decide (at_pos i r ∈ seen) then drop_duplicates_go i seen rows'
      else r :: drop_duplicates_go i (at_pos i r :: seen) rows'
  end.

(** [df.drop_duplicates(subset=[label])], which keeps the first row of
    every value. *)
Definition drop_duplicates (df : DataFrame) (label : string)
  : result DataFrame :=
  match get_loc label (columns df) with
  | Some i => Ok (mkDataFrame (columns df) (drop_duplicates_go i [] (data df)))
  | None => Raise (KeyError label)
  end.

(** Positions of a list of labels; the first missing label is the
    [KeyError]. *)
Fixpoint get_locs (labels cols : list string) : result (list nat) :=
  match labels with
  | [] => Ok []
  | c :: labels' =>
      match get_loc c cols with
      | Some i => rest ← get_locs labels' cols; Ok (i :: rest)
      | None => Raise (KeyError c)
      end
  end.

(** [df[labels]] for a list of labels: those columns, in that order. *)
Definition getitem_list (df : DataFrame) (labels : list string)
  : result DataFrame :=
  locs ← get_locs labels (columns df);
  Ok (mkDataFrame labels
        ((λ row, (λ i, at_pos i row) <$> (locs : list nat)) <$> data df)).

(** *** [DataFrame.merge] *)

(** The key a cell is joined on: pandas matches a missing key with every
    missing key. *)
Definition join_key (c : cell) : option string :=
  match c with
  | Str s => Some s
  | _ => None
  end.

(** [Index.duplicated()]: true at every occurrence after the first. *)
Fixpoint duplicated_go (seen : list string) (l : list string) : list bool :=
  match l with
  | [] => []
  | x :: l' => bool_decide (x ∈ seen) :: duplicated_go (x :: seen) l'
  end.
Definition duplicated (l : list string) : list bool := duplicated_go [] l.

(** Labels of one side after an overlapping label got its suffix. *)
Definition add_suffix (suffix : string) (overlap labels : list string)
  : list string :=
  (λ c, if decide (c ∈ overlap) then c +:+ suffix else c) <$> labels.

(** The labels that are repeated after renaming and were not before:
    pandas refuses them with a [MergeError]. *)
Definition suffix_dups (old new : list string) : list string :=
  fst <$> filter (λ p, p.2 = (true, false))
            (zip new (zip (duplicated new) (duplicated old))).

(** The rows a left join makes of one left row: one for each right row
    with the same key, in the right table's order, or one with [width]
    missing values when there is none. [project] removes the right key
    column when both sides name the key alike. *)
Definition join_row (li ri width : nat) (project : list cell → list cell)
    (rrows : list (list cell)) (lrow : list cell) : list (list cell) :=
  match filter (λ r, join_key (at_pos ri r) = join_key (at_pos li lrow)) rrows with
  | [] => [lrow ++ replicate width NaN]
  | found => (λ r, lrow ++ project r) <$> found
  end.

(** Rows of a left join: the rows of every left row, in the left table's
    order. *)
Definition left_join_rows (li ri width : nat)
    (project : list cell → list cell)
    (lrows rrows : list (list cell)) : list (list cell) :=
  lrows ≫= join_row li ri width project rrows.

(** [left.merge(right, how="left", left_on=lk, right_on=rk,
    suffixes=(lsuffix, rsuffix))] with a non-empty [rsuffix].
    The right key is looked up first; a key label that is missing is a
    [KeyError], one that is repeated a [ValueError] (the column label is
    not unique). When both keys have one name the result has one key
    column: the left one, unless the left frame has no row, in which
    case pandas keeps the right one. *)
Definition merge_left (left right : DataFrame) (lk rk : string)
    (lsuffix rsuffix : string) : result DataFrame :=
  match get_loc rk (columns right) with
  | None => Raise (KeyError rk)
  | Some ri =>
      if repeated rk (columns right) then Raise ValueError
      else
        match get_loc lk (columns left) with
        | None => Raise (KeyError lk)
        | Some li =>
            if repeated lk (columns left) then Raise ValueError
            else
              let same := bool_decide (lk = rk) in
              let drop_right := same && bool_decide (0 < length (data left)) in
              let drop_left := same && negb drop_right in
              let lold :=
                if drop_left then delete li (columns left) else columns left in
              let rold :=
                if drop_right then delete ri (columns right)
                else columns right in
              let overlap := filter (λ c, c ∈ rold) lold in
              let lnew := add_suffix lsuffix overlap lold in
              let rnew := add_suffix rsuffix overlap rold in
              match suffix_dups lold lnew ++ suffix_dups rold rnew with
              | [] =>
                  let project := if drop_right then delete ri else id in
                  Ok (mkDataFrame (lnew ++ rnew)
                        (left_join_rows li ri (length rnew) project
                           (data left) (data right)))
              | dups => Raise (MergeError dups)
              end
        end
  end.

(** *** [pd.concat] *)

(** The cells of [row], laid out for the labels [to]; a label the row's
    frame does not have gets a missing value. *)
Definition reindex_row (from to : list string) (row : list cell) : list cell :=
  (λ c, match get_loc c from with
        | Some i => at_pos i row
        | None => NaN
        end) <$> to.

(** [pd.concat(frames, ignore_index=True)] for a non-empty list of
    frames: the labels in order of first appearance, then the rows of
    every frame in order, laid out for those labels. *)
Definition concat (frames : list DataFrame) : DataFrame :=
  let cols := unique (mjoin (columns <$> frames)) in
  mkDataFrame cols (frames ≫= λ f, reindex_row (columns f) cols <$> data f).

End pd.

(** ** The program: [sitetracker_file_exporter.py] *)

Import py pd.

(** [extract_docids(dataframe, docid_col)].  When the label is repeated
    [dataframe[docid_col]] is a DataFrame, [dropna] and [astype] go
    through, and [docids.str] raises [AttributeError]. *)
Definition extract_docids (dataframe : DataFrame) (docid_col : string)
  : result (gset string) :=
  column ← getitem dataframe docid_col;
  if repeated docid_col (columns dataframe) then Raise AttributeError
  else
    let docids := astype_str (dropna column) in
    let docids := nonempty_strs docids in
    Ok (list_to_set (unique docids)).

(** The f-string of [add_file_urls]. *)
Definition file_url (instance_url : string) (content_id : cell) : string :=
  instance_url +:+ "/lightning/r/ContentDocument/" +:+ to_str content_id +:+ "/view".

(** [add_file_urls(dataframe, instance_url)] *)
Definition add_file_urls (dataframe : DataFrame) (instance_url : string)
  : result DataFrame :=
  ids ← getitem dataframe "ContentDocumentId";
  Ok (setitem dataframe "FileUrl" ((λ c, Str (file_url instance_url c)) <$> ids)).

(** The f-string of the attachment URL. *)
Definition attachment_url (instance_url : string) (attachment_id : cell)
  : string :=
  instance_url +:+ "/lightning/r/sitetracker__Attachment__c/"
    +:+ to_str attachment_id +:+ "/view".

(** [merge_site_tracker_and_files(site_tracker_df, files_df, docid_col,
    instance_url)].  When the merged table has the label [Id] more than
    once, [merged["Id"]] is a DataFrame: [apply] hands the lambda a
    whole column, whose truth value is a [ValueError]; on a table
    without rows [apply] returns the DataFrame, and assigning it to one
    column is a [ValueError] as well. *)
Definition merge_site_tracker_and_files (site_tracker_df files_df : DataFrame)
    (docid_col instance_url : string) : result DataFrame :=
  merged ← merge_left site_tracker_df files_df docid_col "ContentDocumentId"
             "" "_File";
  if has_column merged "Id" then
    if repeated "Id" (columns merged) then Raise ValueError
    else
      ids ← getitem merged "Id";
      Ok (setitem merged "SiteTrackerAttachmentUrl"
            ((λ attachment_id,
               if notna attachment_id
               then Str (attachment_url instance_url attachment_id)
               else NA) <$> ids))
  else Ok merged.

(** [main], lines 450 to 453: the metadata rows whose identifier is in
    [docid_set], then one row per identifier. *)
Definition matched_files (content_versions : DataFrame)
    (docid_set : gset string) : result DataFrame :=
  ids ← getitem content_versions "ContentDocumentId";
  let matched := getitem_mask content_versions (isin ids docid_set) in
  drop_duplicates matched "ContentDocumentId".

Section Main.

(** [pd.to_numeric(x, errors="coerce")] on one value, and the division
    by [1024 * 1024] rounded to two places: floating point, left to the
    environment. *)
Variable to_numeric : cell → cell.
Variable megabytes : cell → cell.

(** [main], lines 446 to 448: the identifier column coerced to [str],
    and the two size columns. [content_versions.get("ContentSize")] is
    [None] when there is no such column, and [to_numeric] makes a missing
    value of it. *)
Definition add_size_columns (content_versions : DataFrame) : result DataFrame :=
  ids ← getitem content_versions "ContentDocumentId";
  let content_versions :=
    setitem content_versions "ContentDocumentId" (Str <$> astype_str ids) in
  let sizes :=
    match getitem content_versions "ContentSize" with
    | Ok sizes => to_numeric <$> sizes
    | Raise _ => replicate (len content_versions) NaN
    end in
  let content_versions := setitem content_versions "ContentSizeBytes" sizes in
  bytes ← getitem content_versions "ContentSizeBytes";
  Ok (setitem content_versions "ContentSizeMB" (megabytes <$> bytes)).

(** [main] from the two loaded tables to the two written ones: the
    files-only report and the merged report. *)
Definition reconcile (site_tracker_df content_versions : DataFrame)
    (docid_col instance_url : string) : result (DataFrame * DataFrame) :=
  docid_set ← extract_docids site_tracker_df docid_col;
  if decide (docid_set = ∅) then
    Raise (SystemExit (ExitObj "No ContentDocumentIds found in the SiteTracker CSV."))
  else if empty content_versions then
    Raise (SystemExit (ExitObj
      "No ContentVersion rows returned. (Permissions? Query All Files?)"))
  else
    content_versions ← add_size_columns content_versions;
    matched ← matched_files content_versions docid_set;
    matched ← add_file_urls matched instance_url;
    merged ← merge_site_tracker_and_files site_tracker_df matched docid_col
               instance_url;
    Ok (matched, merged).

End Main.

(** [main], lines 414 to 418: the [--sitetracker-columns] argument. *)
Definition sitetracker_columns_of (arg : option string)
  : option (list string) :=
  match arg with
  | Some text =>
      if truthy text then
        Some (strip <$> filter (λ column, truthy (strip column) = true)
                          (split "," text))
      else None
  | None => None
  end.

Section Loader.

(** [pd.read_csv(path, dtype=str, encoding=encoding, low_memory=False)]:
    the file system and the CSV parser are the environment. *)
Variable read_csv : string → string → result DataFrame.

(** The comprehension that builds [keep_cols]. *)
Definition keep_cols_of (dataframe : DataFrame) (selected_columns : list string)
  : list string :=
  strip <$> filter (λ col, truthy col = true ∧ strip col ∈ columns dataframe)
              selected_columns.

(** [read_sitetracker_csv(path, docid_col, selected_columns, encoding)] *)
Definition read_sitetracker_csv (path docid_col : string)
    (selected_columns : option (list string)) (encoding : string)
  : result DataFrame :=
  dataframe ← read_csv path encoding;
  if negb (has_column dataframe docid_col) then
    Raise (SystemExit (ExitObj ("Column not found in SiteTracker CSV: " +:+ docid_col)))
  else
    match selected_columns with
    | None | Some [] => Ok dataframe
    | Some selected =>
        let keep_cols := keep_cols_of dataframe selected in
        let keep_cols :=
          if decide (docid_col ∈ keep_cols) then keep_cols
          else keep_cols ++ [docid_col] in
        getitem_list dataframe keep_cols
    end.

End Loader.

(** ** The script: [merge_sitetracker_docids_to_files.py]

    Its [bulk2_wait_job] and [bulk2_fetch_results] are the functions
    above under other local names, and its [main] runs the statements of
    [extract_docids], [matched_files], [add_file_urls] and
    [merge_site_tracker_and_files] inline. It narrows the columns in two
    steps. *)

(** [main] of the script, lines 183 to 187: the labels of [st[keep_cols]]. *)
Definition script_keep_cols (header : list string) (arg docid_col : string)
  : list string :=
  let keep_cols :=
    strip <$> filter (λ c, truthy (strip c) = true) (split "," arg) in
  let keep_cols := filter (λ c, c ∈ header) keep_cols in
  if decide (docid_col ∈ keep_cols) then keep_cols
  else keep_cols ++ [docid_col].

Section Script.

(** [pd.read_csv(path, dtype=str, low_memory=False)], without an
    encoding. *)
Variable read_csv_default : string → result DataFrame.

(** [main] of the script, lines 177 to 188: the table [st] it goes on
    with. *)
Definition script_load (path docid_col : string) (arg : option string)
  : result DataFrame :=
  st ← read_csv_default path;
  if negb (has_column st docid_col) then
    Raise (SystemExit (ExitObj ("Column not found in SiteTracker CSV: " +:+ docid_col)))
  else
    match arg with
    | Some text =>
        if truthy text then
          getitem_list st (script_keep_cols (columns st) text docid_col)
        else Ok st
    | None => Ok st
    end.

End Script.

(** ** HTTP: the [requests] calls and the server as a script of replies *)

Module requests.

Inductive param :=
| PInt (n : Z)
| PStr (s : string).

Record Request := mkRequest {
  url : string;
  request_headers : list (string * string);
  params : list (string * param);
  timeout : Z;
}.

(** A reply: [json] is what [response.json()] returns, [None] when the
    body is not a JSON object. *)
Record Response := mkResponse {
  status_code : Z;
  headers : list (string * string);
  text : string;
  json : option dict;
}.

(** [response.raise_for_status()] *)
Definition raise_for_status (response : Response) : result unit :=
  if ((400 <=? status_code response) && (status_code response <? 600))%Z
  then Raise (HTTPError (status_code response))
  else Ok ().

(** [response.headers.get(name)]: header names compare without case. *)
Fixpoint headers_get (hs : list (string * string)) (name : string)
  : option string :=
  match hs with
  | [] => None
  | (k, v) :: hs' =>
      if decide (lower k = lower name) then Some v else headers_get hs' name
  end.

(** What the program does to the outside, in order. *)
Inductive event :=
| Get (request : Request)
| Sleep (seconds : Z).

(** One pass through the body of a [while True:] loop that starts with a
    GET: go round again in a new state (after some effects), or leave the
    function with a value or an exception. *)
Inductive step (S A : Type) :=
| Continue (s : S) (effects : list event)
| Stop (r : result A).
Global Arguments Continue {S A} s effects.
Global Arguments Stop {S A} r.

(** The loop either leaves the function or has sent a request the script
    has no reply for. *)
Inductive run (A : Type) :=
| Finished (r : result A)
| Waiting.
Global Arguments Finished {A} r.
Global Arguments Waiting {A}.

(** The loop against a script: the n-th GET receives the n-th entry, a
    reply or the exception [requests.get] raises. *)
Fixpoint run_loop {S A} (request : S → Request)
    (body : S → Response → step S A) (s : S)
    (script : list (result Response)) : list event * run A :=
  match script with
  | [] => ([Get (request s)], Waiting)
  | Raise e :: _ => ([Get (request s)], Finished (Raise e))
  | Ok response :: script' =>
      match body s response with
      | Stop r => ([Get (request s)], Finished r)
      | Continue s' effects =>
          let '(trace, out) := run_loop request body s' script' in
          (Get (request s) :: effects ++ trace, out)
      end
  end.

End requests.

Import requests.

Section Bulk.

(** [str(info)] of a decoded status payload. *)
Variable repr : dict → string.

(** [pd.read_csv(StringIO(text))] *)
Variable read_csv_text : string → result DataFrame.

Variables instance_url access_token api_version job_id : string.

Definition wait_request : Request :=
  {| url := instance_url +:+ "/services/data/v" +:+ api_version
              +:+ "/jobs/query/" +:+ job_id;
     request_headers := [("Authorization", "Bearer " +:+ access_token)];
     params := [];
     timeout := 60 |}.

(** [state in ("JobComplete", "Failed", "Aborted")]: the member it is
    equal to. *)
Definition terminal_state (state : option jvalue) : option string :=
  if eq_str state "JobComplete" then Some "JobComplete"
  else if eq_str state "Failed" then Some "Failed"
  else if eq_str state "Aborted" then Some "Aborted"
  else None.

(** Body of the loop of [bulk2_wait_job]. *)
Definition wait_body (_ : unit) (response : Response) : step unit dict :=
  match raise_for_status response with
  | Raise e => Stop (Raise e)
  | Ok _ =>
      match json response with
      | None => Stop (Raise JSONDecodeError)
      | Some info =>
          let state := dict_get info "state" in
          match terminal_state state with
          | Some state =>
              if negb (bool_decide (state = "JobComplete")) then
                Stop (Raise (RuntimeError
                  ("Bulk job ended in state " +:+ state +:+ ": " +:+ repr info)))
              else Stop (Ok info)
          | None => Continue () [Sleep 3]
          end
      end
  end.

(** [bulk2_wait_job(instance_url, access_token, api_version, job_id)] *)
Definition bulk2_wait_job (script : list (result Response))
  : list event * run dict :=
  run_loop (λ _, wait_request) wait_body () script.

(** The two locals of [bulk2_fetch_results] that live across iterations. *)
Record fetch_state := mkFetch {
  locator : option string;
  frames : list DataFrame;
}.

Definition fetch_request (max_records : Z) (st : fetch_state) : Request :=
  {| url := instance_url +:+ "/services/data/v" +:+ api_version
              +:+ "/jobs/query/" +:+ job_id +:+ "/results";
     request_headers := [("Authorization", "Bearer " +:+ access_token);
                         ("Accept", "text/csv")];
     params := ("maxRecords", PInt max_records)
               :: match locator st with
                  | Some l => if truthy l then [("locator", PStr l)] else []
                  | None => []
                  end;
     timeout := 300 |}.

(** [not locator or locator.lower() == "null"] *)
Definition last_page (locator : option string) : bool :=
  match locator with
  | Some l => negb (truthy l) || bool_decide (lower l = "null")
  | None => true
  end.

(** [if response.text.strip(): frames.append(pd.read_csv(...))] *)
Definition append_page (frames : list DataFrame) (response : Response)
  : result (list DataFrame) :=
  if truthy (strip (text response)) then
    page ← read_csv_text (text response); Ok (frames ++ [page])
  else Ok frames.

(** Body of the loop of [bulk2_fetch_results]; leaving the loop is
    followed by the [return] statement. *)
Definition fetch_body (st : fetch_state) (response : Response)
  : step fetch_state DataFrame :=
  match raise_for_status response with
  | Raise e => Stop (Raise e)
  | Ok _ =>
      match append_page (frames st) response with
      | Raise e => Stop (Raise e)
      | Ok frames =>
          let locator := headers_get (headers response) "Sforce-Locator" in
          if last_page locator then
            Stop (Ok (match frames with
                      | [] => empty_frame
                      | _ => concat frames
                      end))
          else Continue (mkFetch locator frames) []
      end
  end.

(** [bulk2_fetch_results(instance_url, access_token, api_version, job_id,
    max_records)] *)
Definition bulk2_fetch_results (max_records : Z)
    (script : list (result Response)) : list event * run DataFrame :=
  run_loop (fetch_request max_records) fetch_body (mkFetch None []) script.

End Bulk.

(** * Vocabulary of the properties *)

(** The identifiers a column holds: its values that are not missing,
    read as [str], and not blank. *)
Definition column_docids (column : list cell) (x : string) : Prop :=
  x ≠ "" ∧ ∃ c, c ∈ column ∧ notna c = true ∧ to_str c = x.

(** [isin] on a cell. *)
Definition in_docids (docid_set : gset string) (c : cell) : Prop :=
  ∃ x, c = Str x ∧ x ∈ docid_set.

Global Instance in_docids_dec docid_set c : Decision (in_docids docid_set c).
Proof.
  destruct c as [x| |].
  - destruct (decide (x ∈ docid_set)) as [Hx|Hx].
    + left. by exists x.
    + right. intros (y & [= <-] & Hy). done.
  - right. by intros (y & [=] & _).
  - right. by intros (y & [=] & _).
Defined.

(** The job is in none of the three terminal states. *)
Definition non_terminal (info : dict) : Prop :=
  ∀ s, dict_get info "state" = Some (JStr s) →
       s ≠ "JobComplete" ∧ s ≠ "Failed" ∧ s ≠ "Aborted".

(** A reply that makes the loop poll again. *)
Definition in_progress (response : Response) : Prop :=
  raise_for_status response = Ok ()
  ∧ ∃ info, json response = Some info ∧ non_terminal info.

(** The polls and sleeps of [n] passes that found the job in progress. *)
Definition polled (instance_url access_token api_version job_id : string)
    (n : nat) : list event :=
  mjoin (replicate n
           [Get (wait_request instance_url access_token api_version job_id);
            Sleep 3]).

(** The cursor header of a reply. *)
Definition cursor (response : Response) : option string :=
  headers_get (headers response) "Sforce-Locator".

(** The replies whose body is not blank, in arrival order. *)
Definition nonblank_pages (pages : list Response) : list Response :=
  filter (λ r, strip (text r) ≠ "") pages.

(** A reply that is followed by another page request. *)
Definition more_pages (response : Response) : Prop :=
  raise_for_status response = Ok () ∧ last_page (cursor response) = false.

(** The columns the specification names, read to the letter: the
    requested names that are header names, then the identifier column
    unless it is among them. *)
Definition spec_columns (header selected : list string)
    (docid_col : string) : list string :=
  let kept := filter (λ col, col ∈ header) selected in
  kept ++ if decide (docid_col ∈ kept) then [] else [docid_col].

(** The requested names as the loader reads them: the non-empty ones,
    without surrounding whitespace, that are header names. *)
Definition requested_columns (header selected : list string) : list string :=
  strip <$> filter (λ col, col ≠ "" ∧ strip col ∈ header) selected.

(** * Example data *)

(** [str(info)] for a payload whose values are strings free of quotes
    and escapes, as in the status replies of the examples. *)
Fixpoint repr_items (items : dict) : string :=
  match items with
  | [] => ""
  | (k, v) :: items' =>
      "'" +:+ k +:+ "': '"
      +:+ match v with JStr s => s | _ => "" end +:+ "'"
      +:+ match items' with [] => "" | _ => ", " +:+ repr_items items' end
  end.
Definition repr_flat (info : dict) : string := "{" +:+ repr_items info +:+ "}".

(** A CSV reader for the examples: one line per row, fields separated by
    commas, no quoting, every field kept as text and a blank field
    missing. *)
Definition read_csv_plain (text : string) : result DataFrame :=
  match filter (λ line, line ≠ "") (split "010" text) with
  | [] => Raise (ParserError "No columns to parse from file")
  | header :: lines =>
      Ok (mkDataFrame (split "," header)
            ((λ line, (λ field, if decide (field = "") then NaN else Str field)
                        <$> split "," line) <$> lines))
  end.

(** The column of the example: two blanks and a repeated identifier. *)
Definition docids_example : DataFrame :=
  mkDataFrame ["DocId"]
    [[Str "123"]; [Str ""]; [Str ""]; [Str "123"]; [Str "456"]].

(** A metadata table with a repeated identifier and one outside the set. *)
Definition metadata_example : DataFrame :=
  mkDataFrame ["Title"; "ContentDocumentId"]
    [[Str "a"; Str "D1"]; [Str "b"; Str "D2"];
     [Str "c"; Str "D1"]; [Str "d"; Str "D3"]].

(** The tables of the merge test, with one more local row that has no
    file and no [Id], and a metadata column [Id] of its own. *)
Definition local_example : DataFrame :=
  mkDataFrame ["Id"; "DocId"]
    [[Str "ATT1"; Str "DOC1"]; [NaN; Str "DOC2"]].

Definition files_example : DataFrame :=
  mkDataFrame ["ContentDocumentId"; "Title"; "FileUrl"; "Id"]
    [[Str "DOC1"; Str "File 1"; Str "http://example.com/DOC1"; Str "V1"]].

(** A local table with a row that has no identifier, and a metadata
    table in which two rows have none. *)
Definition local_missing_example : DataFrame :=
  mkDataFrame ["DocId"] [[NaN]; [Str "DOC1"]].

Definition files_missing_example : DataFrame :=
  mkDataFrame ["ContentDocumentId"; "Title"]
    [[NaN; Str "a"]; [Str "DOC1"; Str "b"]; [NaN; Str "c"]].

Definition reply_in_progress : Response :=
  mkResponse 200 [] "" (Some [("id", JStr "750"); ("state", JStr "InProgress")]).
Definition reply_failed : Response :=
  mkResponse 200 [] "" (Some [("id", JStr "750"); ("state", JStr "Failed")]).

(** The file of the loader test. *)
Definition attachments_csv : DataFrame :=
  mkDataFrame ["sitetracker__ContentDocumentRecord__c"; "Name"; "Other"]
    [[Str "DOC1"; Str "A"; Str "X"]; [Str "DOC2"; Str "B"; Str "Y"]].

(** A file whose second header name starts with a space, as in the
    header line [DocId, Name]. *)
Definition spaced_csv : DataFrame :=
  mkDataFrame ["DocId"; " Name"] [[Str "DOC1"; Str "A"]].

(** A file system with one file. *)
Definition one_file (name : string) (content : DataFrame)
  : string → string → result DataFrame :=
  λ path _, if decide (path = name) then Ok content
            else Raise (FileNotFoundError path).

(** Two result pages: the first names a cursor, the second ends with
    [NULL]; a third reply would never be asked for. *)
Definition page_1 : Response :=
  mkResponse 200 [("sforce-locator", "MTAwMDA")]
    "ContentDocumentId,Title
069A,First
069B,Second
" None.

Definition page_2 : Response :=
  mkResponse 200 [("Sforce-Locator", "NULL")]
    "ContentDocumentId,Title
069C,Third
" None.

Definition blank_page : Response :=
  mkResponse 200 [] "
" None.

(** * The rest of the program: credentials, job creation and [main] *)

(** ** Computations against a script of replies *)

Module scripted.

(** An exception of this part is one of those above. *)
Inductive error :=
| Builtin (e : exn).

(** The [AttributeError] of [.get] on a JSON value that is no object. *)
Definition AttributeError : error := Builtin py.AttributeError.

(** [except Exception] catches it. *)
Definition caught (e : error) : bool :=
  match e with
  | Builtin e => is_Exception e
  end.

(** How a computation ends: with a value, with an exception, or blocked
    on a call the script has no reply for. *)
Inductive answer (A : Type) :=
| Returned (a : A)
| Raised (e : error)
| Blocked.
Global Arguments Returned {A} a.
Global Arguments Raised {A} e.
Global Arguments Blocked {A}.

(** A computation: from the script of replies (the n-th call that
    expects a reply gets the n-th entry) to the events in order, the
    answer, and the rest of the script. [E] are the events, [R] the
    replies. *)
Definition prog (E R A : Type) : Type :=
  list R → list E * answer A * list R.

Definition ret {E R A} (a : A) : prog E R A :=
  λ script, ([], Returned a, script).

Definition raise {E R A} (e : error) : prog E R A :=
  λ script, ([], Raised e, script).

Definition bind {E R A B} (m : prog E R A) (k : A → prog E R B)
  : prog E R B :=
  λ script,
    match m script with
    | (trace, Returned a, rest) =>
        let '(trace', b, rest') := k a rest in (trace ++ trace', b, rest')
    | (trace, Raised e, rest) => (trace, Raised e, rest)
    | (trace, Blocked, rest) => (trace, Blocked, rest)
    end.

(** An event that expects no reply. *)
Definition emit {E R} (e : E) : prog E R unit :=
  λ script, ([e], Returned (), script).

(** A call: the event, then its reply. *)
Definition ask {E R} (e : E) : prog E R R :=
  λ script,
    match script with
    | [] => ([e], Blocked, [])
    | reply :: rest => ([e], Returned reply, rest)
    end.

(** A value or exception of the pure part. *)
Definition lift {E R A} (r : result A) : prog E R A :=
  match r with
  | Ok a => ret a
  | Raise e => raise (Builtin e)
  end.

(** [try: body  except Exception: handler] *)
Definition try_except {E R A} (body handler : prog E R A) : prog E R A :=
  λ script,
    match body script with
    | (trace, Raised e, rest) =>
        if caught e then
          let '(trace', a, rest') := handler rest in (trace ++ trace', a, rest')
        else (trace, Raised e, rest)
    | other => other
    end.

End scripted.

Global Instance prog_bind {E R} : MBind (scripted.prog E R) :=
  λ A B k m, scripted.bind m k.

(** ** More Python builtins *)

Module py2.

(** The line feed. *)
Definition nl : string := String "010" EmptyString.

(** [sep.join(parts)] *)
Fixpoint join (sep : string) (parts : list string) : string :=
  match parts with
  | [] => EmptyString
  | [part] => part
  | part :: parts' => part +:+ sep +:+ join sep parts'
  end.

(** [s.split()]: the maximal runs of characters that are no whitespace. *)
Fixpoint split_whitespace_go (cur s : string) : list string :=
  match s with
  | EmptyString => if truthy cur then [String.rev cur] else []
  | String a s' =>
      if isspace a then
        (if truthy cur then [String.rev cur] else [])
        ++ split_whitespace_go EmptyString s'
      else split_whitespace_go (String a cur) s'
  end.
Definition split_whitespace (s : string) : list string :=
  split_whitespace_go EmptyString s.

(** [str(n)] for an [int]. *)
Definition str_int (n : Z) : string :=
  DecimalString.NilZero.string_of_int (Z.to_int n).

(** [str(n)] for a length. *)
Definition str_len (n : nat) : string := str_int (Z.of_nat n).

(** [s.startswith(prefix)] *)
Definition startswith (s prefix : string) : bool := String.prefix prefix s.

(** Truth value of a decoded JSON value. *)
Definition jtruthy (v : jvalue) : bool :=
  match v with
  | JNull => false
  | JBool b => b
  | JNum n => negb (n =? 0)%Z
  | JStr s => truthy s
  | JList [] => false
  | JList _ => true
  | JDict [] => false
  | JDict _ => true
  end.

(** [v.get(key)] for a decoded JSON value: only an object has [get]. *)
Definition get (v : jvalue) (key : string)
  : scripted.error + option jvalue :=
  match v with
  | JDict d => inr (dict_get d key)
  | _ => inl scripted.AttributeError
  end.

Section Format.

(** [str(v)] of a list or an object. *)
Variable repr_container : jvalue → string.

(** [str(v)], as an f-string formats a decoded JSON value. *)
Definition str_value (v : jvalue) : string :=
  match v with
  | JNull => "None"
  | JBool true => "True"
  | JBool false => "False"
  | JNum n => str_int n
  | JStr s => s
  | _ => repr_container v
  end.

End Format.

End py2.

(** ** Credentials: [pick_cli], [run_cmd], [sf_org_auth] *)

Module cli.
Import scripted py2.

(** What [subprocess.run] returns. *)
Record CompletedProcess := mkCompleted {
  returncode : Z;
  stdout : string;
  stderr : string;
}.

(** A computation that runs commands: an event is the command line. *)
Definition proc (A : Type) : Type := prog (list string) CompletedProcess A.

(** The executables tried, in this order. *)
Definition candidates : list string := ["sf.cmd"; "sf"; "sfdx.cmd"; "sfdx"].

Fixpoint first_available (which : string → bool) (cmds : list string)
  : option string :=
  match cmds with
  | [] => None
  | cmd :: cmds' => if which cmd then Some cmd else first_available which cmds'
  end.

(** [pick_cli()]; [which cmd] is the truth value of [shutil.which(cmd)]. *)
Definition pick_cli (which : string → bool) : result string :=
  match first_available which candidates with
  | Some cmd => Ok cmd
  | None =>
      Raise (FileNotFoundError
        "Salesforce CLI not found on PATH. Verify `sf --version` works in this terminal.")
  end.

(** [run_cmd(cmd)] *)
Definition run_cmd (cmd : list string) : proc string :=
  completed ← ask cmd;
  if decide (returncode completed ≠ 0%Z) then
    raise (Builtin (RuntimeError
      ("Command failed:" +:+ nl +:+ "  " +:+ join " " cmd +:+ nl +:+ nl
       +:+ "STDERR:" +:+ nl +:+ strip (stderr completed))))
  else ret (stdout completed).

Section Auth.

Variable which : string → bool.

(** [json.loads(output)]; [None] when it raises [JSONDecodeError]. *)
Variable json_loads : string → option jvalue.

(** The inner function [org_display] of [sf_org_auth]. *)
Definition org_display (cli alias : string) : proc jvalue :=
  output ← run_cmd
    (if startswith cli "sf"
     then [cli; "org"; "display"; "--json"; "--target-org"; alias]
     else [cli; "force:org:display"; "--json"; "-u"; alias]);
  match json_loads output with
  | Some data => ret data
  | None => raise (Builtin JSONDecodeError)
  end.

(** The inner function [org_login_web] of [sf_org_auth]. *)
Definition org_login_web (cli alias : string) (login_url : option string)
  : proc unit :=
  let command := [cli] in
  let command :=
    if startswith cli "sf" then
      let command := command ++ ["org"; "login"; "web"; "--alias"; alias] in
      match login_url with
      | Some u => if truthy u then command ++ ["--instance-url"; u] else command
      | None => command
      end
    else
      let command := command ++ ["force:auth:web:login"; "-a"; alias] in
      match login_url with
      | Some u => if truthy u then command ++ ["-r"; u] else command
      | None => command
      end in
  _ ← run_cmd command; ret ().

(** The statements of [sf_org_auth] after [data] is known. *)
Definition credentials_of (data : jvalue) : proc dict :=
  match get data "result" with
  | inl e => raise e
  | inr found =>
      let result :=
        match found with
        | Some v => if jtruthy v then v else JDict []
        | None => JDict []
        end in
      match get result "accessToken", get result "instanceUrl" with
      | inl e, _ | _, inl e => raise e
      | inr (Some access_token), inr (Some instance_url) =>
          if negb (jtruthy access_token) || negb (jtruthy instance_url)
          then raise (Builtin (RuntimeError
                 "Could not extract accessToken/instanceUrl from Salesforce CLI output."))
          else ret [("accessToken", access_token); ("instanceUrl", instance_url)]
      | inr _, inr _ =>
          (* a key that is absent gives [None], which is false *)
          raise (Builtin (RuntimeError
            "Could not extract accessToken/instanceUrl from Salesforce CLI output."))
      end
  end.

(** [sf_org_auth(alias, login_url)] *)
Definition sf_org_auth (alias : string) (login_url : option string)
  : proc dict :=
  cli ← lift (pick_cli which);
  data ← try_except (org_display cli alias)
            (_ ← org_login_web cli alias login_url; org_display cli alias);
  credentials_of data.

End Auth.

End cli.

(** ** The bulk export and [main] *)

Module app.
Import scripted py2.

(** [requests.post(url, headers=..., json=..., timeout=...)] *)
Record PostRequest := mkPost {
  post_url : string;
  post_headers : list (string * string);
  post_json : dict;
  post_timeout : Z;
}.

(** What [main] does to the outside after the credentials are known:
    the requests and sleeps of the bulk client, the two reports it
    writes, and the lines it prints.  A failure of [to_csv] is not
    modelled. *)
Inductive effect :=
| Http (e : event)
| Post (request : PostRequest)
| ToCsv (path : string) (table : DataFrame)
| Print (line : string).

(** A computation of this part; a reply is what a request receives, a
    response or the exception [requests] raises. *)
Definition io (A : Type) : Type := prog effect (result Response) A.

Definition is_get (e : event) : bool :=
  match e with
  | Get _ => true
  | Sleep _ => false
  end.

(** The bulk loops above, as computations: every GET took one reply. *)
Definition of_run {A} (f : list (result Response) → list event * run A)
  : io A :=
  λ replies,
    let '(trace, out) := f replies in
    (Http <$> trace,
     match out with
     | Finished (Ok a) => Returned a
     | Finished (Raise e) => Raised (Builtin e)
     | Waiting => Blocked
     end,
     drop (length (filter (λ e, is_get e = true) trace)) replies).

(** The literal of [build_contentversion_soql]. *)
Definition soql_literal : string :=
"
    SELECT
      ContentDocumentId,
      Title,
      FileType,
      FileExtension,
      ContentSize,
      CreatedDate,
      CreatedById,
      CreatedBy.Name,
      LastModifiedDate,
      OwnerId
    FROM ContentVersion
    WHERE IsLatest = true
    ".

(** [build_contentversion_soql()] *)
Definition build_contentversion_soql : string :=
  join " " (split_whitespace soql_literal).

(** [bulk2_create_job(instance_url, access_token, api_version, soql)];
    the value of [response.json()["id"]] is returned as it is. *)
Definition bulk2_create_job (instance_url access_token api_version soql : string)
  : io jvalue :=
  let url := instance_url +:+ "/services/data/v" +:+ api_version
               +:+ "/jobs/query" in
  let headers := [("Authorization", "Bearer " +:+ access_token);
                  ("Content-Type", "application/json")] in
  let payload := [("operation", JStr "query");
                  ("query", JStr soql);
                  ("contentType", JStr "CSV");
                  ("columnDelimiter", JStr "COMMA");
                  ("lineEnding", JStr "LF")] in
  reply ← ask (Post (mkPost url headers payload 60));
  response ← lift reply;
  if (400 <=? status_code response)%Z then
    raise (Builtin (RuntimeError
      ("Bulk job creation failed HTTP " +:+ str_int (status_code response)
       +:+ ":" +:+ nl +:+ text response +:+ nl +:+ "SOQL:" +:+ nl +:+ soql)))
  else
    match json response with
    | None => raise (Builtin JSONDecodeError)
    | Some body =>
        match dict_get body "id" with
        | Some id => ret id
        | None => raise (Builtin (KeyError "id"))
        end
    end.

(** The parsed command line. *)
Record Args := mkArgs {
  alias : string;
  login_url : option string;
  api_version : string;
  sitetracker_csv : string;
  docid_col : string;
  out : string;
  out_files_only : string;
  bulk_max_records : Z;
  sitetracker_columns : option string;
  encoding : string;
}.

Section Main.

Variable repr : dict → string.
Variable repr_container : jvalue → string.
Variable read_csv : string → string → result DataFrame.
Variable read_csv_text : string → result DataFrame.
Variable to_numeric : cell → cell.
Variable megabytes : cell → cell.

Variable args : Args.
Variables instance_url access_token : string.

(** [main], lines 433 to 439: the job is created, awaited and fetched. *)
Definition bulk_export : io DataFrame :=
  let soql := build_contentversion_soql in
  _ ← emit (Print "Bulk exporting ContentVersion (IsLatest=true)...");
  job_id ← bulk2_create_job instance_url access_token (api_version args) soql;
  let job_id := str_value repr_container job_id in
  _ ← of_run (bulk2_wait_job repr instance_url access_token
                (api_version args) job_id);
  of_run (bulk2_fetch_results read_csv_text instance_url access_token
            (api_version args) job_id (bulk_max_records args)).

(** [main], lines 441 to 464: from the downloaded table to the two
    reports. *)
Definition write_reports (site_tracker_df : DataFrame)
    (docid_set : gset string) (content_versions : DataFrame) : io unit :=
  if empty content_versions then
    raise (Builtin (SystemExit (ExitObj
      "No ContentVersion rows returned. (Permissions? Query All Files?)")))
  else
    _ ← emit (Print ("Downloaded ContentVersion rows: "
                     +:+ str_len (len content_versions)));
    content_versions ← lift (add_size_columns to_numeric megabytes
                               content_versions);
    ids ← lift (getitem content_versions "ContentDocumentId");
    let matched_files := getitem_mask content_versions (isin ids docid_set) in
    _ ← emit (Print ("Matched ContentVersion rows to SiteTracker docids: "
                     +:+ str_len (len matched_files)));
    matched_files ← lift (drop_duplicates matched_files "ContentDocumentId");
    matched_files ← lift (add_file_urls matched_files instance_url);
    _ ← emit (ToCsv (out_files_only args) matched_files);
    _ ← emit (Print ("Wrote file details only: " +:+ out_files_only args));
    merged ← lift (merge_site_tracker_and_files site_tracker_df matched_files
                     (docid_col args) instance_url);
    _ ← emit (ToCsv (out args) merged);
    _ ← emit (Print ("Wrote merged output: " +:+ out args));
    if has_column merged "ContentSizeBytes" then
      sizes ← lift (getitem merged "ContentSizeBytes");
      emit (Print ("Rows with no matched file size (missing/permission/invalid docid): "
                   +:+ str_len (length (filter (λ c, notna c = false) sizes))))
    else ret ().

(** [main] after [sf_org_auth], lines 414 to 464. *)
Definition main_after_auth : io unit :=
  let sitetracker_columns := sitetracker_columns_of (sitetracker_columns args) in
  site_tracker_df ← lift (read_sitetracker_csv read_csv (sitetracker_csv args)
                            (docid_col args) sitetracker_columns
                            (encoding args));
  docid_set ← lift (extract_docids site_tracker_df (docid_col args));
  if decide (docid_set = ∅) then
    raise (Builtin (SystemExit (ExitObj
      "No ContentDocumentIds found in the SiteTracker CSV.")))
  else
    _ ← emit (Print ("SiteTracker rows loaded: "
                     +:+ str_len (len site_tracker_df)));
    _ ← emit (Print ("Distinct ContentDocumentIds in SiteTracker: "
                     +:+ str_len (size docid_set)));
    content_versions ← bulk_export;
    write_reports site_tracker_df docid_set content_versions.

End Main.

Section Program.

Variable which : string → bool.
Variable json_loads : string → option jvalue.
Variable repr : dict → string.
Variable repr_container : jvalue → string.
Variable read_csv : string → string → result DataFrame.
Variable read_csv_text : string → result DataFrame.
Variable to_numeric : cell → cell.
Variable megabytes : cell → cell.

(** [main(argv)] for parsed arguments: the commands run, then the
    effects, and how it ends. *)
Definition main (args : Args) (processes : list cli.CompletedProcess)
    (replies : list (result Response))
  : list (list string) * list effect * answer unit :=
  match cli.sf_org_auth which json_loads (alias args) (login_url args)
          processes with
  | (commands, Returned auth, _) =>
      match dict_get auth "instanceUrl", dict_get auth "accessToken" with
      | Some instance_url, Some access_token =>
          let '(effects, a, _) :=
            main_after_auth repr repr_container read_csv read_csv_text
              to_numeric megabytes args
              (str_value repr_container instance_url)
              (str_value repr_container access_token) replies in
          (commands, effects, a)
      | None, _ => (commands, [], Raised (Builtin (KeyError "instanceUrl")))
      | _, None => (commands, [], Raised (Builtin (KeyError "accessToken")))
      end
  | (commands, Raised e, _) => (commands, [], Raised e)
  | (commands, Blocked, _) => (commands, [], Blocked)
  end.

End Program.

End app.

(** * Vocabulary of the further properties *)

(** The metadata row a local row is joined with: the first one with the
    key of the local row. *)
Definition joined_with (li ri : nat) (rrows : list (list cell))
    (lrow : list cell) : option (list cell) :=
  head (filter (λ r, join_key (at_pos ri r) = join_key (at_pos li lrow)) rrows).

(** The label a metadata column has in the merged table. *)
Definition merged_label (local_columns : list string) (c : string) : string :=
  if decide (c ∈ local_columns) then c +:+ "_File" else c.

(** The two command lines of the current CLI. *)
Definition display_command (cli alias : string) : list string :=
  [cli; "org"; "display"; "--json"; "--target-org"; alias].

Definition login_command (cli alias : string) (login_url : option string)
  : list string :=
  [cli; "org"; "login"; "web"; "--alias"; alias]
  ++ match login_url with
     | Some u => if truthy u then ["--instance-url"; u] else []
     | None => []
     end.

(** A finished [org display] whose output could be used: exit status 0
    and output that [json.loads] accepts. *)
Definition display_ok (json_loads : string → option jvalue)
    (completed : cli.CompletedProcess) : Prop :=
  cli.returncode completed = 0%Z
  ∧ is_Some (json_loads (cli.stdout completed)).

(** The shapes a run of [sf_org_auth] can have. *)
Inductive auth_run (json_loads : string → option jvalue)
    (cli alias : string) (login_url : option string)
  : list cli.CompletedProcess → list (list string) * scripted.answer dict
                            * list cli.CompletedProcess → Prop :=
| auth_no_reply :
    auth_run json_loads cli alias login_url []
      ([display_command cli alias], scripted.Blocked, [])
| auth_first p1 rest data :
    cli.returncode p1 = 0%Z → json_loads (cli.stdout p1) = Some data →
    auth_run json_loads cli alias login_url (p1 :: rest)
      ([display_command cli alias],
       (cli.credentials_of data rest).1.2, rest)
| auth_login_no_reply p1 :
    ¬ display_ok json_loads p1 →
    auth_run json_loads cli alias login_url [p1]
      ([display_command cli alias; login_command cli alias login_url],
       scripted.Blocked, [])
| auth_login_failed p1 p2 rest :
    ¬ display_ok json_loads p1 → cli.returncode p2 ≠ 0%Z →
    auth_run json_loads cli alias login_url (p1 :: p2 :: rest)
      ([display_command cli alias; login_command cli alias login_url],
       scripted.Raised (scripted.Builtin (RuntimeError
         ("Command failed:" +:+ py2.nl +:+ "  "
          +:+ py2.join " " (login_command cli alias login_url) +:+ py2.nl +:+ py2.nl
          +:+ "STDERR:" +:+ py2.nl +:+ strip (cli.stderr p2)))),
       rest)
| auth_second_no_reply p1 p2 :
    ¬ display_ok json_loads p1 → cli.returncode p2 = 0%Z →
    auth_run json_loads cli alias login_url [p1; p2]
      ([display_command cli alias; login_command cli alias login_url;
        display_command cli alias], scripted.Blocked, [])
| auth_second_failed p1 p2 p3 rest e :
    ¬ display_ok json_loads p1 → cli.returncode p2 = 0%Z →
    ¬ display_ok json_loads p3 →
    auth_run json_loads cli alias login_url (p1 :: p2 :: p3 :: rest)
      ([display_command cli alias; login_command cli alias login_url;
        display_command cli alias], scripted.Raised (scripted.Builtin e), rest)
| auth_second p1 p2 p3 rest data :
    ¬ display_ok json_loads p1 → cli.returncode p2 = 0%Z →
    cli.returncode p3 = 0%Z → json_loads (cli.stdout p3) = Some data →
    auth_run json_loads cli alias login_url (p1 :: p2 :: p3 :: rest)
      ([display_command cli alias; login_command cli alias login_url;
        display_command cli alias],
       (cli.credentials_of data rest).1.2, rest).

(** A request for a page of results: it asks for CSV. *)
Definition results_request (e : app.effect) : Prop :=
  ∃ request, e = app.Http (Get request)
             ∧ ("Accept", "text/csv") ∈ request_headers request.

(** A reply to the POST that creates the job: a status below 400 and a
    body with an [id]. *)
Definition accepts_job (reply : result Response) : Prop :=
  ∃ response body,
    reply = Ok response ∧ (status_code response < 400)%Z
    ∧ json response = Some body ∧ is_Some (dict_get body "id").

(** A reply to a poll that reports the job complete. *)
Definition reports_complete (reply : result Response) : Prop :=
  ∃ response info,
    reply = Ok response ∧ raise_for_status response = Ok ()
    ∧ json response = Some info
    ∧ dict_get info "state" = Some (JStr "JobComplete").

(** The reports among the effects, in the order written. *)
Definition writes (effects : list app.effect) : list (string * DataFrame) :=
  effects ≫= λ e, match e with
                  | app.ToCsv path table => [(path, table)]
                  | _ => []
                  end.

(** ** Further example data *)

(** A path on which only [sf] is found. *)
Definition which_sf (cmd : string) : bool := bool_decide (cmd = "sf").

(** A [json.loads] that knows one output, [credentials]. *)
Definition loads_example (output : string) : option jvalue :=
  if decide (output = "credentials") then
    Some (JDict [("status", JNum 0);
                 ("result",
                  JDict [("accessToken", JStr "00D!token");
                         ("instanceUrl",
                          JStr "https://example.my.salesforce.com")])])
  else None.

Definition display_done : cli.CompletedProcess :=
  cli.mkCompleted 0 "credentials" "".

Definition args_example : app.Args :=
  app.mkArgs "myorg" None "60.0" "attachments.csv"
    "sitetracker__ContentDocumentRecord__c" "merged.csv" "files.csv" 50000
    (Some "Name, Other") "utf-8-sig".

Definition reply_created : Response :=
  mkResponse 200 [] "" (Some [("id", JStr "750"); ("state", JStr "UploadComplete")]).
Definition reply_complete : Response :=
  mkResponse 200 [] "" (Some [("id", JStr "750"); ("state", JStr "JobComplete")]).
Definition reply_rejected : Response :=
  mkResponse 400 [] "MALFORMED_QUERY" None.

(** The one page of metadata: an identifier on two rows, and one that
    the local file does not have. *)
Definition page_metadata : Response :=
  mkResponse 200 []
    "ContentDocumentId,Title,ContentSize
DOC1,First,10
DOC1,Again,20
DOC9,Other,30
" None.

(** The table read from that page. *)
Definition content_versions_example : DataFrame :=
  mkDataFrame ["ContentDocumentId"; "Title"; "ContentSize"]
    [[Str "DOC1"; Str "First"; Str "10"];
     [Str "DOC1"; Str "Again"; Str "20"];
     [Str "DOC9"; Str "Other"; Str "30"]].

(** A file whose identifier column is blank or missing on every row. *)
Definition blank_docids_csv : DataFrame :=
  mkDataFrame ["sitetracker__ContentDocumentRecord__c"; "Name"]
    [[Str ""; Str "A"]; [NaN; Str "B"]].

(** A closed decidable proposition, by evaluation. *)
Ltac by_evaluation := apply (bool_decide_unpack _); vm_compute; exact I.

(** * Properties *)

(** ** Column lookup and assignment *)

Section Frames.

Implicit Types (df : DataFrame) (cols : list string) (row : list cell).

Lemma get_loc_Some label cols i :
  get_loc label cols = Some i →
  cols !! i = Some label ∧ ∀ j, j < i → cols !! j ≠ Some label.
Proof.
  revert i. induction cols as [|c cols IH]; intros i; simpl; [done|].
  destruct (decide (c = label)) as [->|Hne].
  - intros [= <-]. split; [done|]. intros j Hj. lia.
  - destruct (get_loc label cols) as [k|] eqn:Hk; simpl; [|done].
    intros [= <-]. destruct (IH k eq_refl) as [Hat Hbefore].
    split; [done|]. intros [|j] Hj; simpl.
    + congruence.
    + apply Hbefore. lia.
Qed.

Lemma get_loc_lt label cols i :
  get_loc label cols = Some i → i < length cols.
Proof.
  intros H%get_loc_Some. eapply lookup_lt_Some, H.
Qed.

Lemma get_loc_None label cols :
  get_loc label cols = None ↔ label ∉ cols.
Proof.
  induction cols as [|c cols IH]; simpl.
  - split; [intros _; apply not_elem_of_nil|done].
  - destruct (decide (c = label)) as [->|Hne].
    + split; [done|]. intros []. left.
    + rewrite not_elem_of_cons, <- IH.
      destruct (get_loc label cols); simpl; intuition congruence.
Qed.

Lemma get_loc_is_Some label cols :
  label ∈ cols → ∃ i, get_loc label cols = Some i.
Proof.
  intros Hin. destruct (get_loc label cols) as [i|] eqn:H; [eauto|].
  by apply get_loc_None in H.
Qed.

Lemma get_loc_app_l label cols cols' i :
  get_loc label cols = Some i → get_loc label (cols ++ cols') = Some i.
Proof.
  revert i. induction cols as [|c cols IH]; intros i; simpl; [done|].
  destruct (decide (c = label)); [done|].
  destruct (get_loc label cols) as [k|]; simpl; [|done].
  intros [= <-]. by rewrite (IH k eq_refl).
Qed.

Lemma get_loc_app_r label cols cols' :
  label ∉ cols →
  get_loc label (cols ++ cols') = (λ i, length cols + i) <$> get_loc label cols'.
Proof.
  induction cols as [|c cols IH]; simpl.
  - intros _. by destruct (get_loc label cols').
  - intros [Hne Hnin]%not_elem_of_cons.
    destruct (decide (c = label)); [congruence|].
    rewrite (IH Hnin). by destruct (get_loc label cols').
Qed.

Lemma has_column_true df label :
  has_column df label = true ↔ label ∈ columns df.
Proof. unfold has_column. by rewrite bool_decide_eq_true. Qed.

Lemma repeated_NoDup label cols : NoDup cols → repeated label cols = false.
Proof.
  intros Hnd. unfold repeated. apply bool_decide_eq_false_2.
  induction Hnd as [|c cols Hc _ IH]; simpl; [lia|].
  rewrite filter_cons. destruct (decide (c = label)) as [->|Hne]; [|done].
  simpl. assert (filter (λ c, c = label) cols = []) as ->; [|simpl; lia].
  clear IH. induction cols as [|c cols IH]; [done|].
  apply not_elem_of_cons in Hc as [Hc1 Hc2].
  rewrite filter_cons, decide_False by done. by apply IH.
Qed.

Lemma at_pos_lookup i row c : row !! i = Some c → at_pos i row = c.
Proof. intros H. unfold at_pos. by rewrite nth_lookup, H. Qed.

Lemma at_pos_insert_eq i row v : i < length row → at_pos i (<[i := v]> row) = v.
Proof. intros H. apply at_pos_lookup. by apply list_lookup_insert_eq. Qed.

Lemma at_pos_insert_ne i j row v : i ≠ j → at_pos j (<[i := v]> row) = at_pos j row.
Proof.
  intros H. unfold at_pos. by rewrite !nth_lookup, list_lookup_insert_ne.
Qed.

Lemma at_pos_app_l i row row' : i < length row → at_pos i (row ++ row') = at_pos i row.
Proof.
  intros H. unfold at_pos. by rewrite !nth_lookup, lookup_app_l.
Qed.

Lemma at_pos_snoc row v : at_pos (length row) (row ++ [v]) = v.
Proof. apply at_pos_lookup. by rewrite list_lookup_middle. Qed.

Lemma getitem_Ok df label column :
  getitem df label = Ok column →
  ∃ i, get_loc label (columns df) = Some i ∧ column = at_pos i <$> data df.
Proof.
  unfold getitem. destruct (get_loc label (columns df)) as [i|]; [|done].
  intros [= <-]. eauto.
Qed.

Lemma getitem_length df label column :
  getitem df label = Ok column → length column = len df.
Proof.
  intros (i & _ & ->)%getitem_Ok. by rewrite length_fmap.
Qed.

Lemma getitem_has_column df label :
  has_column df label = true → ∃ column, getitem df label = Ok column.
Proof.
  intros [i Hi]%has_column_true%get_loc_is_Some.
  unfold getitem. rewrite Hi. eauto.
Qed.

Lemma fmap_zip_with_l {A B C D} (f : A → B → C) (g : C → D) (h : A → D)
    (l : list A) (k : list B) :
  length k = length l →
  (∀ a b, a ∈ l → g (f a b) = h a) →
  g <$> zip_with f l k = h <$> l.
Proof.
  revert k. induction l as [|a l IH]; intros [|b k] Hlen H; simpl in *; try done.
  rewrite H by left. f_equal. apply IH; [lia|].
  intros a' b' Ha'. apply H. by right.
Qed.

Lemma fmap_zip_with_r {A B C} (f : A → B → C) (g : C → B)
    (l : list A) (k : list B) :
  length k = length l →
  (∀ a b, a ∈ l → g (f a b) = b) →
  g <$> zip_with f l k = k.
Proof.
  revert k. induction l as [|a l IH]; intros [|b k] Hlen H; simpl in *; try done.
  rewrite H by left. f_equal. apply IH; [lia|].
  intros a' b' Ha'. apply H. by right.
Qed.

(** Reading back the column that was just assigned. *)
Lemma getitem_setitem_eq df label values :
  rectangular df → length values = len df →
  getitem (setitem df label values) label = Ok values.
Proof.
  intros Hrect Hlen. unfold setitem, getitem.
  destruct (get_loc label (columns df)) as [i|] eqn:Hi; simpl.
  - rewrite Hi. f_equal. apply fmap_zip_with_r; [done|].
    intros row v Hrow. apply at_pos_insert_eq.
    unfold rectangular in Hrect. rewrite Forall_forall in Hrect.
    rewrite (Hrect row Hrow). by eapply get_loc_lt.
  - apply get_loc_None in Hi.
    rewrite (get_loc_app_r _ _ _ Hi). simpl.
    rewrite decide_True by done. simpl. f_equal.
    apply fmap_zip_with_r; [done|].
    intros row v Hrow. rewrite Nat.add_0_r.
    unfold rectangular in Hrect. rewrite Forall_forall in Hrect.
    rewrite <- (Hrect row Hrow). apply at_pos_snoc.
Qed.

(** Assigning one column leaves every other column as it was. *)
Lemma getitem_setitem_ne df label label' values :
  rectangular df → length values = len df → label ≠ label' →
  getitem (setitem df label values) label' = getitem df label'.
Proof.
  intros Hrect Hlen Hne. unfold setitem, getitem.
  unfold rectangular in Hrect. rewrite Forall_forall in Hrect.
  destruct (get_loc label (columns df)) as [i|] eqn:Hi; simpl.
  - destruct (get_loc label' (columns df)) as [j|] eqn:Hj; [|done].
    f_equal. apply fmap_zip_with_l; [done|].
    intros row v Hrow. apply at_pos_insert_ne.
    intros ->. apply get_loc_Some in Hi as [Hi _].
    apply get_loc_Some in Hj as [Hj _]. congruence.
  - destruct (get_loc label' (columns df)) as [j|] eqn:Hj.
    + rewrite (get_loc_app_l _ _ _ _ Hj). f_equal.
      apply fmap_zip_with_l; [done|].
      intros row v Hrow. apply at_pos_app_l.
      rewrite (Hrect row Hrow). by eapply get_loc_lt.
    + apply get_loc_None in Hj.
      rewrite (get_loc_app_r _ _ _ Hj). simpl.
      by rewrite decide_False by done.
Qed.

Lemma setitem_len df label values :
  length values = len df → len (setitem df label values) = len df.
Proof.
  intros Hlen. unfold setitem, len in *.
  destruct (get_loc label (columns df)); simpl;
    rewrite length_zip_with; lia.
Qed.

Lemma Forall_zip_with_l {A B C} (P : A → Prop) (Q : C → Prop)
    (f : A → B → C) (l : list A) (k : list B) :
  Forall P l → (∀ a b, P a → Q (f a b)) → Forall Q (zip_with f l k).
Proof.
  intros Hl Hf. revert k.
  induction Hl as [|a l Ha _ IH]; intros [|b k]; simpl; try constructor; auto.
Qed.

Lemma setitem_rectangular df label values :
  rectangular df → rectangular (setitem df label values).
Proof.
  unfold rectangular, setitem. intros Hrect.
  destruct (get_loc label (columns df)) as [i|]; simpl.
  - eapply Forall_zip_with_l; [exact Hrect|].
    intros row v Hrow. simpl in *. by rewrite length_insert.
  - eapply Forall_zip_with_l; [exact Hrect|].
    intros row v Hrow. simpl in *. rewrite !length_app. simpl. lia.
Qed.

End Frames.

(** ** Identifier extraction *)

Section Unique.

Context {A : Type} `{EqDecision A}.
Implicit Types (l seen : list A).

Lemma elem_of_unique_go seen l x :
  x ∈ unique_go seen l ↔ x ∈ l ∧ x ∉ seen.
Proof.
  revert seen. induction l as [|y l IH]; intros seen; simpl.
  - rewrite elem_of_nil. tauto.
  - destruct (decide (y ∈ seen)) as [Hy|Hy].
    + rewrite IH, elem_of_cons. split; [tauto|].
      intros [[->|Hx] Hns]; tauto.
    + rewrite !elem_of_cons, IH, not_elem_of_cons. split.
      * intros [->|(Hx & Hne & Hns)]; tauto.
      * intros [[->|Hx] Hns]; [tauto|].
        destruct (decide (x = y)); tauto.
Qed.

Lemma elem_of_unique l x : x ∈ unique l ↔ x ∈ l.
Proof.
  unfold unique. rewrite elem_of_unique_go, elem_of_nil. tauto.
Qed.

Lemma NoDup_unique_go seen l : NoDup (unique_go seen l).
Proof.
  revert seen. induction l as [|y l IH]; intros seen; simpl.
  - constructor.
  - destruct (decide (y ∈ seen)); [apply IH|].
    constructor; [|apply IH].
    rewrite elem_of_unique_go, not_elem_of_cons. tauto.
Qed.

Lemma NoDup_unique l : NoDup (unique l).
Proof. apply NoDup_unique_go. Qed.

(** On a list without repetition [unique] changes nothing. *)
Lemma unique_go_NoDup seen l :
  NoDup l → (∀ x, x ∈ l → x ∉ seen) → unique_go seen l = l.
Proof.
  revert seen. induction l as [|y l IH]; intros seen Hnd Hsep; simpl; [done|].
  apply NoDup_cons in Hnd as [Hy Hnd].
  rewrite decide_False by (apply Hsep; left).
  f_equal. apply IH; [done|].
  intros x Hx. rewrite not_elem_of_cons. split.
  - intros ->. tauto.
  - apply Hsep. by right.
Qed.

End Unique.

Lemma column_docids_Str column x :
  column_docids column x ↔ x ≠ "" ∧ Str x ∈ column.
Proof.
  unfold column_docids. split.
  - intros (Hne & c & Hc & Hna & <-). by destruct c.
  - intros (Hne & Hx). split; [done|]. by exists (Str x).
Qed.

Lemma elem_of_nonempty_strs (l : list string) x :
  x ∈ nonempty_strs l ↔ x ∈ l ∧ x ≠ "".
Proof.
  unfold nonempty_strs. rewrite list_elem_of_filter.
  destruct x; simpl; split; intros [H1 H2]; split; try done; try lia.
Qed.

Lemma elem_of_extract_docids df docid_col column docids x :
  getitem df docid_col = Ok column →
  extract_docids df docid_col = Ok docids →
  x ∈ docids ↔ column_docids column x.
Proof.
  unfold extract_docids. intros ->. simpl.
  destruct (repeated docid_col (columns df)); [done|]. intros [= <-].
  rewrite elem_of_list_to_set, elem_of_unique, elem_of_nonempty_strs.
  unfold astype_str, dropna, column_docids.
  rewrite list_elem_of_fmap. setoid_rewrite list_elem_of_filter.
  split.
  - intros [(c & -> & Hna & Hc) Hne]. eauto.
  - intros (Hne & c & Hc & Hna & <-). eauto.
Qed.

(** [extract_docids] returns a set exactly on a frame that has the
    label once. *)
Lemma extract_docids_returns df docid_col column :
  getitem df docid_col = Ok column →
  repeated docid_col (columns df) = false →
  ∃ docids, extract_docids df docid_col = Ok docids.
Proof. intros Hcol Hone. unfold extract_docids. rewrite Hcol, Hone. eauto. Qed.

Lemma extract_docids_Ok df docid_col docids :
  extract_docids df docid_col = Ok docids →
  repeated docid_col (columns df) = false
  ∧ ∃ column, getitem df docid_col = Ok column.
Proof.
  unfold extract_docids.
  destruct (getitem df docid_col) as [column|]; [|done]. simpl.
  destruct (repeated docid_col (columns df)); [done|]. eauto.
Qed.

(** C4. On a dataframe that has the identifier label once,
    [extract_docids] returns exactly the set of the distinct non-empty
    strings that column holds once the missing values are dropped and
    the rest is read as [str]; any other such column with the same
    non-blank strings (rows in another order, repeated, blank or missing
    entries added or removed) gives the same set. *)
Theorem extract_docids_distinct_nonempty df docid_col column :
  getitem df docid_col = Ok column →
  repeated docid_col (columns df) = false →
  ∃ docids : gset string,
    extract_docids df docid_col = Ok docids
    ∧ (∀ x, x ∈ docids ↔ column_docids column x)
    ∧ (∀ df' docid_col' column',
         getitem df' docid_col' = Ok column' →
         repeated docid_col' (columns df') = false →
         (∀ x, x ≠ "" → Str x ∈ column ↔ Str x ∈ column') →
         extract_docids df' docid_col' = Ok docids).
Proof.
  intros Hcol Hone.
  destruct (extract_docids_returns df docid_col column Hcol Hone)
    as [docids Hd].
  exists docids. split; [done|]. split.
  - intros x. by eapply elem_of_extract_docids.
  - intros df' docid_col' column' Hcol' Hone' Hsame.
    destruct (extract_docids_returns df' docid_col' column' Hcol' Hone')
      as [docids' Hd'].
    rewrite Hd'. f_equal. apply leibniz_equiv, set_equiv. intros x.
    rewrite (elem_of_extract_docids _ _ _ _ x Hcol' Hd').
    rewrite (elem_of_extract_docids _ _ _ _ x Hcol Hd).
    rewrite !column_docids_Str. specialize (Hsame x). tauto.
Qed.

Lemma extract_docids_distinct_nonempty_witness :
  ∃ docids : gset string,
    extract_docids docids_example "DocId" = Ok docids
    ∧ (∀ x, x ∈ docids ↔
         column_docids [Str "123"; Str ""; Str ""; Str "123"; Str "456"] x)
    ∧ (∀ df' docid_col' column',
         getitem df' docid_col' = Ok column' →
         repeated docid_col' (columns df') = false →
         (∀ x, x ≠ "" →
            Str x ∈ [Str "123"; Str ""; Str ""; Str "123"; Str "456"]
            ↔ Str x ∈ column') →
         extract_docids df' docid_col' = Ok docids).
Proof.
  apply (extract_docids_distinct_nonempty docids_example "DocId").
  - reflexivity.
  - reflexivity.
Defined.

(** The example of the specification, and the one of the test suite
    (with a [None] entry). *)
Example extract_docids_example :
  extract_docids docids_example "DocId" = Ok {[ "123"; "456" ]}
  ∧ extract_docids
      (mkDataFrame ["DocId"]
         [[Str "123"]; [Str ""]; [NaN]; [Str "123"]; [Str "456"]]) "DocId"
    = Ok {[ "123"; "456" ]}.
Proof. split; vm_compute; reflexivity. Qed.

(** A label that is absent, and one that is there twice (as after the
    loader was asked for [DocId,DocId]). *)
Example extract_docids_raises :
  extract_docids docids_example "Other" = Raise (KeyError "Other")
  ∧ extract_docids
      (mkDataFrame ["DocId"; "DocId"] [[Str "123"; Str "123"]]) "DocId"
    = Raise AttributeError.
Proof. split; reflexivity. Qed.

(** ** File URLs *)

(** C10. [add_file_urls] keeps the identifier column and sets, on every
    row, [FileUrl] to the base URL, the fixed path, the row's identifier
    and [/view]; base [http://example.com] and identifier [DOC1] give
    [http://example.com/lightning/r/ContentDocument/DOC1/view]. *)
Theorem add_file_urls_template df instance_url ids :
  rectangular df →
  getitem df "ContentDocumentId" = Ok ids →
  ∃ out,
    add_file_urls df instance_url = Ok out
    ∧ len out = len df
    ∧ getitem out "ContentDocumentId" = Ok ids
    ∧ getitem out "FileUrl"
      = Ok ((λ content_id,
              Str (instance_url +:+ "/lightning/r/ContentDocument/"
                     +:+ to_str content_id +:+ "/view")) <$> ids)
    ∧ file_url "http://example.com" (Str "DOC1")
      = "http://example.com/lightning/r/ContentDocument/DOC1/view".
Proof.
  intros Hrect Hids. unfold add_file_urls. rewrite Hids. simpl.
  eexists. split; [done|].
  pose proof (getitem_length _ _ _ Hids) as Hlen.
  split; [|split; [|split]].
  - apply setitem_len. by rewrite length_fmap.
  - rewrite getitem_setitem_ne; [done|done| |done].
    by rewrite length_fmap.
  - rewrite getitem_setitem_eq; [done|done|].
    by rewrite length_fmap.
  - reflexivity.
Qed.

Lemma add_file_urls_template_witness :
  ∃ out,
    add_file_urls (mkDataFrame ["ContentDocumentId"] [[Str "DOC1"]])
      "http://example.com" = Ok out
    ∧ len out = 1
    ∧ getitem out "ContentDocumentId" = Ok [Str "DOC1"]
    ∧ getitem out "FileUrl"
      = Ok [Str "http://example.com/lightning/r/ContentDocument/DOC1/view"]
    ∧ file_url "http://example.com" (Str "DOC1")
      = "http://example.com/lightning/r/ContentDocument/DOC1/view".
Proof.
  apply (add_file_urls_template
           (mkDataFrame ["ContentDocumentId"] [[Str "DOC1"]])
           "http://example.com" [Str "DOC1"]).
  - repeat constructor.
  - reflexivity.
Defined.

(** ** Filtering the metadata to the identifier set, one row each *)

Section Dedupe.

Implicit Types (rows : list (list cell)) (seen : list cell).

Lemma mask_rows_isin i rows docid_set :
  mask_rows rows (isin (at_pos i <$> rows) docid_set)
  = filter (λ r, in_docids docid_set (at_pos i r)) rows.
Proof.
  unfold isin. induction rows as [|r rows IH]; csimpl; [done|].
  rewrite filter_cons, IH.
  destruct (decide (in_docids docid_set (at_pos i r))) as [(x & Hx & Hin)|Hn].
  - rewrite Hx. by rewrite bool_decide_eq_true_2.
  - destruct (at_pos i r) as [x| |] eqn:Hc; try done.
    rewrite bool_decide_eq_false_2; [done|].
    intros Hin. apply Hn. by exists x.
Qed.

Lemma drop_duplicates_go_sublist i seen rows :
  drop_duplicates_go i seen rows `sublist_of` rows.
Proof.
  revert seen. induction rows as [|r rows IH]; intros seen; simpl; [done|].
  destruct (decide (at_pos i r ∈ seen)).
  - by apply sublist_cons.
  - by apply sublist_skip.
Qed.

Lemma drop_duplicates_go_keys i seen rows :
  at_pos i <$> drop_duplicates_go i seen rows
  = unique_go seen (at_pos i <$> rows).
Proof.
  revert seen. induction rows as [|r rows IH]; intros seen; simpl; [done|].
  destruct (decide (at_pos i r ∈ seen)); simpl; by rewrite IH.
Qed.

(** A kept row is the first row of the input with its key. *)
Lemma drop_duplicates_go_first i seen rows r :
  r ∈ drop_duplicates_go i seen rows →
  (at_pos i r ∉ seen)
  ∧ head (filter (λ r', at_pos i r' = at_pos i r) rows) = Some r.
Proof.
  revert seen. induction rows as [|r0 rows IH]; intros seen; simpl.
  - by intros ?%elem_of_nil.
  - rewrite filter_cons. destruct (decide (at_pos i r0 ∈ seen)) as [Hs|Hs].
    + intros [Hns Hhd]%IH. split; [done|].
      rewrite decide_False; [done|]. congruence.
    + intros [->|Hin]%elem_of_cons.
      * split; [done|]. by rewrite decide_True.
      * apply IH in Hin as [Hns Hhd].
        apply not_elem_of_cons in Hns as [Hne Hns]. split; [done|].
        rewrite decide_False; [done|]. congruence.
Qed.

(** Every key of the input that was not seen before has a kept row. *)
Lemma drop_duplicates_go_complete i seen rows r :
  r ∈ rows → at_pos i r ∉ seen →
  ∃ r', r' ∈ drop_duplicates_go i seen rows ∧ at_pos i r' = at_pos i r.
Proof.
  intros Hin Hns.
  assert (at_pos i r ∈ at_pos i <$> drop_duplicates_go i seen rows) as Hk.
  { rewrite drop_duplicates_go_keys, elem_of_unique_go. split; [|done].
    apply list_elem_of_fmap. eauto. }
  apply list_elem_of_fmap in Hk as (r' & Heq & Hr'). eauto.
Qed.

Lemma filter_filter_implied {A} (P Q : A → Prop)
    `{∀ x, Decision (P x)} `{∀ x, Decision (Q x)} (l : list A) :
  (∀ x, P x → Q x) → filter P (filter Q l) = filter P l.
Proof.
  intros HPQ. induction l as [|x l IH]; [done|].
  rewrite !filter_cons. destruct (decide (Q x)) as [Hq|Hq].
  - rewrite filter_cons. destruct (decide (P x)); by rewrite IH.
  - rewrite decide_False by (intros Hp; apply Hq, HPQ, Hp). done.
Qed.

End Dedupe.

(** What [matched_files] returns when the identifier column exists. *)
Lemma matched_files_Ok content_versions docid_set i :
  get_loc "ContentDocumentId" (columns content_versions) = Some i →
  matched_files content_versions docid_set
  = Ok (mkDataFrame (columns content_versions)
          (drop_duplicates_go i []
             (filter (λ r, in_docids docid_set (at_pos i r))
                (data content_versions)))).
Proof.
  intros Hi. unfold matched_files, getitem, drop_duplicates.
  rewrite Hi. simpl. rewrite Hi. by rewrite mask_rows_isin.
Qed.

(** C6. After the filter to the identifier set and [drop_duplicates],
    the table has the columns of the source table and its rows are rows
    of the source table in their order; no identifier is on two rows;
    every identifier is in the identifier set; a kept row is the first
    row of the source table with its identifier; and every identifier of
    the set that the source table has is kept. *)
Theorem matched_files_first_per_identifier content_versions docid_set i :
  get_loc "ContentDocumentId" (columns content_versions) = Some i →
  ∃ out,
    matched_files content_versions docid_set = Ok out
    ∧ columns out = columns content_versions
    ∧ data out `sublist_of` data content_versions
    ∧ NoDup (at_pos i <$> data out)
    ∧ (∀ row, row ∈ data out →
         ∃ x, at_pos i row = Str x ∧ x ∈ docid_set)
    ∧ (∀ row, row ∈ data out →
         head (filter (λ r, at_pos i r = at_pos i row) (data content_versions))
         = Some row)
    ∧ (∀ row x, row ∈ data content_versions →
         at_pos i row = Str x → x ∈ docid_set →
         ∃ row', row' ∈ data out ∧ at_pos i row' = Str x).
Proof.
  intros Hi. rewrite (matched_files_Ok _ _ _ Hi).
  eexists. split; [done|]. simpl.
  set (kept := filter _ (data content_versions)).
  split; [done|]. split; [|split; [|split; [|split]]].
  - etrans; [apply drop_duplicates_go_sublist|]. apply sublist_filter.
  - rewrite drop_duplicates_go_keys. apply NoDup_unique_go.
  - intros row Hrow.
    assert (row ∈ kept) as Hk.
    { eapply elem_of_sublist; [done|apply drop_duplicates_go_sublist]. }
    apply list_elem_of_filter in Hk as [Hk _]. exact Hk.
  - intros row Hrow.
    assert (row ∈ kept) as Hk.
    { eapply elem_of_sublist; [done|apply drop_duplicates_go_sublist]. }
    apply list_elem_of_filter in Hk as [Hk _].
    apply drop_duplicates_go_first in Hrow as [_ Hhd].
    rewrite <- Hhd. unfold kept. symmetry. f_equal.
    apply filter_filter_implied. intros r ->. exact Hk.
  - intros row x Hrow Hx Hin.
    destruct (drop_duplicates_go_complete i [] kept row) as (row' & Hr' & Heq).
    + apply list_elem_of_filter. split; [|done]. by exists x.
    + apply not_elem_of_nil.
    + exists row'. split; [done|]. congruence.
Qed.

Lemma matched_files_first_per_identifier_witness :
  matched_files metadata_example {[ "D1"; "D3" ]}
  = Ok (mkDataFrame ["Title"; "ContentDocumentId"]
          [[Str "a"; Str "D1"]; [Str "d"; Str "D3"]])
  ∧ ∃ out,
      matched_files metadata_example {[ "D1"; "D3" ]} = Ok out
      ∧ NoDup (at_pos 1 <$> data out).
Proof.
  split; [vm_compute; reflexivity|].
  destruct (matched_files_first_per_identifier metadata_example
              {[ "D1"; "D3" ]} 1 eq_refl) as (out & Hout & _ & _ & Hnd & _).
  exists out. split; [exact Hout|exact Hnd].
Defined.

(** ** The left join *)

Section Strings.

Lemma append_cons a s t : String a s +:+ t = String a (s +:+ t).
Proof. reflexivity. Qed.

Lemma append_empty_r s : s +:+ "" = s.
Proof.
  induction s as [|a s IH]; [done|]. by rewrite append_cons, IH.
Qed.

Lemma length_append s t :
  String.length (s +:+ t) = String.length s + String.length t.
Proof.
  induction s as [|a s IH]; [done|]. rewrite append_cons. simpl. by rewrite IH.
Qed.

(** A suffix can be cancelled. *)
Lemma append_inj_l s1 s2 t : s1 +:+ t = s2 +:+ t → s1 = s2.
Proof.
  revert s2. induction s1 as [|a s1 IH]; intros [|b s2] H.
  - done.
  - apply (f_equal String.length) in H.
    rewrite !length_append in H. simpl in H. lia.
  - apply (f_equal String.length) in H.
    rewrite !length_append in H. simpl in H. lia.
  - rewrite !append_cons in H. injection H as -> H. f_equal. by apply IH.
Qed.

Lemma lstrip_idem s : lstrip (lstrip s) = lstrip s.
Proof.
  induction s as [|a s IH]; simpl; [done|].
  destruct (isspace a) eqn:Ha; [done|]. simpl. by rewrite Ha.
Qed.

Lemma rstrip_cons a s :
  rstrip (String a s)
  = match rstrip s with
    | EmptyString => if isspace a then EmptyString else String a EmptyString
    | r => String a r
    end.
Proof. reflexivity. Qed.

Lemma rstrip_idem s : rstrip (rstrip s) = rstrip s.
Proof.
  induction s as [|a s IH]; [done|].
  rewrite rstrip_cons. destruct (rstrip s) as [|b r] eqn:Hr.
  - destruct (isspace a) eqn:Ha; [done|]. simpl. by rewrite Ha.
  - rewrite rstrip_cons, IH. done.
Qed.

(** Stripping on the left and on the right commute. *)
Lemma lstrip_rstrip s : lstrip (rstrip s) = rstrip (lstrip s).
Proof.
  induction s as [|a s IH]; [done|].
  rewrite rstrip_cons. simpl lstrip at 2.
  destruct (isspace a) eqn:Ha.
  - destruct (rstrip s) as [|b r] eqn:Hr.
    + by rewrite <- IH.
    + rewrite <- IH. simpl. by rewrite Ha.
  - rewrite rstrip_cons.
    destruct (rstrip s) as [|b r]; simpl; by rewrite Ha.
Qed.

(** A stripped name has no surrounding whitespace left. *)
Lemma strip_idem s : strip (strip s) = strip s.
Proof.
  unfold strip.
  by rewrite lstrip_rstrip, rstrip_idem, lstrip_idem.
Qed.

End Strings.

Section Join.

Implicit Types (lrows rrows : list (list cell)) (left right : DataFrame).

Lemma add_suffix_empty overlap labels : add_suffix "" overlap labels = labels.
Proof.
  unfold add_suffix. induction labels as [|c labels IH]; csimpl; [done|].
  rewrite IH. destruct (decide (c ∈ overlap)); [|done].
  by rewrite append_empty_r.
Qed.

Lemma duplicated_go_NoDup seen l :
  NoDup l → (∀ x, x ∈ l → x ∉ seen) →
  duplicated_go seen l = replicate (length l) false.
Proof.
  revert seen. induction l as [|x l IH]; intros seen Hnd Hsep; simpl; [done|].
  apply NoDup_cons in Hnd as [Hx Hnd].
  rewrite bool_decide_eq_false_2 by (apply Hsep; left).
  f_equal. apply IH; [done|].
  intros y Hy. rewrite not_elem_of_cons. split.
  - intros ->. tauto.
  - apply Hsep. by right.
Qed.

Lemma suffix_dups_nil_of_flags (new : list string) (fnew fold : list bool) :
  (∀ k, fnew !! k = Some true → fold !! k = Some true) →
  fst <$> filter (λ p : string * (bool * bool), p.2 = (true, false))
            (zip new (zip fnew fold)) = [].
Proof.
  revert fnew fold. induction new as [|c new IH]; intros fnew fold H; [done|].
  destruct fnew as [|a fnew]; [done|]. destruct fold as [|b fold]; [done|].
  simpl. rewrite filter_cons. simpl.
  rewrite decide_False.
  - apply IH. intros k. apply (H (S k)).
  - intros [= -> ->]. specialize (H 0 eq_refl). done.
Qed.

(** Labels that were not renamed produce no [MergeError]. *)
Lemma suffix_dups_same l : suffix_dups l l = [].
Proof. unfold suffix_dups. by apply suffix_dups_nil_of_flags. Qed.

(** Labels that are distinct after renaming produce no [MergeError]. *)
Lemma suffix_dups_NoDup old new : NoDup new → suffix_dups old new = [].
Proof.
  intros Hnd. unfold suffix_dups, duplicated at 1.
  apply suffix_dups_nil_of_flags. intros k.
  rewrite duplicated_go_NoDup; [|done|intros; apply not_elem_of_nil].
  intros [[=] _]%lookup_replicate.
Qed.

Lemma filter_key_at_most_one {K} `{EqDecision K} (key : list cell → K)
    rrows (k : K) :
  NoDup (key <$> rrows) → length (filter (λ r, key r = k) rrows) ≤ 1.
Proof.
  induction rrows as [|r rrows IH]; csimpl; [lia|].
  intros [Hr Hnd]%NoDup_cons. rewrite filter_cons.
  destruct (decide (key r = k)) as [<-|Hne]; [|by apply IH].
  assert (filter (λ r', key r' = key r) rrows = []) as ->; [|simpl; lia].
  destruct (filter (λ r', key r' = key r) rrows) as [|r' found] eqn:E; [done|].
  exfalso. apply Hr.
  assert (r' ∈ filter (λ r', key r' = key r) rrows) as [Heq Hin]%list_elem_of_filter
    by (rewrite E; left).
  rewrite <- Heq. apply list_elem_of_fmap. eauto.
Qed.

(** The rows made of one left row: never none, each starts with the
    left row, and there is one when at most one right row has the key. *)
Lemma join_row_spec li ri width project rrows lrow :
  join_row li ri width project rrows lrow ≠ []
  ∧ Forall (λ row, ∃ tail, row = lrow ++ tail
                           ∧ (length tail = width
                              ∨ ∃ r, r ∈ rrows ∧ tail = project r))
      (join_row li ri width project rrows lrow)
  ∧ (NoDup (join_key <$> (at_pos ri <$> rrows)) →
     length (join_row li ri width project rrows lrow) = 1).
Proof.
  unfold join_row.
  pose proof (filter_key_at_most_one (λ r, join_key (at_pos ri r)) rrows
                (join_key (at_pos li lrow))) as Hle.
  assert (Forall (λ r, r ∈ rrows)
            (filter (λ r, join_key (at_pos ri r) = join_key (at_pos li lrow))
               rrows)) as Hsub.
  { apply Forall_forall. by intros r [_ Hin]%list_elem_of_filter. }
  destruct (filter _ rrows) as [|r found].
  - split; [done|]. split; [|done].
    repeat constructor. eexists. split; [done|]. left.
    by rewrite length_replicate.
  - split; [done|]. split.
    + apply Forall_fmap. eapply Forall_impl; [exact Hsub|].
      intros r' Hr'. simpl. exists (project r'). split; [done|].
      right. exists r'. split; [exact Hr'|done].
    + intros Hnd. rewrite <- list_fmap_compose in Hnd.
      specialize (Hle Hnd). rewrite length_fmap. simpl in *. lia.
Qed.

(** With at most one right row per key the join has one row for every
    left row. *)
Lemma left_join_rows_length li ri width project lrows rrows :
  NoDup (join_key <$> (at_pos ri <$> rrows)) →
  length (left_join_rows li ri width project lrows rrows) = length lrows.
Proof.
  intros Hnd. unfold left_join_rows.
  induction lrows as [|lrow lrows IH]; [done|].
  rewrite bind_cons, length_app, IH.
  destruct (join_row_spec li ri width project rrows lrow) as (_ & _ & H1).
  rewrite (H1 Hnd). done.
Qed.

(** A column of the left table, read off the joined rows: the cells of
    the left rows, each as often as its row was matched. *)
Lemma left_join_rows_left_column j li ri width project lrows rrows :
  Forall (λ lrow, j < length lrow) lrows →
  Forall (λ c, c ∈ at_pos j <$> lrows)
    (at_pos j <$> left_join_rows li ri width project lrows rrows)
  ∧ Forall (λ c, c ∈ at_pos j <$> left_join_rows li ri width project lrows rrows)
      (at_pos j <$> lrows)
  ∧ (NoDup (join_key <$> (at_pos ri <$> rrows)) →
     at_pos j <$> left_join_rows li ri width project lrows rrows
     = at_pos j <$> lrows).
Proof.
  intros Hlen. unfold left_join_rows.
  induction Hlen as [|lrow lrows Hj Hlen (IH1 & IH2 & IH3)].
  - repeat split; constructor.
  - rewrite bind_cons, fmap_app, fmap_cons.
    destruct (join_row_spec li ri width project rrows lrow)
      as (Hne & Hrows & Hone).
    set (here := join_row li ri width project rrows lrow) in *.
    assert (Forall (λ c, c = at_pos j lrow) (at_pos j <$> here)) as Hhere.
    { apply Forall_fmap. eapply Forall_impl; [exact Hrows|].
      intros row (tail & -> & _). simpl. by apply at_pos_app_l. }
    split; [|split].
    + apply Forall_app. split.
      * eapply Forall_impl; [exact Hhere|]. intros c ->. left.
      * eapply Forall_impl; [exact IH1|]. intros c Hc. by right.
    + constructor.
      * destruct here as [|row here']; [done|].
        apply Forall_cons in Hhere as [Heq _]. rewrite fmap_cons, Heq. left.
      * eapply Forall_impl; [exact IH2|]. intros c Hc.
        apply elem_of_app. by right.
    + intros Hnd. rewrite (IH3 Hnd). specialize (Hone Hnd).
      destruct here as [|row [|row' here']]; simpl in Hone; try lia.
      apply Forall_cons in Hhere as [Heq _]. simpl. by rewrite Heq.
Qed.

Lemma left_join_rows_row_length n m li ri project lrows rrows :
  Forall (λ lrow, length lrow = n) lrows →
  Forall (λ r, length (project r) = m) rrows →
  Forall (λ row, length row = n + m)
    (left_join_rows li ri m project lrows rrows).
Proof.
  intros Hl Hr. unfold left_join_rows. apply Forall_bind.
  eapply Forall_impl; [exact Hl|]. intros lrow Hlrow. simpl in Hlrow.
  destruct (join_row_spec li ri m project rrows lrow) as (_ & Hrows & _).
  eapply Forall_impl; [exact Hrows|].
  intros row (tail & -> & Htail). rewrite length_app.
  destruct Htail as [->|(r & Hin & ->)]; [lia|].
  rewrite Forall_forall in Hr. rewrite (Hr r Hin). lia.
Qed.

Lemma elem_of_delete_other {A} (l : list A) i x y :
  x ∈ l → l !! i = Some y → x ≠ y → x ∈ delete i l.
Proof.
  intros [k Hk]%list_elem_of_lookup Hi Hne.
  apply list_elem_of_lookup.
  destruct (decide (k < i)) as [Hlt|Hge].
  - exists k. by rewrite list_lookup_delete_lt.
  - assert (k ≠ i) by congruence.
    exists (k - 1). rewrite list_lookup_delete_ge by lia.
    by replace (S (k - 1)) with k by lia.
Qed.

(** What a successful [merge_left] with an empty left suffix returns:
    the left labels (without the key when the left table has no row and
    both keys have one name), then the right labels after renaming; and
    the joined rows. *)
Lemma merge_left_Ok left right lk rk rsuffix out :
  merge_left left right lk rk "" rsuffix = Ok out →
  ∃ li ri lold rnew project,
    get_loc lk (columns left) = Some li
    ∧ get_loc rk (columns right) = Some ri
    ∧ columns out = lold ++ rnew
    ∧ data out
      = left_join_rows li ri (length rnew) project (data left) (data right)
    ∧ (lold = columns left
       ∨ (data left = [] ∧ lk = rk ∧ lold = delete li (columns left)))
    ∧ (rectangular right →
       Forall (λ r, length (project r) = length rnew) (data right)).
Proof.
  unfold merge_left.
  destruct (get_loc rk (columns right)) as [ri|] eqn:Hri; [|done].
  destruct (repeated rk (columns right)); [done|].
  destruct (get_loc lk (columns left)) as [li|] eqn:Hli; [|done].
  destruct (repeated lk (columns left)); [done|].
  cbv zeta. rewrite !add_suffix_empty.
  set (same := bool_decide (lk = rk)).
  set (drop_right := same && bool_decide (0 < length (data left))).
  set (lold := if same && negb drop_right then _ else _).
  set (rold := if drop_right then _ else _).
  set (rnew := add_suffix rsuffix _ rold).
  destruct (suffix_dups lold lold ++ suffix_dups rold rnew); [|done].
  intros [= <-]. simpl.
  exists li, ri, lold, rnew, (if drop_right then delete ri else id).
  split; [done|]. split; [done|]. split; [done|]. split; [done|]. split.
  - unfold lold, drop_right, same.
    destruct (bool_decide_reflect (lk = rk)) as [Heq|Hne]; simpl; [|by left].
    destruct (bool_decide_reflect (0 < length (data left))) as [Hpos|Hz]; simpl.
    + by left.
    + right. split; [|done]. destruct (data left); [done|]. simpl in Hz. lia.
  - intros Hrect. eapply Forall_impl; [exact Hrect|]. intros r Hr. simpl in Hr.
    unfold rnew, add_suffix. rewrite length_fmap. unfold rold.
    destruct drop_right; [|done].
    pose proof (get_loc_lt _ _ _ Hri) as Hlt.
    rewrite !length_delete; [lia|apply lookup_lt_is_Some; lia..].
Qed.

(** A merge that returned found each key label once. *)
Lemma merge_left_Ok_unique left right lk rk lsuffix rsuffix out :
  merge_left left right lk rk lsuffix rsuffix = Ok out →
  repeated lk (columns left) = false ∧ repeated rk (columns right) = false.
Proof.
  unfold merge_left.
  destruct (get_loc rk (columns right)) as [ri|]; [|done].
  destruct (repeated rk (columns right)); [done|].
  destruct (get_loc lk (columns left)) as [li|]; [|done].
  by destruct (repeated lk (columns left)).
Qed.

End Join.

(** [merge_site_tracker_and_files] returns what [merge_left] returns,
    with one more column or one column overwritten. *)
Lemma merge_site_tracker_and_files_Ok site_tracker_df files_df docid_col
    instance_url merged :
  merge_site_tracker_and_files site_tracker_df files_df docid_col instance_url
  = Ok merged →
  ∃ joined,
    merge_left site_tracker_df files_df docid_col "ContentDocumentId" "" "_File"
    = Ok joined
    ∧ len merged = len joined
    ∧ (has_column joined "Id" = false → merged = joined)
    ∧ (has_column joined "Id" = true →
       ∃ ids, getitem joined "Id" = Ok ids
         ∧ merged = setitem joined "SiteTrackerAttachmentUrl"
                      ((λ attachment_id,
                         if notna attachment_id
                         then Str (attachment_url instance_url attachment_id)
                         else NA) <$> ids)).
Proof.
  unfold merge_site_tracker_and_files.
  destruct (merge_left _ _ _ _ _ _) as [joined|e]; [|done]. simpl.
  destruct (has_column joined "Id") eqn:Hid.
  - destruct (repeated "Id" (columns joined)); [done|].
    destruct (getitem joined "Id") as [ids|e] eqn:Hids; [|done]. simpl.
    intros [= <-]. exists joined. split; [done|].
    split; [|split; [intros ?; congruence|]].
    + apply setitem_len. rewrite length_fmap. by eapply getitem_length.
    + intros _. eauto.
  - intros [= <-]. exists joined. split; [done|]. split; [done|].
    split; [done|]. intros ?; congruence.
Qed.

(** With at most one metadata row per join key a returned table has the
    rows of the local table. *)
Lemma merge_site_tracker_and_files_len site_tracker_df files_df docid_col
    instance_url keys merged :
  getitem files_df "ContentDocumentId" = Ok keys →
  NoDup (join_key <$> keys) →
  merge_site_tracker_and_files site_tracker_df files_df docid_col instance_url
  = Ok merged →
  len merged = len site_tracker_df.
Proof.
  intros Hkeys Hnd (joined & Hjoin & Hlen & _)%merge_site_tracker_and_files_Ok.
  rewrite Hlen.
  apply merge_left_Ok in Hjoin
    as (li & ri & lold & rnew & project & _ & Hri & _ & Hdata & _).
  apply getitem_Ok in Hkeys as (ri' & Hri' & ->).
  assert (ri' = ri) as -> by congruence.
  unfold len. rewrite Hdata. by apply left_join_rows_length.
Qed.

(** When at most one row carries each identifier and at most one row
    carries none, no join key is on two rows. *)
Lemma NoDup_join_key keys :
  NoDup (dropna keys) →
  length (filter (λ c, notna c = false) keys) ≤ 1 →
  NoDup (join_key <$> keys).
Proof.
  unfold dropna. induction keys as [|c keys IH]; [constructor|].
  rewrite !filter_cons, fmap_cons. intros Hnd Hmiss.
  destruct c as [x| |]; simpl in *.
  - apply NoDup_cons in Hnd as [Hx Hnd]. constructor; [|by apply IH].
    intros (c & Hc & Hin)%list_elem_of_fmap.
    apply Hx. apply list_elem_of_filter.
    destruct c as [y| |]; simplify_eq/=. by split.
  - assert (filter (λ c, notna c = false) keys = []) as Hnone.
    { destruct (filter (λ c, notna c = false) keys); [done|].
      simpl in Hmiss. lia. }
    constructor; [|apply IH; [done|rewrite Hnone; simpl; lia]].
    intros (c & Hc & Hin)%list_elem_of_fmap.
    assert (c ∈ filter (λ c, notna c = false) keys) as Hc'.
    { apply list_elem_of_filter. split; [|done]. by destruct c. }
    rewrite Hnone in Hc'. by apply elem_of_nil in Hc'.
  - assert (filter (λ c, notna c = false) keys = []) as Hnone.
    { destruct (filter (λ c, notna c = false) keys); [done|].
      simpl in Hmiss. lia. }
    constructor; [|apply IH; [done|rewrite Hnone; simpl; lia]].
    intros (c & Hc & Hin)%list_elem_of_fmap.
    assert (c ∈ filter (λ c, notna c = false) keys) as Hc'.
    { apply list_elem_of_filter. split; [|done]. by destruct c. }
    rewrite Hnone in Hc'. by apply elem_of_nil in Hc'.
Qed.

(** C1, as amended. When at most one row of the metadata table carries
    each identifier and at most one row carries a missing identifier,
    every table that [merge_site_tracker_and_files] returns has as many
    rows as the local table: no local row is dropped and none is
    duplicated. *)
Theorem merge_preserves_row_count site_tracker_df files_df docid_col
    instance_url keys merged :
  getitem files_df "ContentDocumentId" = Ok keys →
  NoDup (dropna keys) →
  length (filter (λ c, notna c = false) keys) ≤ 1 →
  merge_site_tracker_and_files site_tracker_df files_df docid_col
    instance_url = Ok merged →
  len merged = len site_tracker_df.
Proof.
  intros Hkeys Hnd Hmiss Hmerged.
  eapply merge_site_tracker_and_files_len; [exact Hkeys| |exact Hmerged].
  by apply NoDup_join_key.
Qed.

Lemma merge_preserves_row_count_witness :
  ∃ merged,
    merge_site_tracker_and_files local_example files_example "DocId"
      "http://example.com" = Ok merged
    ∧ len merged = 2.
Proof.
  eexists. split; [vm_compute; reflexivity|].
  eapply (merge_preserves_row_count local_example files_example "DocId"
            "http://example.com" [Str "DOC1"]).
  - reflexivity.
  - by_evaluation.
  - simpl. lia.
  - vm_compute. reflexivity.
Defined.

(** Read to the letter the specification fails here: no identifier is
    on two rows of the metadata table, two of its rows carry none, and
    the local row without identifier is joined with both. *)
Lemma merge_preserves_row_count_counterexample :
  getitem files_missing_example "ContentDocumentId"
  = Ok [NaN; Str "DOC1"; NaN]
  ∧ NoDup (dropna [NaN; Str "DOC1"; NaN])
  ∧ len local_missing_example = 2
  ∧ ∃ merged,
      merge_site_tracker_and_files local_missing_example
        files_missing_example "DocId" "http://example.com" = Ok merged
      ∧ len merged = 3
      ∧ len merged ≠ len local_missing_example.
Proof.
  split; [reflexivity|]. split; [by_evaluation|]. split; [reflexivity|].
  eexists. split; [vm_compute; reflexivity|]. split; [reflexivity|].
  vm_compute. discriminate.
Qed.

(** C7. When the local table has a column [Id], the merged table has the
    column [Id] of the local table (row for row when no identifier is on
    two metadata rows) and a column [SiteTrackerAttachmentUrl] that
    holds, on a row whose [Id] is a string, the base URL, the fixed path,
    that [Id] and [/view], and on a row whose [Id] is missing the
    missing value [pd.NA], which is no string. *)
Theorem merge_attachment_urls site_tracker_df files_df docid_col instance_url
    local_ids merged :
  rectangular site_tracker_df → rectangular files_df →
  getitem site_tracker_df "Id" = Ok local_ids →
  merge_site_tracker_and_files site_tracker_df files_df docid_col instance_url
  = Ok merged →
  ∃ ids,
    getitem merged "Id" = Ok ids
    ∧ getitem merged "SiteTrackerAttachmentUrl"
      = Ok ((λ attachment_id,
              match attachment_id with
              | Str x =>
                  Str (instance_url
                         +:+ "/lightning/r/sitetracker__Attachment__c/"
                         +:+ x +:+ "/view")
              | _ => NA
              end) <$> ids)
    ∧ (∀ c, c ∈ ids ↔ c ∈ local_ids)
    ∧ (∀ keys, getitem files_df "ContentDocumentId" = Ok keys →
               NoDup (join_key <$> keys) → ids = local_ids).
Proof.
  intros HrectL HrectM Hlocal
    (joined & Hjoin & _ & _ & Hset)%merge_site_tracker_and_files_Ok.
  apply merge_left_Ok in Hjoin
    as (li & ri & lold & rnew & project & Hli & Hri & Hcols & Hdata
        & Hlold & Hproject).
  specialize (Hproject HrectM).
  apply getitem_Ok in Hlocal as (j & Hj & ->).
  (* the column [Id] of the joined table is the left one *)
  assert (∃ j', get_loc "Id" lold = Some j'
                ∧ (data site_tracker_df ≠ [] →
                   j' = j ∧ lold = columns site_tracker_df)) as (j' & Hj' & Hsame).
  { destruct Hlold as [->|(Hnil & -> & ->)].
    - exists j. by split.
    - destruct (get_loc_is_Some "Id" (delete li (columns site_tracker_df)))
        as [j' Hj'].
      + apply get_loc_Some in Hj as [Hj _]. apply get_loc_Some in Hli as [Hli _].
        eapply elem_of_delete_other; [|exact Hli|done].
        by eapply list_elem_of_lookup_2.
      + exists j'. split; [done|]. by intros []. }
  assert (get_loc "Id" (columns joined) = Some j') as Hidloc.
  { rewrite Hcols. by apply get_loc_app_l. }
  assert (has_column joined "Id" = true) as Hhas.
  { apply has_column_true. apply get_loc_Some in Hidloc as [Hat _].
    by eapply list_elem_of_lookup_2. }
  destruct (Hset Hhas) as (ids & Hids & ->).
  pose proof (getitem_length _ _ _ Hids) as Hlen.
  apply getitem_Ok in Hids as Hids'. destruct Hids' as (j0 & Hj0 & Hidsdef).
  assert (j0 = j') as -> by congruence.
  assert (Forall (λ lrow, j < length lrow) (data site_tracker_df)) as Hwide.
  { eapply Forall_impl; [exact HrectL|]. intros lrow ->.
    by eapply get_loc_lt. }
  assert (rectangular joined) as Hrect.
  { unfold rectangular. rewrite Hdata.
    destruct (data site_tracker_df) as [|lrow lrows] eqn:Hd; [constructor|].
    destruct Hsame as [_ ->]; [done|]. rewrite Hcols, length_app.
    apply left_join_rows_row_length; [|done].
    unfold rectangular in HrectL. by rewrite Hd in HrectL. }
  exists ids. split; [|split; [|split]].
  - rewrite getitem_setitem_ne; [done|done| |done]. by rewrite length_fmap.
  - rewrite getitem_setitem_eq; [|done|by rewrite length_fmap].
    f_equal. apply list_fmap_ext. by intros i [x| |] _.
  - intros c. rewrite Hidsdef, Hdata.
    destruct (data site_tracker_df) as [|lrow lrows] eqn:Hd; [done|].
    destruct Hsame as [-> _]; [done|].
    destruct (left_join_rows_left_column j li ri (length rnew) project
                (lrow :: lrows) (data files_df) Hwide) as (H1 & H2 & _).
    rewrite Forall_forall in H1. rewrite Forall_forall in H2.
    split; [apply H1|apply H2].
  - intros keys (ri' & Hri' & ->)%getitem_Ok Hnd.
    assert (ri' = ri) as -> by congruence.
    rewrite Hidsdef, Hdata.
    destruct (data site_tracker_df) as [|lrow lrows] eqn:Hd; [done|].
    destruct Hsame as [-> _]; [done|].
    destruct (left_join_rows_left_column j li ri (length rnew) project
                (lrow :: lrows) (data files_df) Hwide) as (_ & _ & H3).
    by apply H3.
Qed.

Lemma merge_attachment_urls_witness :
  ∃ ids,
    ids = [Str "ATT1"; NaN]
    ∧ ∃ merged,
        merge_site_tracker_and_files local_example files_example "DocId"
          "http://example.com" = Ok merged
        ∧ getitem merged "Id" = Ok ids
        ∧ getitem merged "SiteTrackerAttachmentUrl"
          = Ok [Str "http://example.com/lightning/r/sitetracker__Attachment__c/ATT1/view";
                NA].
Proof.
  pose (merged :=
    mkDataFrame
      ["Id"; "DocId"; "ContentDocumentId"; "Title"; "FileUrl"; "Id_File";
       "SiteTrackerAttachmentUrl"]
      [[Str "ATT1"; Str "DOC1"; Str "DOC1"; Str "File 1";
        Str "http://example.com/DOC1"; Str "V1";
        Str "http://example.com/lightning/r/sitetracker__Attachment__c/ATT1/view"];
       [NaN; Str "DOC2"; NaN; NaN; NaN; NaN; NA]]).
  destruct (merge_attachment_urls local_example files_example "DocId"
              "http://example.com" [Str "ATT1"; NaN] merged)
    as (ids & Hids & Hurls & _ & Hsame).
  - repeat constructor.
  - repeat constructor.
  - reflexivity.
  - vm_compute. reflexivity.
  - exists ids. split.
    + apply (Hsame [Str "DOC1"]); [reflexivity|by_evaluation].
    + exists merged. split; [vm_compute; reflexivity|].
      split; [exact Hids|]. vm_compute. reflexivity.
Defined.

(** ** The whole table pipeline of [main] *)

Section MainProperties.

Variable to_numeric : cell → cell.
Variable megabytes : cell → cell.

Lemma add_size_columns_Ok content_versions out :
  rectangular content_versions →
  add_size_columns to_numeric megabytes content_versions = Ok out →
  rectangular out
  ∧ ∃ ids, getitem content_versions "ContentDocumentId" = Ok ids
           ∧ getitem out "ContentDocumentId" = Ok (Str <$> astype_str ids).
Proof.
  intros Hrect. unfold add_size_columns.
  destruct (getitem content_versions "ContentDocumentId") as [ids|] eqn:Hids;
    [|done].
  simpl.
  set (cv1 := setitem content_versions "ContentDocumentId" _).
  set (sizes := match getitem cv1 "ContentSize" with
                | Ok sizes => to_numeric <$> sizes
                | Raise _ => replicate (len cv1) NaN
                end).
  set (cv2 := setitem cv1 "ContentSizeBytes" sizes).
  pose proof (getitem_length _ _ _ Hids) as Hlen.
  assert (rectangular cv1) as Hrect1 by by apply setitem_rectangular.
  assert (len cv1 = len content_versions) as Hlen1.
  { apply setitem_len. unfold astype_str. by rewrite !length_fmap. }
  assert (getitem cv1 "ContentDocumentId" = Ok (Str <$> astype_str ids)) as Hids1.
  { apply getitem_setitem_eq; [done|].
    unfold astype_str. by rewrite !length_fmap. }
  assert (length sizes = len cv1) as Hsizes.
  { unfold sizes. destruct (getitem cv1 "ContentSize") as [col|] eqn:Hcol.
    - rewrite length_fmap. by eapply getitem_length.
    - by rewrite length_replicate. }
  assert (rectangular cv2) as Hrect2 by by apply setitem_rectangular.
  assert (getitem cv2 "ContentSizeBytes" = Ok sizes) as Hbytes.
  { by apply getitem_setitem_eq. }
  rewrite Hbytes. simpl. intros [= <-].
  split; [by apply setitem_rectangular|].
  exists ids. split; [done|].
  assert (len cv2 = len cv1) as Hlen2 by by apply setitem_len.
  rewrite getitem_setitem_ne; [|done| |done].
  - unfold cv2. rewrite getitem_setitem_ne; done.
  - rewrite length_fmap. lia.
Qed.

(** X14. On the path through [main] the merged report has one row for
    every row of the local table, and the files-only report has no
    identifier twice and none missing: the precondition of the join
    holds by construction. *)
Theorem reconcile_row_count site_tracker_df content_versions docid_col
    instance_url matched merged :
  rectangular content_versions →
  reconcile to_numeric megabytes site_tracker_df content_versions docid_col
    instance_url = Ok (matched, merged) →
  len merged = len site_tracker_df
  ∧ ∃ ids, getitem matched "ContentDocumentId" = Ok ids
           ∧ NoDup ids ∧ Forall (λ c, notna c = true) ids.
Proof.
  intros Hrect. unfold reconcile.
  destruct (extract_docids site_tracker_df docid_col) as [docid_set|]; [|done].
  simpl. destruct (decide (docid_set = ∅)); [done|].
  destruct (empty content_versions); [done|].
  destruct (add_size_columns _ _ content_versions) as [cv|] eqn:Hcv; [|done].
  simpl.
  apply add_size_columns_Ok in Hcv as (Hrectcv & ids0 & _ & Hids0); [|done].
  apply getitem_Ok in Hids0 as (i & Hi & _).
  rewrite (matched_files_Ok _ docid_set _ Hi). simpl.
  set (rows := drop_duplicates_go i [] _).
  set (m1 := mkDataFrame (columns cv) rows).
  assert (rows `sublist_of` data cv) as Hsub.
  { etrans; [apply drop_duplicates_go_sublist|]. apply sublist_filter. }
  assert (rectangular m1) as Hrect1.
  { unfold rectangular in *. simpl. rewrite Forall_forall in Hrectcv.
    apply Forall_forall. intros r Hr. apply Hrectcv.
    by eapply elem_of_sublist. }
  assert (getitem m1 "ContentDocumentId" = Ok (at_pos i <$> rows)) as Hids.
  { unfold getitem. simpl. by rewrite Hi. }
  unfold add_file_urls. rewrite Hids. simpl.
  set (m2 := setitem m1 "FileUrl" _).
  assert (getitem m2 "ContentDocumentId" = Ok (at_pos i <$> rows)) as Hids2.
  { unfold m2. rewrite getitem_setitem_ne; [done|done| |done].
    rewrite !length_fmap. done. }
  destruct (merge_site_tracker_and_files site_tracker_df m2 docid_col
              instance_url) as [merged'|] eqn:Hmerge; [|done].
  simpl. intros [= <- <-].
  assert (Forall (λ c, ∃ x, c = Str x) (at_pos i <$> rows)) as Hstr.
  { apply Forall_fmap, Forall_forall. intros row Hrow. simpl.
    pose proof (elem_of_sublist _ _ _ Hrow
                  (drop_duplicates_go_sublist i [] _)) as Hk.
    apply list_elem_of_filter in Hk as [(x & Hx & _) _]. eauto. }
  assert (NoDup (at_pos i <$> rows)) as Hnd.
  { unfold rows. rewrite drop_duplicates_go_keys. apply NoDup_unique_go. }
  split.
  - eapply merge_site_tracker_and_files_len; [exact Hids2| |exact Hmerge].
    apply NoDup_fmap_2_strong; [|done].
    rewrite Forall_forall in Hstr.
    intros c1 c2 [x1 ->]%Hstr [x2 ->]%Hstr. simpl. by intros [= ->].
  - exists (at_pos i <$> rows). split; [done|]. split; [done|].
    eapply Forall_impl; [exact Hstr|]. by intros c [x ->].
Qed.

End MainProperties.

(** ** The job-wait loop *)

Section Loops.

Context {S A : Type} (request : S → Request) (body : S → Response → step S A).

Lemma run_loop_Continue s response s' effects script :
  body s response = Continue s' effects →
  run_loop request body s (Ok response :: script)
  = (Get (request s) :: effects ++ (run_loop request body s' script).1,
     (run_loop request body s' script).2).
Proof.
  intros H. simpl. rewrite H. by destruct (run_loop request body s' script).
Qed.

Lemma run_loop_Stop s response r script :
  body s response = Stop r →
  run_loop request body s (Ok response :: script)
  = ([Get (request s)], Finished r).
Proof. intros H. simpl. by rewrite H. Qed.

(** The loop sends at least the request of its first pass. *)
Lemma run_loop_first s script :
  ∃ trace, (run_loop request body s script).1 = Get (request s) :: trace.
Proof.
  destruct script as [|[response|e] script]; simpl; eauto.
  destruct (body s response) as [s' effects|r]; simpl; eauto.
  destruct (run_loop request body s' script). simpl. eauto.
Qed.

End Loops.

Section Wait.

Variable repr : dict → string.
Variables instance_url access_token api_version job_id : string.

Local Abbreviation wait_job :=
  (bulk2_wait_job repr instance_url access_token api_version job_id).
Local Abbreviation poll :=
  (Get (wait_request instance_url access_token api_version job_id)).
Local Abbreviation polled :=
  (polled instance_url access_token api_version job_id).

Lemma eq_str_true v s : eq_str v s = true ↔ v = Some (JStr s).
Proof.
  destruct v as [[| | |x| |]|]; simpl; try by split.
  rewrite bool_decide_eq_true. split; [by intros ->|by intros [= ->]].
Qed.

Lemma terminal_state_None info :
  non_terminal info → terminal_state (dict_get info "state") = None.
Proof.
  intros H. unfold terminal_state.
  destruct (eq_str _ "JobComplete") eqn:H1.
  { apply eq_str_true, H in H1. tauto. }
  destruct (eq_str _ "Failed") eqn:H2.
  { apply eq_str_true, H in H2. tauto. }
  destruct (eq_str _ "Aborted") eqn:H3.
  { apply eq_str_true, H in H3. tauto. }
  done.
Qed.

Lemma terminal_state_Some v s :
  v = Some (JStr s) → s = "JobComplete" ∨ s = "Failed" ∨ s = "Aborted" →
  terminal_state v = Some s.
Proof.
  intros -> Hs. unfold terminal_state. simpl.
  destruct Hs as [-> | [-> | ->]]; reflexivity.
Qed.

Lemma terminal_state_Some_inv v s :
  terminal_state v = Some s →
  v = Some (JStr s) ∧ (s = "JobComplete" ∨ s = "Failed" ∨ s = "Aborted").
Proof.
  unfold terminal_state.
  destruct (eq_str v "JobComplete") eqn:H1.
  { intros [= <-]. apply eq_str_true in H1. tauto. }
  destruct (eq_str v "Failed") eqn:H2.
  { intros [= <-]. apply eq_str_true in H2. tauto. }
  destruct (eq_str v "Aborted") eqn:H3; [|done].
  intros [= <-]. apply eq_str_true in H3. tauto.
Qed.

Lemma wait_body_in_progress response :
  in_progress response → wait_body repr () response = Continue () [Sleep 3].
Proof.
  intros (Hst & info & Hinfo & Hnt). unfold wait_body.
  by rewrite Hst, Hinfo, (terminal_state_None _ Hnt).
Qed.

Lemma wait_job_in_progress polls script :
  Forall in_progress polls →
  wait_job ((Ok <$> polls) ++ script)
  = (polled (length polls) ++ (wait_job script).1, (wait_job script).2).
Proof.
  intros Hpolls. unfold bulk2_wait_job.
  induction Hpolls as [|response polls Hr _ IH].
  - rewrite fmap_nil, app_nil_l. by destruct (run_loop _ _ _ script).
  - rewrite fmap_cons, <- app_comm_cons.
    rewrite (run_loop_Continue _ _ _ _ _ _ _ (wait_body_in_progress _ Hr)).
    rewrite IH. reflexivity.
Qed.

(** C3. After any number of polls that found the job in progress, each
    followed by a sleep of 3, the loop polls again; at the next reply it
    returns the payload when the state is [JobComplete], raises a
    [RuntimeError] whose message ends with the whole payload when the
    state is [Failed] or [Aborted], and sleeps 3 and polls again
    otherwise. A payload is returned only in state [JobComplete]. *)
Theorem bulk2_wait_job_outcomes polls last info rest :
  Forall in_progress polls →
  raise_for_status last = Ok () →
  json last = Some info →
  wait_job (Ok <$> polls) = (polled (length polls) ++ [poll], Waiting)
  ∧ (dict_get info "state" = Some (JStr "JobComplete") →
     wait_job ((Ok <$> polls) ++ Ok last :: rest)
     = (polled (length polls) ++ [poll], Finished (Ok info)))
  ∧ (∀ s, s = "Failed" ∨ s = "Aborted" →
     dict_get info "state" = Some (JStr s) →
     wait_job ((Ok <$> polls) ++ Ok last :: rest)
     = (polled (length polls) ++ [poll],
        Finished (Raise (RuntimeError
          ("Bulk job ended in state " +:+ s +:+ ": " +:+ repr info)))))
  ∧ (non_terminal info →
     wait_job ((Ok <$> polls) ++ [Ok last])
     = (polled (length polls) ++ [poll; Sleep 3; poll], Waiting))
  ∧ (∀ script trace payload,
       wait_job script = (trace, Finished (Ok payload)) →
       dict_get payload "state" = Some (JStr "JobComplete")).
Proof.
  intros Hpolls Hstatus Hjson.
  split; [|split; [|split; [|split]]].
  - rewrite <- (app_nil_r (Ok <$> polls)).
    by rewrite wait_job_in_progress.
  - intros Hstate. rewrite wait_job_in_progress by done.
    unfold bulk2_wait_job. erewrite run_loop_Stop; [done|].
    unfold wait_body. rewrite Hstatus, Hjson.
    by rewrite (terminal_state_Some _ "JobComplete" Hstate) by tauto.
  - intros s Hs Hstate. rewrite wait_job_in_progress by done.
    unfold bulk2_wait_job. erewrite run_loop_Stop; [done|].
    unfold wait_body. rewrite Hstatus, Hjson.
    rewrite (terminal_state_Some _ s Hstate) by tauto.
    by destruct Hs as [->| ->].
  - intros Hnt. rewrite wait_job_in_progress by done.
    unfold bulk2_wait_job.
    rewrite (run_loop_Continue _ _ _ last () [Sleep 3]); [done|].
    apply wait_body_in_progress. split; [done|]. eauto.
  - clear. intros script. unfold bulk2_wait_job.
    induction script as [|[response|e] script IH]; intros trace payload;
      simpl; [done| |done].
    unfold wait_body at 1.
    destruct (raise_for_status response); [|done].
    destruct (json response) as [info|]; [|done].
    destruct (terminal_state _) as [s|] eqn:Hs.
    + apply terminal_state_Some_inv in Hs as [Hstate _].
      destruct (bool_decide_reflect (s = "JobComplete")) as [->|Hne]; simpl.
      * by intros [= _ <-].
      * done.
    + destruct (run_loop _ _ _ script) as [trace' out] eqn:Hrun.
      intros [= _ ->]. by eapply IH.
Qed.

End Wait.

Lemma bulk2_wait_job_outcomes_witness :
  bulk2_wait_job repr_flat "https://example.my.salesforce.com" "token" "60.0"
    "750" [Ok reply_in_progress; Ok reply_failed]
  = ([Get (wait_request "https://example.my.salesforce.com" "token" "60.0" "750");
      Sleep 3;
      Get (wait_request "https://example.my.salesforce.com" "token" "60.0" "750")],
     Finished (Raise (RuntimeError
       "Bulk job ended in state Failed: {'id': '750', 'state': 'Failed'}"))).
Proof.
  destruct (bulk2_wait_job_outcomes repr_flat
              "https://example.my.salesforce.com" "token" "60.0" "750"
              [reply_in_progress] reply_failed
              [("id", JStr "750"); ("state", JStr "Failed")] [])
    as (_ & _ & Hfailed & _).
  - constructor; [|constructor]. split; [reflexivity|].
    eexists. split; [reflexivity|]. intros s [= <-]. done.
  - reflexivity.
  - reflexivity.
  - apply (Hfailed "Failed"); [by left|reflexivity].
Defined.

(** ** The result pages *)

Section Concat.

Implicit Types (cols : list string) (tables : list DataFrame).

Lemma unique_go_ext {A} `{EqDecision A} (seen seen' l : list A) :
  (∀ x, x ∈ seen ↔ x ∈ seen') → unique_go seen l = unique_go seen' l.
Proof.
  revert seen seen'. induction l as [|x l IH]; intros seen seen' H; simpl; [done|].
  destruct (decide (x ∈ seen)) as [Hx|Hx].
  - rewrite decide_True by (by apply H). by apply IH.
  - rewrite decide_False by (by rewrite <- H). f_equal. apply IH.
    intros y. rewrite !elem_of_cons, H. tauto.
Qed.

Lemma unique_go_seen {A} `{EqDecision A} (seen l : list A) :
  (∀ x, x ∈ l → x ∈ seen) → unique_go seen l = [].
Proof.
  induction l as [|x l IH]; intros H; simpl; [done|].
  rewrite decide_True by (apply H; left). apply IH.
  intros y Hy. apply H. by right.
Qed.

Lemma unique_go_app {A} `{EqDecision A} (seen l1 l2 : list A) :
  unique_go seen (l1 ++ l2)
  = unique_go seen l1 ++ unique_go (l1 ++ seen) l2.
Proof.
  revert seen. induction l1 as [|x l1 IH]; intros seen; simpl; [done|].
  destruct (decide (x ∈ seen)) as [Hx|Hx].
  - rewrite IH. f_equal. apply unique_go_ext.
    intros y. rewrite elem_of_cons, !elem_of_app. split; [tauto|].
    intros [->|?]; tauto.
  - rewrite IH. simpl. do 2 f_equal. apply unique_go_ext.
    intros y. rewrite elem_of_cons, !elem_of_app, elem_of_cons. tauto.
Qed.

Lemma get_loc_NoDup cols k c :
  NoDup cols → cols !! k = Some c → get_loc c cols = Some k.
Proof.
  intros Hnd Hk.
  destruct (get_loc_is_Some c cols) as [i Hi].
  { by eapply list_elem_of_lookup_2. }
  apply get_loc_Some in Hi as Hi'. destruct Hi' as [Hi' _].
  rewrite Hi. f_equal. by eapply NoDup_lookup.
Qed.

(** A row that is laid out for its own labels is unchanged. *)
Lemma reindex_row_same cols row :
  NoDup cols → length row = length cols → reindex_row cols cols row = row.
Proof.
  intros Hnd Hlen. unfold reindex_row. apply list_eq. intros k.
  rewrite list_lookup_fmap.
  destruct (cols !! k) as [c|] eqn:Hk; simpl.
  - rewrite (get_loc_NoDup _ _ _ Hnd Hk).
    destruct (lookup_lt_is_Some_2 row k) as [x Hx].
    { rewrite Hlen. by eapply lookup_lt_Some. }
    by rewrite Hx, (at_pos_lookup _ _ _ Hx).
  - symmetry. apply lookup_ge_None. rewrite Hlen. by apply lookup_ge_None.
Qed.

Lemma concat_len tables : len (concat tables) = sum_list (len <$> tables).
Proof.
  unfold concat, len. simpl.
  generalize (unique (mjoin (columns <$> tables))). intros cols.
  induction tables as [|t tables IH]; [done|].
  rewrite bind_cons, length_app, length_fmap, IH. done.
Qed.

(** Tables with one header: the result has that header and their rows
    one table after the other. *)
Lemma concat_same_columns cols tables :
  NoDup cols → tables ≠ [] →
  Forall (λ t, columns t = cols ∧ rectangular t) tables →
  concat tables = mkDataFrame cols (mjoin (data <$> tables)).
Proof.
  intros Hnd Hne Hall. unfold concat.
  assert (unique (mjoin (columns <$> tables)) = cols) as ->.
  { destruct tables as [|t tables]; [done|].
    apply Forall_cons in Hall as [[Ht _] Hall].
    rewrite fmap_cons. simpl. rewrite Ht. unfold unique.
    rewrite unique_go_app, app_nil_r.
    rewrite unique_go_NoDup; [|done|intros; apply not_elem_of_nil].
    rewrite unique_go_seen; [by rewrite app_nil_r|].
    intros c (l & Hc & Hl)%list_elem_of_join.
    apply list_elem_of_fmap in Hl as (t' & -> & Ht').
    rewrite Forall_forall in Hall. destruct (Hall t' Ht') as [<- _]. done. }
  f_equal. clear Hne.
  induction Hall as [|t tables [Ht Hrect] _ IH]; [done|].
  rewrite bind_cons, fmap_cons, IH. simpl. f_equal.
  rewrite Ht. rewrite <- (list_fmap_id (data t)) at 2.
  apply list_fmap_ext. intros i row Hrow. simpl.
  apply reindex_row_same; [done|].
  unfold rectangular in Hrect. rewrite Forall_forall in Hrect.
  rewrite <- Ht. apply Hrect. by eapply list_elem_of_lookup_2.
Qed.

(** Tables without rows add no rows. *)
Lemma mjoin_data_nonempty tables :
  mjoin (data <$> tables)
  = mjoin (data <$> filter (λ t, data t ≠ []) tables).
Proof.
  induction tables as [|t tables IH]; [done|].
  rewrite filter_cons, fmap_cons. simpl.
  destruct (decide (data t ≠ [])) as [Hne|He].
  - rewrite fmap_cons. simpl. by rewrite IH.
  - destruct (data t); [done|]. by destruct He.
Qed.

Lemma empty_of_len_0 t : len t = 0 → empty t = true.
Proof.
  unfold len, empty. destruct (data t); [|done]. by destruct (columns t).
Qed.

End Concat.

Section Fetch.

Variable read_csv_text : string → result DataFrame.
Variables instance_url access_token api_version job_id : string.
Variable max_records : Z.

Local Abbreviation request :=
  (fetch_request instance_url access_token api_version job_id max_records).
Local Abbreviation body := (fetch_body read_csv_text).
Local Abbreviation fetch :=
  (bulk2_fetch_results read_csv_text instance_url access_token api_version
     job_id max_records).

(** The loop stops on a cursor that is absent, empty, or [null] in any
    mix of cases. *)
Lemma last_page_true locator :
  last_page locator = true
  ↔ locator = None ∨ locator = Some ""
    ∨ ∃ c, locator = Some c ∧ lower c = "null".
Proof.
  destruct locator as [[|a c]|]; simpl.
  - split; [auto|done].
  - rewrite bool_decide_eq_true. split.
    + intros H. right. right. eauto.
    + intros [?|[?|(c' & [= <-] & H)]]; done.
  - split; [auto|done].
Qed.

Lemma last_page_false locator :
  last_page locator = false
  ↔ ∃ c, locator = Some c ∧ c ≠ "" ∧ lower c ≠ "null".
Proof.
  destruct locator as [[|a c]|]; simpl.
  - split; [done|]. by intros (c & [= <-] & ? & _).
  - rewrite bool_decide_eq_false. split.
    + intros H. eauto.
    + by intros (c' & [= <-] & _ & H).
  - split; [done|]. by intros (c & [=] & _).
Qed.

Lemma fetch_body_Continue st response frames' :
  raise_for_status response = Ok () →
  append_page read_csv_text (frames st) response = Ok frames' →
  last_page (cursor response) = false →
  body st response = Continue (mkFetch (cursor response) frames') [].
Proof.
  intros Hst Hpage Hlast. unfold fetch_body.
  rewrite Hst, Hpage. fold (cursor response). by rewrite Hlast.
Qed.

Lemma fetch_body_Stop st response frames' :
  raise_for_status response = Ok () →
  append_page read_csv_text (frames st) response = Ok frames' →
  last_page (cursor response) = true →
  body st response
  = Stop (Ok (match frames' with [] => empty_frame | _ => concat frames' end)).
Proof.
  intros Hst Hpage Hlast. unfold fetch_body.
  rewrite Hst, Hpage. fold (cursor response). by rewrite Hlast.
Qed.

Lemma fetch_body_Continue_inv st response st' effects :
  body st response = Continue st' effects →
  last_page (cursor response) = false
  ∧ effects = [] ∧ locator st' = cursor response.
Proof.
  unfold fetch_body.
  destruct (raise_for_status response); [|done].
  destruct (append_page _ _ _) as [frames'|]; [|done].
  fold (cursor response).
  destruct (last_page (cursor response)); [done|].
  by intros [= <- <-].
Qed.

Lemma fetch_body_last st response :
  last_page (cursor response) = true → ∃ r, body st response = Stop r.
Proof.
  intros Hlast. unfold fetch_body.
  destruct (raise_for_status response); [|eauto].
  destruct (append_page _ _ _) as [frames'|]; [|eauto].
  fold (cursor response). rewrite Hlast. eauto.
Qed.

Lemma fetch_request_params frames' c :
  c ≠ "" →
  params (request (mkFetch (Some c) frames'))
  = [("maxRecords", PInt max_records); ("locator", PStr c)].
Proof. intros Hc. unfold fetch_request. simpl. by destruct c. Qed.

(** C2. One pass of the pagination loop, in any state, on any reply
    [response] that [requests.get] returned.  The cursor ends the loop
    exactly when it is absent, empty or [null] without regard to case;
    then no further request is sent.  A further request is sent only
    after a cursor that is present, non-empty and not [null], and its
    [locator] parameter is that cursor; it is sent after every such
    cursor, unless [raise_for_status] or the CSV reader raised on the
    reply, which ends the function with that exception. *)
Theorem fetch_pagination st response script :
  let run := run_loop request body st (Ok response :: script) in
  (last_page (cursor response) = true
   ↔ cursor response = None ∨ cursor response = Some ""
     ∨ ∃ c, cursor response = Some c ∧ lower c = "null")
  ∧ (last_page (cursor response) = true →
     run.1 = [Get (request st)] ∧ ∃ r, run.2 = Finished r)
  ∧ (∀ next trace, run.1 = Get (request st) :: next :: trace →
     ∃ c st', cursor response = Some c ∧ c ≠ "" ∧ lower c ≠ "null"
       ∧ next = Get (request st')
       ∧ params (request st')
         = [("maxRecords", PInt max_records); ("locator", PStr c)])
  ∧ (last_page (cursor response) = false →
     (∃ e, run = ([Get (request st)], Finished (Raise e))
           ∧ (raise_for_status response = Raise e
              ∨ append_page read_csv_text (frames st) response = Raise e))
     ∨ (∃ c next trace, cursor response = Some c
          ∧ run.1 = Get (request st) :: Get next :: trace
          ∧ params next
            = [("maxRecords", PInt max_records); ("locator", PStr c)]))
  ∧ (∀ frames', last_page (cursor response) = false →
     raise_for_status response = Ok () →
     append_page read_csv_text (frames st) response = Ok frames' →
     ∃ c trace, cursor response = Some c
       ∧ run.1 = Get (request st)
                 :: Get (request (mkFetch (Some c) frames')) :: trace
       ∧ params (request (mkFetch (Some c) frames'))
         = [("maxRecords", PInt max_records); ("locator", PStr c)]).
Proof.
  intros run.
  assert (∀ frames', last_page (cursor response) = false →
     raise_for_status response = Ok () →
     append_page read_csv_text (frames st) response = Ok frames' →
     ∃ c trace, cursor response = Some c
       ∧ run.1 = Get (request st)
                 :: Get (request (mkFetch (Some c) frames')) :: trace
       ∧ params (request (mkFetch (Some c) frames'))
         = [("maxRecords", PInt max_records); ("locator", PStr c)]) as Hmore.
  { intros frames' Hlast Hst Hpage.
    pose proof (fetch_body_Continue _ _ _ Hst Hpage Hlast) as Hbody.
    apply last_page_false in Hlast as (c & Hc & Hne & Hnull).
    unfold run. rewrite (run_loop_Continue _ _ _ _ _ _ _ Hbody). simpl.
    rewrite Hc.
    destruct (run_loop_first request body (mkFetch (Some c) frames') script)
      as [trace' ->].
    exists c, trace'. split; [done|]. split; [done|].
    by apply (fetch_request_params frames'). }
  split; [apply last_page_true|]. split; [|split; [|split; [|exact Hmore]]].
  - intros Hlast. destruct (fetch_body_last st response Hlast) as [r Hr].
    unfold run. rewrite (run_loop_Stop _ _ _ _ _ _ Hr). eauto.
  - intros next trace. unfold run.
    destruct (body st response) as [st' effects|r] eqn:Hbody.
    + rewrite (run_loop_Continue _ _ _ _ _ _ _ Hbody). simpl.
      apply fetch_body_Continue_inv in Hbody as (Hlast & -> & Hloc).
      apply last_page_false in Hlast as (c & Hc & Hne & Hnull).
      destruct (run_loop_first request body st' script) as [trace' ->].
      simpl. intros [= <- <-]. exists c, st'.
      split; [done|]. split; [done|]. split; [done|]. split; [done|].
      destruct st' as [l f]. simpl in Hloc. rewrite Hloc, Hc.
      by apply (fetch_request_params f).
    + rewrite (run_loop_Stop _ _ _ _ _ _ Hbody). simpl. done.
  - intros Hlast.
    destruct (raise_for_status response) as [[]|e] eqn:Hst.
    + destruct (append_page read_csv_text (frames st) response)
        as [frames'|e] eqn:Hpage.
      * right. destruct (Hmore frames' Hlast eq_refl eq_refl)
          as (c & trace & Hc & Hrun & Hparams).
        eauto 10.
      * left. exists e. split; [|by right].
        unfold run. apply run_loop_Stop.
        unfold fetch_body. by rewrite Hst, Hpage.
    + left. exists e. split; [|by left].
      unfold run. apply run_loop_Stop.
      unfold fetch_body. by rewrite Hst.
Qed.

Lemma truthy_true s : truthy s = true ↔ s ≠ "".
Proof. by destruct s. Qed.

Lemma append_page_tables frames0 response tables :
  Forall2 (λ r t, read_csv_text (text r) = Ok t)
    (nonblank_pages [response]) tables →
  append_page read_csv_text frames0 response = Ok (frames0 ++ tables).
Proof.
  unfold nonblank_pages, append_page. rewrite filter_cons, filter_nil.
  destruct (decide (strip (text response) ≠ "")) as [Hne|He].
  - intros Hall. apply Forall2_cons_inv_l in Hall as (t & ts & Ht & Hts & ->).
    apply Forall2_nil_inv_l in Hts as ->.
    rewrite (proj2 (truthy_true _) Hne), Ht. done.
  - intros ->%Forall2_nil_inv_l.
    destruct (truthy _) eqn:Ht; [by apply truthy_true in Ht|].
    by rewrite app_nil_r.
Qed.

(** The loop across replies that each ask for another page: it reaches
    the next request with the tables of these replies appended. *)
Lemma fetch_more_pages pages st tables script :
  Forall more_pages pages →
  Forall2 (λ r t, read_csv_text (text r) = Ok t) (nonblank_pages pages) tables →
  ∃ loc,
    let next := run_loop request body (mkFetch loc (frames st ++ tables)) script in
    let run := run_loop request body st ((Ok <$> pages) ++ script) in
    run.2 = next.2 ∧ length run.1 = length pages + length next.1.
Proof.
  intros Hpages. revert st tables.
  induction Hpages as [|r pages [Hst Hlast] _ IH]; intros st tables Htables.
  - apply Forall2_nil_inv_l in Htables as ->. exists (locator st).
    rewrite app_nil_r. by destruct st.
  - change (r :: pages) with ([r] ++ pages) in Htables.
    unfold nonblank_pages in Htables. rewrite filter_app in Htables.
    apply Forall2_app_inv_l in Htables as (t1 & t2 & Ht1 & Ht2 & ->).
    pose proof (append_page_tables (frames st) r t1 Ht1) as Hpage.
    pose proof (fetch_body_Continue _ _ _ Hst Hpage Hlast) as Hbody.
    destruct (IH (mkFetch (cursor r) (frames st ++ t1)) t2 Ht2) as [loc [H1 H2]].
    exists loc. simpl in H1, H2. rewrite <- (assoc_L (++)) in H1, H2.
    rewrite fmap_cons, <- app_comm_cons.
    rewrite (run_loop_Continue _ _ _ _ _ _ _ Hbody). simpl.
    split; [done|]. by rewrite H2.
Qed.

(** C8. When every reply but the last asks for another page, the
    function returns, after one request per reply, a table and no error:
    the concatenation of the tables read from the replies whose body is
    not blank, in arrival order.  It has the rows of all these tables;
    when the tables share one header it has that header and their rows
    one table after the other, which are the rows of the tables that
    have rows; when no reply had a non-blank body it is
    [pd.DataFrame()], and when no table has a row it is empty. *)
Theorem bulk2_fetch_results_concat pages last tables rest :
  Forall more_pages pages →
  raise_for_status last = Ok () →
  last_page (cursor last) = true →
  Forall2 (λ r t, read_csv_text (text r) = Ok t)
    (nonblank_pages (pages ++ [last])) tables →
  ∃ result,
    (fetch ((Ok <$> pages ++ [last]) ++ rest)).2 = Finished (Ok result)
    ∧ length (fetch ((Ok <$> pages ++ [last]) ++ rest)).1 = Datatypes.S (length pages)
    ∧ (tables = [] → result = empty_frame)
    ∧ (tables ≠ [] → result = concat tables)
    ∧ len result = sum_list (len <$> tables)
    ∧ (Forall (λ t, len t = 0) tables → empty result = true)
    ∧ (∀ cols, NoDup cols → tables ≠ [] →
         Forall (λ t, columns t = cols ∧ rectangular t) tables →
         result = mkDataFrame cols (mjoin (data <$> tables))
         ∧ data result = mjoin (data <$> filter (λ t, data t ≠ []) tables)).
Proof.
  intros Hpages Hst Hlast Htables.
  unfold nonblank_pages in Htables. rewrite filter_app in Htables.
  apply Forall2_app_inv_l in Htables as (t1 & t2 & Ht1 & Ht2 & ->).
  destruct (fetch_more_pages pages (mkFetch None []) t1 (Ok last :: rest)
              Hpages Ht1) as [loc [H1 H2]].
  cbv zeta in H1, H2. cbn [frames app] in H1, H2.
  pose proof (append_page_tables t1 last t2 Ht2) as Hpage.
  pose proof (fetch_body_Stop (mkFetch loc t1) last _ Hst Hpage Hlast) as Hbody.
  rewrite (run_loop_Stop _ _ _ _ _ _ Hbody) in H1, H2. simpl in H1, H2.
  set (tables := t1 ++ t2) in *.
  exists (match tables with [] => empty_frame | _ => concat tables end).
  unfold bulk2_fetch_results. rewrite fmap_app, <- (assoc_L (++)). simpl.
  split; [exact H1|]. split; [rewrite H2; lia|].
  split; [by intros ->|]. split; [by destruct tables|].
  split; [|split].
  - destruct tables; [done|]. apply concat_len.
  - intros Hzero. apply empty_of_len_0.
    destruct tables as [|t ts] eqn:Ht; [done|]. rewrite concat_len.
    clear -Hzero. induction Hzero as [|t' ts' H0 _ IH]; [done|].
    rewrite fmap_cons. simpl. by rewrite H0, IH.
  - intros cols Hnd Hne Hall. destruct tables as [|t ts] eqn:Ht; [done|].
    rewrite (concat_same_columns cols) by done.
    split; [done|]. apply (mjoin_data_nonempty (t :: ts)).
Qed.

End Fetch.

(** ** The loader *)

Section LoaderProperties.

Variable read_csv : string → string → result DataFrame.

Lemma get_locs_Ok labels cols :
  Forall (λ c, c ∈ cols) labels →
  ∃ locs, get_locs labels cols = Ok locs
          ∧ Forall2 (λ c i, get_loc c cols = Some i) labels locs.
Proof.
  induction 1 as [|c labels Hc _ (locs & IH & Hall)]; simpl.
  - exists []. by split.
  - destruct (get_loc_is_Some c cols Hc) as [i Hi]. rewrite Hi, IH. simpl.
    exists (i :: locs). split; [done|]. by constructor.
Qed.

(** Selecting labels that the frame has: those columns, with their
    cells. *)
Lemma getitem_list_Ok df labels :
  Forall (λ c, c ∈ columns df) labels →
  ∃ out, getitem_list df labels = Ok out
         ∧ columns out = labels
         ∧ len out = len df
         ∧ ∀ c, c ∈ labels → getitem out c = getitem df c.
Proof.
  intros Hall. destruct (get_locs_Ok _ _ Hall) as (locs & Hlocs & Hpos).
  unfold getitem_list. rewrite Hlocs. simpl. eexists. split; [done|].
  split; [done|]. split; [unfold len; simpl; by rewrite length_fmap|].
  intros c Hc. unfold getitem. simpl.
  destruct (get_loc_is_Some c labels Hc) as [k Hk]. rewrite Hk.
  apply get_loc_Some in Hk as [Hk _].
  destruct (Forall2_lookup_l _ _ _ _ _ Hpos Hk) as (i & Hi & Hloc).
  rewrite Hloc. f_equal. rewrite <- list_fmap_compose.
  apply list_fmap_ext. intros n row _. simpl.
  apply at_pos_lookup. by rewrite list_lookup_fmap, Hi.
Qed.

Lemma keep_cols_of_requested df selected :
  keep_cols_of df selected = requested_columns (columns df) selected.
Proof.
  unfold keep_cols_of, requested_columns. f_equal.
  apply list_filter_iff. intros col. by rewrite truthy_true.
Qed.

Lemma requested_columns_plain header selected :
  Forall (λ col, col ≠ "" ∧ strip col = col) selected →
  requested_columns header selected = filter (λ col, col ∈ header) selected.
Proof.
  unfold requested_columns.
  induction 1 as [|col selected [Hne Hcol] _ IH]; [done|].
  rewrite !filter_cons, Hcol.
  destruct (decide (col ∈ header)) as [Hin|Hnin].
  - rewrite decide_True by done. by rewrite fmap_cons, Hcol, IH.
  - rewrite decide_False by tauto. done.
Qed.

(** The names that [main] passes to the loader are not empty and carry
    no surrounding whitespace. *)
Lemma sitetracker_columns_of_plain arg selected :
  sitetracker_columns_of arg = Some selected →
  Forall (λ col, col ≠ "" ∧ strip col = col) selected.
Proof.
  destruct arg as [text|]; simpl; [|done].
  destruct (truthy text); [|done]. intros [= <-].
  apply Forall_fmap, Forall_forall. intros c [Hc _]%list_elem_of_filter.
  simpl. split; [by apply truthy_true|apply strip_idem].
Qed.

(** The script keeps the columns the specification names, for the names
    of its argument; and so does the loader when [main] calls it. *)
Lemma script_keep_cols_spec header arg docid_col selected :
  sitetracker_columns_of (Some arg) = Some selected →
  script_keep_cols header arg docid_col
  = spec_columns header selected docid_col.
Proof.
  simpl. destruct (truthy arg); [|done]. intros [= <-].
  unfold script_keep_cols, spec_columns. cbv zeta.
  destruct (decide _); [|done]. by rewrite app_nil_r.
Qed.

Lemma keep_cols_of_main df arg docid_col selected :
  sitetracker_columns_of (Some arg) = Some selected →
  (let keep_cols := keep_cols_of df selected in
   if decide (docid_col ∈ keep_cols) then keep_cols
   else keep_cols ++ [docid_col])
  = script_keep_cols (columns df) arg docid_col.
Proof.
  intros Harg. cbv zeta.
  rewrite (script_keep_cols_spec _ _ _ _ Harg).
  rewrite keep_cols_of_requested.
  rewrite (requested_columns_plain _ _ (sitetracker_columns_of_plain _ _ Harg)).
  unfold spec_columns. cbv zeta.
  destruct (decide _); [|done]. by rewrite app_nil_r.
Qed.

(** C5, as amended. On a CSV whose header has the identifier column and
    for a non-empty list of requested names, the loader returns the
    requested names without their surrounding whitespace that are header
    names (empty names are skipped), in the order of the request, then
    the identifier column unless it is among them; every returned column
    has the cells it has in the file. When no requested name is empty or
    carries surrounding whitespace these are the requested names that
    are header names. *)
Theorem read_sitetracker_csv_columns path docid_col selected encoding
    dataframe :
  read_csv path encoding = Ok dataframe →
  docid_col ∈ columns dataframe →
  selected ≠ [] →
  let requested := requested_columns (columns dataframe) selected in
  ∃ out,
    read_sitetracker_csv read_csv path docid_col (Some selected) encoding
    = Ok out
    ∧ columns out
      = requested ++ (if decide (docid_col ∈ requested) then [] else [docid_col])
    ∧ docid_col ∈ columns out
    ∧ (docid_col ∉ requested → last (columns out) = Some docid_col)
    ∧ len out = len dataframe
    ∧ (∀ c, c ∈ columns out →
         c ∈ columns dataframe ∧ getitem out c = getitem dataframe c)
    ∧ (Forall (λ col, col ≠ "" ∧ strip col = col) selected →
       columns out = spec_columns (columns dataframe) selected docid_col).
Proof.
  intros Hread Hdocid Hsel requested.
  unfold read_sitetracker_csv. rewrite Hread. simpl.
  unfold has_column. rewrite bool_decide_eq_true_2 by done. simpl.
  destruct selected as [|col selected']; [done|].
  set (selected := col :: selected') in *.
  rewrite keep_cols_of_requested. fold requested.
  set (keep := if decide (docid_col ∈ requested) then requested
               else requested ++ [docid_col]).
  assert (keep = requested
                 ++ (if decide (docid_col ∈ requested) then [] else [docid_col]))
    as Hkeep.
  { unfold keep. destruct (decide (docid_col ∈ requested)); [|done].
    by rewrite app_nil_r. }
  assert (Forall (λ c, c ∈ columns dataframe) requested) as Hreq.
  { apply Forall_forall. intros c (c' & -> & Hc')%list_elem_of_fmap.
    apply list_elem_of_filter in Hc' as [[_ Hin] _]. done. }
  assert (Forall (λ c, c ∈ columns dataframe) keep) as Hall.
  { rewrite Hkeep. apply Forall_app. split; [done|].
    destruct (decide (docid_col ∈ requested)); by repeat constructor. }
  destruct (getitem_list_Ok dataframe keep Hall)
    as (out & Hout & Hcols & Hlen & Hcells).
  exists out. split; [done|]. rewrite Hcols.
  split; [done|]. split; [|split; [|split; [done|split]]].
  - rewrite Hkeep. destruct (decide (docid_col ∈ requested)).
    + by rewrite app_nil_r.
    + apply elem_of_app. right. left.
  - intros Hnot. rewrite Hkeep, decide_False by done. apply last_snoc.
  - intros c Hc. split; [|by apply Hcells].
    rewrite Forall_forall in Hall. by apply Hall.
  - intros Hplain. rewrite Hkeep. unfold spec_columns, requested.
    by rewrite (requested_columns_plain _ _ Hplain).
Qed.

(** C9. On a CSV that was read and whose header lacks the identifier
    column the loader raises [SystemExit] with a message: the
    interpreter exits with status 1, and the exception is no
    [Exception]. *)
Theorem read_sitetracker_csv_missing_docid path docid_col selected encoding
    dataframe :
  read_csv path encoding = Ok dataframe →
  docid_col ∉ columns dataframe →
  ∃ e,
    read_sitetracker_csv read_csv path docid_col selected encoding = Raise e
    ∧ e = SystemExit (ExitObj ("Column not found in SiteTracker CSV: "
                                 +:+ docid_col))
    ∧ exit_status e = 1%Z
    ∧ exit_status e ≠ 0%Z
    ∧ is_Exception e = false.
Proof.
  intros Hread Hdocid. unfold read_sitetracker_csv. rewrite Hread. simpl.
  unfold has_column. rewrite bool_decide_eq_false_2 by done. simpl.
  eexists. split; [done|]. by repeat split.
Qed.

End LoaderProperties.

(** ** Examples *)

(** Read to the letter the specification fails here: the requested
    name [ Name] is a header name, and the loader returns the identifier
    column alone. *)
Lemma read_sitetracker_csv_columns_counterexample :
  ∃ out,
    read_sitetracker_csv (one_file "spaced.csv" spaced_csv) "spaced.csv"
      "DocId" (Some [" Name"]) "utf-8-sig" = Ok out
    ∧ columns out = ["DocId"]
    ∧ spec_columns (columns spaced_csv) [" Name"] "DocId" = [" Name"; "DocId"]
    ∧ columns out ≠ spec_columns (columns spaced_csv) [" Name"] "DocId".
Proof.
  eexists. split; [vm_compute; reflexivity|]. split; [reflexivity|].
  split; [vm_compute; reflexivity|]. vm_compute. discriminate.
Qed.

Lemma read_sitetracker_csv_columns_witness :
  ∃ out,
    read_sitetracker_csv (one_file "attachments.csv" attachments_csv)
      "attachments.csv" "sitetracker__ContentDocumentRecord__c"
      (Some ["Name"]) "utf-8" = Ok out
    ∧ columns out = ["Name"; "sitetracker__ContentDocumentRecord__c"].
Proof.
  destruct (read_sitetracker_csv_columns
              (one_file "attachments.csv" attachments_csv)
              "attachments.csv" "sitetracker__ContentDocumentRecord__c"
              ["Name"] "utf-8" attachments_csv)
    as (out & Hout & Hcols & _).
  - reflexivity.
  - by_evaluation.
  - discriminate.
  - exists out. split; [exact Hout|]. rewrite Hcols. vm_compute. reflexivity.
Defined.

(** The request [["Name"]] with identifier column [DocId]. *)
Example read_sitetracker_csv_name_docid :
  read_sitetracker_csv
    (one_file "export.csv"
       (mkDataFrame ["DocId"; "Name"; "Other"]
          [[Str "DOC1"; Str "A"; Str "X"]; [NaN; Str "B"; Str "Y"]]))
    "export.csv" "DocId" (Some ["Name"]) "utf-8-sig"
  = Ok (mkDataFrame ["Name"; "DocId"]
          [[Str "A"; Str "DOC1"]; [Str "B"; NaN]]).
Proof. vm_compute. reflexivity. Qed.

Lemma read_sitetracker_csv_missing_docid_witness :
  read_sitetracker_csv (one_file "attachments.csv" attachments_csv)
    "attachments.csv" "DocId" None "utf-8-sig"
  = Raise (SystemExit (ExitObj "Column not found in SiteTracker CSV: DocId")).
Proof.
  destruct (read_sitetracker_csv_missing_docid
              (one_file "attachments.csv" attachments_csv)
              "attachments.csv" "DocId" None "utf-8-sig" attachments_csv)
    as (e & Hraise & -> & _).
  - reflexivity.
  - by_evaluation.
  - exact Hraise.
Defined.

Lemma fetch_pagination_witness :
  ∃ first next trace,
    (bulk2_fetch_results read_csv_plain "https://example.my.salesforce.com"
       "token" "60.0" "750" 50000 [Ok page_1; Ok page_2]).1
    = Get first :: Get next :: trace
    ∧ params first = [("maxRecords", PInt 50000)]
    ∧ params next = [("maxRecords", PInt 50000); ("locator", PStr "MTAwMDA")].
Proof.
  destruct (fetch_pagination read_csv_plain "https://example.my.salesforce.com"
              "token" "60.0" "750" 50000 (mkFetch None []) page_1 [Ok page_2])
    as (_ & _ & _ & _ & Hmore).
  destruct (Hmore [mkDataFrame ["ContentDocumentId"; "Title"]
                     [[Str "069A"; Str "First"]; [Str "069B"; Str "Second"]]])
    as (c & trace & Hc & Hrun & Hparams).
  - reflexivity.
  - reflexivity.
  - vm_compute. reflexivity.
  - injection Hc as <-.
    eexists _, _, trace. split; [exact Hrun|].
    split; [reflexivity|exact Hparams].
Defined.

Lemma bulk2_fetch_results_concat_witness :
  ∃ result,
    (bulk2_fetch_results read_csv_plain "https://example.my.salesforce.com"
       "token" "60.0" "750" 50000 [Ok page_1; Ok page_2]).2
    = Finished (Ok result)
    ∧ result
      = mkDataFrame ["ContentDocumentId"; "Title"]
          [[Str "069A"; Str "First"]; [Str "069B"; Str "Second"];
           [Str "069C"; Str "Third"]].
Proof.
  destruct (bulk2_fetch_results_concat read_csv_plain
              "https://example.my.salesforce.com" "token" "60.0" "750" 50000
              [page_1] page_2
              [mkDataFrame ["ContentDocumentId"; "Title"]
                 [[Str "069A"; Str "First"]; [Str "069B"; Str "Second"]];
               mkDataFrame ["ContentDocumentId"; "Title"]
                 [[Str "069C"; Str "Third"]]]
              [])
    as (result & Hrun & _ & _ & _ & _ & _ & Hsame).
  - repeat constructor.
  - reflexivity.
  - reflexivity.
  - vm_compute. repeat constructor.
  - exists result. split; [exact Hrun|].
    apply (Hsame ["ContentDocumentId"; "Title"]).
    + by_evaluation.
    + discriminate.
    + repeat constructor.
Defined.

(** No reply with data: an empty table, and no error. *)
Example bulk2_fetch_results_no_data :
  (bulk2_fetch_results read_csv_plain "https://example.my.salesforce.com"
     "token" "60.0" "750" 50000 [Ok blank_page]).2
  = Finished (Ok empty_frame).
Proof. vm_compute. reflexivity. Qed.

(** The cursor [null] ends the loop in any mix of cases. *)
Example last_page_examples :
  last_page (Some "null") = true ∧ last_page (Some "NULL") = true
  ∧ last_page (Some "Null") = true ∧ last_page (Some "") = true
  ∧ last_page None = true ∧ last_page (Some "MTAwMDA") = false
  ∧ last_page (Some "nul") = false.
Proof. vm_compute. repeat split. Qed.

(** * Further properties *)

(** ** What the left join attaches *)

Section JoinLookup.

Implicit Types (lrows rrows : list (list cell)) (left right : DataFrame).

Lemma at_pos_app_r (row tail : list cell) j :
  at_pos (length row + j) (row ++ tail) = at_pos j tail.
Proof.
  unfold at_pos. rewrite !nth_lookup, lookup_app_r by lia.
  by replace (length row + j - length row) with j by lia.
Qed.

Lemma at_pos_replicate j n : at_pos j (replicate n NaN) = NaN.
Proof.
  unfold at_pos. rewrite nth_lookup.
  destruct (replicate n NaN !! j) as [c|] eqn:Hc; [|done].
  by apply lookup_replicate in Hc as [-> _].
Qed.

(** With at most one right row per key every left row makes one row. *)
Lemma join_row_NoDup li ri width project rrows lrow :
  NoDup (join_key <$> (at_pos ri <$> rrows)) →
  join_row li ri width project rrows lrow
  = [lrow ++ match joined_with li ri rrows lrow with
             | Some r => project r
             | None => replicate width NaN
             end].
Proof.
  intros Hnd. unfold join_row, joined_with.
  pose proof (filter_key_at_most_one (λ r, join_key (at_pos ri r)) rrows
                (join_key (at_pos li lrow))) as Hle.
  rewrite <- list_fmap_compose in Hnd. specialize (Hle Hnd).
  destruct (filter _ rrows) as [|r [|r' found]]; simpl in *; [done|done|lia].
Qed.

Lemma left_join_rows_NoDup li ri width project lrows rrows :
  NoDup (join_key <$> (at_pos ri <$> rrows)) →
  left_join_rows li ri width project lrows rrows
  = (λ lrow, lrow ++ match joined_with li ri rrows lrow with
                     | Some r => project r
                     | None => replicate width NaN
                     end) <$> lrows.
Proof.
  intros Hnd. unfold left_join_rows.
  induction lrows as [|lrow lrows IH]; [done|].
  by rewrite bind_cons, IH, (join_row_NoDup _ _ _ _ _ _ Hnd), fmap_cons.
Qed.

(** Renamed labels stay distinct when no right label is an overlapping
    label followed by the suffix. *)
Lemma add_suffix_NoDup suffix overlap labels :
  NoDup labels →
  (∀ a b, a ∈ overlap → b ∈ labels → a +:+ suffix ≠ b) →
  NoDup (add_suffix suffix overlap labels).
Proof.
  intros Hnd Hclash. unfold add_suffix.
  apply NoDup_fmap_2_strong; [|done].
  intros a b Ha Hb.
  destruct (decide (a ∈ overlap)) as [Hoa|Hoa];
    destruct (decide (b ∈ overlap)) as [Hob|Hob]; intros Heq.
  - by apply append_inj_l in Heq.
  - by destruct (Hclash a b).
  - by destruct (Hclash b a).
  - done.
Qed.

(** The join of two tables whose keys have different names: the left
    labels, then the right labels (renamed where they overlap); one row
    per left row when no key is on two right rows. *)
Lemma merge_left_distinct_keys left right lk rk rsuffix li ri :
  lk ≠ rk →
  get_loc lk (columns left) = Some li →
  repeated lk (columns left) = false →
  get_loc rk (columns right) = Some ri →
  NoDup (columns right) →
  (∀ c, c ∈ columns left → c ∈ columns right →
        c +:+ rsuffix ∉ columns right) →
  let rnew := add_suffix rsuffix
                (filter (λ c, c ∈ columns right) (columns left))
                (columns right) in
  NoDup rnew
  ∧ merge_left left right lk rk "" rsuffix
    = Ok (mkDataFrame (columns left ++ rnew)
            (left_join_rows li ri (length rnew) id (data left) (data right))).
Proof.
  intros Hne Hli Hone Hri Hnd Hfree rnew.
  assert (NoDup rnew) as Hrnew.
  { apply add_suffix_NoDup; [done|].
    intros a b [Har Hal]%list_elem_of_filter Hb Heq.
    apply (Hfree a Hal Har). by rewrite Heq. }
  split; [done|].
  unfold merge_left.
  rewrite Hri, (repeated_NoDup _ _ Hnd), Hli, Hone. cbv zeta.
  rewrite (bool_decide_eq_false_2 _ Hne). simpl.
  rewrite add_suffix_empty. fold rnew.
  by rewrite suffix_dups_same, suffix_dups_NoDup.
Qed.

End JoinLookup.

(** X1. Let the identifier column of the local table not be named
    [ContentDocumentId], the labels of the metadata table be distinct,
    none of them be a shared label followed by [_File], and no key be
    on two metadata rows.  Then every table the merge returns carries,
    for a metadata column, on each local row the cell of the metadata
    row with the same identifier, and a missing value where no metadata
    row has it.  The column is named as in the metadata table, or with
    [_File] appended when the local table has a column of that name;
    this is stated for a name that no local column has and that is not
    [SiteTrackerAttachmentUrl], the column the function writes last. *)
Theorem merge_attaches_metadata site_tracker_df files_df docid_col
    instance_url li ri c jc merged :
  rectangular site_tracker_df → rectangular files_df →
  docid_col ≠ "ContentDocumentId" →
  get_loc docid_col (columns site_tracker_df) = Some li →
  get_loc "ContentDocumentId" (columns files_df) = Some ri →
  NoDup (columns files_df) →
  (∀ c', c' ∈ columns site_tracker_df → c' ∈ columns files_df →
         c' +:+ "_File" ∉ columns files_df) →
  NoDup (join_key <$> (at_pos ri <$> data files_df)) →
  get_loc c (columns files_df) = Some jc →
  merged_label (columns site_tracker_df) c ∉ columns site_tracker_df →
  merged_label (columns site_tracker_df) c ≠ "SiteTrackerAttachmentUrl" →
  merge_site_tracker_and_files site_tracker_df files_df docid_col
    instance_url = Ok merged →
  getitem merged (merged_label (columns site_tracker_df) c)
  = Ok ((λ lrow,
          match joined_with li ri (data files_df) lrow with
          | Some r => at_pos jc r
          | None => NaN
          end) <$> data site_tracker_df).
Proof.
  intros HrectL HrectM Hkeys Hli Hri Hnd Hfree Hndk Hc Hfresh Hnoturl
    (joined' & Hjoin' & _ & Hnoid & Hid)%merge_site_tracker_and_files_Ok.
  destruct (merge_left_Ok_unique _ _ _ _ _ _ _ Hjoin') as [Hone _].
  destruct (merge_left_distinct_keys site_tracker_df files_df docid_col
              "ContentDocumentId" "_File" li ri Hkeys Hli Hone Hri Hnd Hfree)
    as [Hrnew Hjoin].
  set (rnew := add_suffix "_File" _ (columns files_df)) in *.
  set (joined := mkDataFrame _ _) in Hjoin.
  assert (joined' = joined) as -> by congruence.
  set (label := merged_label (columns site_tracker_df) c) in *.
  (* the place of the column *)
  assert (get_loc label rnew = Some jc) as Hjc.
  { apply get_loc_NoDup; [done|].
    apply get_loc_Some in Hc as [Hc _].
    unfold rnew, add_suffix. rewrite list_lookup_fmap, Hc. simpl. f_equal.
    unfold label, merged_label.
    destruct (decide (c ∈ columns site_tracker_df)) as [Hin|Hnin].
    - rewrite decide_True; [done|]. apply list_elem_of_filter.
      split; [|done]. by eapply list_elem_of_lookup_2.
    - rewrite decide_False; [done|].
      by intros [_ ?]%list_elem_of_filter. }
  assert (get_loc label (columns joined)
          = Some (length (columns site_tracker_df) + jc)) as Hloc.
  { unfold joined. simpl. rewrite (get_loc_app_r _ _ _ Hfresh).
    fold rnew. by rewrite Hjc. }
  assert (length rnew = length (columns files_df)) as Hlen.
  { unfold rnew, add_suffix. by rewrite length_fmap. }
  (* its cells *)
  assert (getitem joined label
          = Ok ((λ lrow,
                  match joined_with li ri (data files_df) lrow with
                  | Some r => at_pos jc r
                  | None => NaN
                  end) <$> data site_tracker_df)) as Hcol.
  { unfold getitem. rewrite Hloc. f_equal. unfold joined. simpl.
    rewrite (left_join_rows_NoDup _ _ _ _ _ _ Hndk).
    rewrite <- list_fmap_compose. apply list_fmap_ext.
    intros k lrow Hk. simpl.
    unfold rectangular in HrectL. rewrite Forall_forall in HrectL.
    rewrite <- (HrectL lrow) by (by eapply list_elem_of_lookup_2).
    rewrite at_pos_app_r.
    destruct (joined_with li ri (data files_df) lrow); [done|].
    apply at_pos_replicate. }
  assert (rectangular joined) as Hrect.
  { unfold rectangular, joined. simpl. rewrite length_app.
    apply left_join_rows_row_length; [done|].
    eapply Forall_impl; [exact HrectM|]. intros r Hr. simpl in *. lia. }
  destruct (has_column joined "Id") eqn:Hhas.
  - destruct (Hid eq_refl) as (ids & Hids & ->).
    rewrite getitem_setitem_ne; [done|done| |done].
    rewrite length_fmap. by eapply getitem_length.
  - by rewrite (Hnoid eq_refl).
Qed.

Lemma merge_attaches_metadata_witness :
  ∃ merged,
    merge_site_tracker_and_files local_example files_example "DocId"
      "http://example.com" = Ok merged
    ∧ getitem merged "Id_File" = Ok [Str "V1"; NaN].
Proof.
  eexists. split; [vm_compute; reflexivity|].
  eapply (merge_attaches_metadata local_example files_example "DocId"
            "http://example.com" 1 0 "Id" 3).
  - repeat constructor.
  - repeat constructor.
  - discriminate.
  - reflexivity.
  - reflexivity.
  - by_evaluation.
  - apply (Forall_forall
             (λ c, c ∈ columns files_example →
                   c +:+ "_File" ∉ columns files_example)).
    by_evaluation.
  - by_evaluation.
  - reflexivity.
  - by_evaluation.
  - discriminate.
  - vm_compute. reflexivity.
Defined.

(** ** The loader and the identifier set *)

Section LoaderRows.

Variable read_csv : string → string → result DataFrame.

(** On a file that has the identifier column the loader returns a
    table with the rows of the file and that column. *)
Lemma read_sitetracker_csv_Ok path docid_col selected encoding dataframe :
  read_csv path encoding = Ok dataframe →
  docid_col ∈ columns dataframe →
  ∃ out,
    read_sitetracker_csv read_csv path docid_col selected encoding = Ok out
    ∧ len out = len dataframe
    ∧ getitem out docid_col = getitem dataframe docid_col.
Proof.
  intros Hread Hdocid. unfold read_sitetracker_csv. rewrite Hread. simpl.
  unfold has_column. rewrite bool_decide_eq_true_2 by done. simpl.
  destruct selected as [[|col selected]|]; try by eexists.
  set (keep := if decide (docid_col ∈ _) then _ else _).
  assert (docid_col ∈ keep) as Hin.
  { unfold keep. destruct (decide _); [done|]. apply elem_of_app. right. left. }
  assert (Forall (λ c, c ∈ columns dataframe) keep) as Hall.
  { assert (Forall (λ c, c ∈ columns dataframe)
              (keep_cols_of dataframe (col :: selected))) as Hreq.
    { apply Forall_forall. intros c (c' & -> & Hc')%list_elem_of_fmap.
      apply list_elem_of_filter in Hc' as [[_ Hc'] _]. done. }
    unfold keep. destruct (decide _); [done|].
    apply Forall_app. split; [done|]. by repeat constructor. }
  destruct (getitem_list_Ok dataframe keep Hall)
    as (out & Hout & _ & Hlen & Hcells).
  exists out. split; [done|]. split; [done|]. by apply Hcells.
Qed.

Lemma filter_fmap_filter_length {A B} (f : A → B) (P : A → Prop)
    `{∀ x, Decision (P x)} (Q : B → Prop) `{∀ y, Decision (Q y)}
    (l : list A) :
  length (filter Q (f <$> filter P l)) ≤ length (filter Q (f <$> l)).
Proof.
  induction l as [|x l IH]; [done|].
  rewrite fmap_cons, !filter_cons.
  destruct (decide (P x)); [rewrite fmap_cons, filter_cons|];
    destruct (decide (Q (f x))); simpl; lia.
Qed.

Lemma filter_eq_not_elem (label : string) (cols : list string) :
  label ∉ cols → filter (λ c, c = label) cols = [].
Proof.
  induction cols as [|c cols IH]; [done|].
  intros [Hne Hcols]%not_elem_of_cons.
  rewrite filter_cons, decide_False by done. by apply IH.
Qed.

(** The labels of the table the loader returns. *)
Lemma read_sitetracker_csv_labels path docid_col selected encoding dataframe
    out :
  read_csv path encoding = Ok dataframe →
  read_sitetracker_csv read_csv path docid_col selected encoding = Ok out →
  match selected with
  | None | Some [] => columns out = columns dataframe
  | Some names =>
      let keep_cols := keep_cols_of dataframe names in
      columns out = if decide (docid_col ∈ keep_cols) then keep_cols
                    else keep_cols ++ [docid_col]
  end.
Proof.
  intros Hread. unfold read_sitetracker_csv. rewrite Hread. simpl.
  destruct (has_column dataframe docid_col); simpl; [|done].
  destruct selected as [[|col names]|]; try by intros [= <-].
  cbv zeta. unfold getitem_list.
  destruct (get_locs _ (columns dataframe)); [|done]. simpl.
  by intros [= <-].
Qed.

(** The table the loader returns has the identifier label once, when
    the file has it once and the request names it at most once. *)
Lemma read_sitetracker_csv_docid_once path docid_col selected encoding
    dataframe out :
  read_csv path encoding = Ok dataframe →
  repeated docid_col (columns dataframe) = false →
  (∀ names, selected = Some names →
            repeated docid_col (strip <$> names) = false) →
  read_sitetracker_csv read_csv path docid_col selected encoding = Ok out →
  repeated docid_col (columns out) = false.
Proof.
  intros Hread Hfile Hrequest Hout.
  pose proof (read_sitetracker_csv_labels _ _ _ _ _ _ Hread Hout) as Hlabels.
  destruct selected as [[|col names]|]; try by rewrite Hlabels.
  cbv zeta in Hlabels. rewrite Hlabels.
  specialize (Hrequest _ eq_refl).
  unfold repeated in *. apply bool_decide_eq_false in Hrequest.
  apply bool_decide_eq_false_2.
  set (keep_cols := keep_cols_of dataframe (col :: names)).
  assert (length (filter (λ c, c = docid_col) keep_cols) ≤ 1) as Hle.
  { unfold keep_cols, keep_cols_of.
    pose proof (filter_fmap_filter_length strip
                  (λ col, truthy col = true ∧ strip col ∈ columns dataframe)
                  (λ c, c = docid_col) (col :: names)).
    lia. }
  destruct (decide (docid_col ∈ keep_cols)) as [Hin|Hnin]; [lia|].
  rewrite filter_app, (filter_eq_not_elem _ _ Hnin). simpl.
  rewrite filter_cons, decide_True by done. simpl. lia.
Qed.

(** X2. When the header has the identifier label once and the request
    names it at most once, the table the loader returns has the rows of
    the file and its identifier column, whatever other columns are
    requested, so the identifier set does not depend on them. *)
Theorem read_sitetracker_csv_keeps_docids path docid_col selected encoding
    dataframe out :
  read_csv path encoding = Ok dataframe →
  repeated docid_col (columns dataframe) = false →
  (∀ names, selected = Some names →
            repeated docid_col (strip <$> names) = false) →
  read_sitetracker_csv read_csv path docid_col selected encoding = Ok out →
  len out = len dataframe
  ∧ getitem out docid_col = getitem dataframe docid_col
  ∧ extract_docids out docid_col = extract_docids dataframe docid_col.
Proof.
  intros Hread Hfile Hrequest Hout.
  pose proof (read_sitetracker_csv_docid_once _ _ _ _ _ _ Hread Hfile
                Hrequest Hout) as Honce.
  destruct (decide (docid_col ∈ columns dataframe)) as [Hdocid|Hdocid].
  - destruct (read_sitetracker_csv_Ok path docid_col selected encoding
                dataframe Hread Hdocid) as (out' & Hout' & Hlen & Hcol).
    assert (out' = out) as -> by congruence.
    split; [done|]. split; [done|].
    unfold extract_docids. by rewrite Hcol, Honce, Hfile.
  - unfold read_sitetracker_csv in Hout. rewrite Hread in Hout. simpl in Hout.
    unfold has_column in Hout.
    by rewrite bool_decide_eq_false_2 in Hout by done.
Qed.

End LoaderRows.

Lemma read_sitetracker_csv_keeps_docids_witness :
  ∃ out,
    read_sitetracker_csv (one_file "attachments.csv" attachments_csv)
      "attachments.csv" "sitetracker__ContentDocumentRecord__c"
      (Some ["Other"]) "utf-8" = Ok out
    ∧ extract_docids out "sitetracker__ContentDocumentRecord__c"
      = extract_docids attachments_csv "sitetracker__ContentDocumentRecord__c".
Proof.
  eexists. split; [vm_compute; reflexivity|].
  eapply (read_sitetracker_csv_keeps_docids
            (one_file "attachments.csv" attachments_csv)
            "attachments.csv" "sitetracker__ContentDocumentRecord__c"
            (Some ["Other"]) "utf-8" attachments_csv).
  - reflexivity.
  - reflexivity.
  - intros names [= <-]. reflexivity.
  - vm_compute. reflexivity.
Defined.

(** A request that names the identifier column twice: the loader
    returns the label twice, and [extract_docids] raises. *)
Example read_sitetracker_csv_docid_twice :
  ∃ out,
    read_sitetracker_csv (one_file "attachments.csv" attachments_csv)
      "attachments.csv" "sitetracker__ContentDocumentRecord__c"
      (Some ["sitetracker__ContentDocumentRecord__c";
             "sitetracker__ContentDocumentRecord__c"]) "utf-8" = Ok out
    ∧ columns out = ["sitetracker__ContentDocumentRecord__c";
                     "sitetracker__ContentDocumentRecord__c"]
    ∧ extract_docids out "sitetracker__ContentDocumentRecord__c"
      = Raise AttributeError.
Proof. eexists. split; [vm_compute; reflexivity|]. by split. Qed.

(** ** Filtering twice *)

Lemma filter_Forall_id {A} (P : A → Prop) `{∀ x, Decision (P x)} (l : list A) :
  Forall P l → filter P l = l.
Proof.
  induction 1 as [|x l Hx _ IH]; [done|].
  by rewrite filter_cons, decide_True, IH.
Qed.

Lemma drop_duplicates_go_NoDup i seen (rows : list (list cell)) :
  NoDup (at_pos i <$> rows) →
  (∀ r, r ∈ rows → at_pos i r ∉ seen) →
  drop_duplicates_go i seen rows = rows.
Proof.
  revert seen. induction rows as [|r rows IH]; intros seen Hnd Hsep; [done|].
  rewrite fmap_cons in Hnd. apply NoDup_cons in Hnd as [Hr Hnd]. simpl.
  rewrite decide_False by (apply Hsep; left). f_equal.
  apply IH; [done|]. intros r' Hr'. rewrite not_elem_of_cons. split.
  - intros Heq. apply Hr. rewrite <- Heq. apply list_elem_of_fmap. eauto.
  - apply Hsep. by right.
Qed.

(** X3. Filtering to the identifier set and dropping duplicates a second
    time changes nothing: the files-only table is a fixed point. *)
Theorem matched_files_idempotent content_versions docid_set out :
  matched_files content_versions docid_set = Ok out →
  matched_files out docid_set = Ok out.
Proof.
  intros Hout.
  destruct (get_loc "ContentDocumentId" (columns content_versions))
    as [i|] eqn:Hi.
  - rewrite (matched_files_Ok _ _ _ Hi) in Hout. injection Hout as <-.
    rewrite (matched_files_Ok _ _ i) by done. simpl. do 2 f_equal.
    set (kept := filter _ (data content_versions)).
    set (rows := drop_duplicates_go i [] kept).
    assert (Forall (λ r, in_docids docid_set (at_pos i r)) rows) as Hall.
    { apply Forall_forall. intros r Hr.
      pose proof (elem_of_sublist _ _ _ Hr
                    (drop_duplicates_go_sublist i [] kept)) as Hk.
      by apply list_elem_of_filter in Hk as [Hk _]. }
    rewrite (filter_Forall_id _ _ Hall).
    apply drop_duplicates_go_NoDup.
    + unfold rows. rewrite drop_duplicates_go_keys. apply NoDup_unique_go.
    + intros; apply not_elem_of_nil.
  - unfold matched_files, getitem in Hout. by rewrite Hi in Hout.
Qed.

Lemma matched_files_idempotent_witness :
  matched_files
    (mkDataFrame ["Title"; "ContentDocumentId"]
       [[Str "a"; Str "D1"]; [Str "d"; Str "D3"]]) {[ "D1"; "D3" ]}
  = Ok (mkDataFrame ["Title"; "ContentDocumentId"]
          [[Str "a"; Str "D1"]; [Str "d"; Str "D3"]]).
Proof.
  apply (matched_files_idempotent metadata_example).
  vm_compute. reflexivity.
Defined.

(** ** Credentials *)

Section Credentials.
Import scripted py2 cli.

Variable which : string → bool.
Variable json_loads : string → option jvalue.

Lemma first_available_spec cmds cmd :
  first_available which cmds = Some cmd →
  ∃ before after, cmds = before ++ cmd :: after
                  ∧ which cmd = true
                  ∧ Forall (λ c, which c = false) before.
Proof.
  induction cmds as [|c cmds IH]; simpl; [done|].
  destruct (which c) eqn:Hc.
  - intros [= <-]. exists [], cmds. by repeat split.
  - intros (before & after & -> & Hcmd & Hbefore)%IH.
    exists (c :: before), after. repeat split; [done|]. by constructor.
Qed.

Lemma first_available_None cmds :
  first_available which cmds = None ↔ Forall (λ c, which c = false) cmds.
Proof.
  induction cmds as [|c cmds IH]; simpl.
  - split; [constructor|done].
  - destruct (which c) eqn:Hc.
    + split; [done|]. intros [Hc' _]%Forall_cons. congruence.
    + rewrite IH. split; [by constructor|by intros [_ ?]%Forall_cons].
Qed.

(** Every executable that can be picked is driven with the commands of
    the current CLI. *)
Lemma pick_cli_startswith_sf cmd :
  pick_cli which = Ok cmd → cmd ∈ candidates ∧ startswith cmd "sf" = true.
Proof.
  unfold pick_cli.
  destruct (first_available which candidates) as [c|] eqn:Hc; [|done].
  intros [= <-].
  apply first_available_spec in Hc as (before & after & Hc & _).
  assert (c ∈ candidates) as Hin.
  { rewrite Hc. apply elem_of_app. right. left. }
  split; [done|]. unfold candidates in Hin.
  repeat (apply elem_of_cons in Hin as [->|Hin]; [reflexivity|]).
  by apply elem_of_nil in Hin.
Qed.

(** X4. [pick_cli] returns the first of [sf.cmd], [sf], [sfdx.cmd],
    [sfdx] that is on the path, and raises [FileNotFoundError] exactly
    when none is. *)
Theorem pick_cli_first_available :
  match pick_cli which with
  | Ok cmd =>
      ∃ before after, candidates = before ++ cmd :: after
                      ∧ which cmd = true
                      ∧ Forall (λ c, which c = false) before
  | Raise e =>
      e = FileNotFoundError
            "Salesforce CLI not found on PATH. Verify `sf --version` works in this terminal."
      ∧ Forall (λ c, which c = false) candidates
  end
  ∧ (Forall (λ c, which c = false) candidates ↔
     ∃ e, pick_cli which = Raise e).
Proof.
  unfold pick_cli.
  destruct (first_available which candidates) as [cmd|] eqn:Hc.
  - split; [by apply first_available_spec|].
    split; [|by intros [e [=]]].
    intros Hnone%first_available_None. congruence.
  - apply first_available_None in Hc. split; [done|]. split; eauto.
Qed.

Lemma run_cmd_cons cmd completed rest :
  run_cmd cmd (completed :: rest)
  = ([cmd],
     if decide (returncode completed ≠ 0%Z) then
       Raised (Builtin (RuntimeError
         ("Command failed:" +:+ nl +:+ "  " +:+ join " " cmd +:+ nl +:+ nl
          +:+ "STDERR:" +:+ nl +:+ strip (stderr completed))))
     else Returned (stdout completed),
     rest).
Proof.
  unfold run_cmd, mbind, prog_bind, bind, ask. simpl.
  by destruct (decide (returncode completed ≠ 0%Z)).
Qed.

(** [credentials_of] runs no command. *)
Lemma credentials_of_pure data (processes : list CompletedProcess) :
  ∃ a, credentials_of data processes = ([], a, processes).
Proof.
  unfold credentials_of. repeat case_match; by eexists.
Qed.

(** What [org_display] does with the next finished process. *)
Lemma org_display_cons cli alias completed rest :
  startswith cli "sf" = true →
  org_display json_loads cli alias (completed :: rest)
  = ([display_command cli alias],
     if decide (returncode completed ≠ 0%Z) then
       Raised (Builtin (RuntimeError
         ("Command failed:" +:+ nl +:+ "  "
          +:+ join " " (display_command cli alias) +:+ nl +:+ nl
          +:+ "STDERR:" +:+ nl +:+ strip (stderr completed))))
     else match json_loads (stdout completed) with
          | Some data => Returned data
          | None => Raised (Builtin JSONDecodeError)
          end,
     rest).
Proof.
  intros Hsf. unfold org_display. rewrite Hsf.
  unfold mbind, prog_bind, bind. rewrite run_cmd_cons.
  fold (display_command cli alias).
  destruct (decide (returncode completed ≠ 0%Z)); [done|].
  by destruct (json_loads (stdout completed)).
Qed.

Lemma org_display_nil cli alias :
  startswith cli "sf" = true →
  org_display json_loads cli alias []
  = ([display_command cli alias], Blocked, []).
Proof. intros Hsf. unfold org_display. by rewrite Hsf. Qed.

Lemma org_login_web_cons cli alias login_url completed rest :
  startswith cli "sf" = true →
  org_login_web cli alias login_url (completed :: rest)
  = ([login_command cli alias login_url],
     if decide (returncode completed ≠ 0%Z) then
       Raised (Builtin (RuntimeError
         ("Command failed:" +:+ nl +:+ "  "
          +:+ join " " (login_command cli alias login_url) +:+ nl +:+ nl
          +:+ "STDERR:" +:+ nl +:+ strip (stderr completed))))
     else Returned (),
     rest).
Proof.
  intros Hsf. unfold org_login_web. rewrite Hsf. cbv zeta.
  assert (∀ cmd, (_ ← run_cmd cmd; ret ()) (completed :: rest)
                 = ([cmd],
                    if decide (returncode completed ≠ 0%Z) then
                      Raised (Builtin (RuntimeError
                        ("Command failed:" +:+ nl +:+ "  " +:+ join " " cmd
                         +:+ nl +:+ nl +:+ "STDERR:" +:+ nl
                         +:+ strip (stderr completed))))
                    else Returned (),
                    rest)) as Hrun.
  { intros cmd. unfold mbind, prog_bind, bind. rewrite run_cmd_cons.
    by destruct (decide (returncode completed ≠ 0%Z)). }
  unfold login_command.
  destruct login_url as [u|]; [destruct (truthy u)|]; simpl;
    rewrite ?app_nil_r; apply Hrun.
Qed.

Lemma org_login_web_nil cli alias login_url :
  startswith cli "sf" = true →
  org_login_web cli alias login_url []
  = ([login_command cli alias login_url], Blocked, []).
Proof.
  intros Hsf. unfold org_login_web. rewrite Hsf. cbv zeta.
  unfold login_command.
  destruct login_url as [u|]; [destruct (truthy u)|]; simpl;
    rewrite ?app_nil_r; reflexivity.
Qed.

Lemma display_ok_dec completed :
  {data | returncode completed = 0%Z
          ∧ json_loads (stdout completed) = Some data}
  + {¬ display_ok json_loads completed}.
Proof.
  destruct (decide (returncode completed = 0%Z)) as [H0|H0].
  - destruct (json_loads (stdout completed)) as [data|] eqn:Hdata.
    + left. by exists data.
    + right. intros [_ [? ?]]. congruence.
  - right. by intros [? _].
Qed.

(** The first [org_display] of [sf_org_auth] that cannot be used raises
    an exception that [except Exception] catches. *)
Lemma org_display_failure cli alias completed rest :
  startswith cli "sf" = true →
  ¬ display_ok json_loads completed →
  ∃ e, org_display json_loads cli alias (completed :: rest)
       = ([display_command cli alias], Raised (Builtin e), rest)
       ∧ is_Exception e = true.
Proof.
  intros Hsf Hbad. rewrite org_display_cons by done.
  destruct (decide (returncode completed ≠ 0%Z)) as [H0|H0].
  - by eexists.
  - destruct (json_loads (stdout completed)) as [data|] eqn:Hdata.
    + destruct Hbad. split; [|by eexists].
      destruct (decide (returncode completed = 0%Z)); [done|contradiction].
    + by eexists.
Qed.

Lemma org_display_success cli alias completed rest data :
  startswith cli "sf" = true →
  returncode completed = 0%Z →
  json_loads (stdout completed) = Some data →
  org_display json_loads cli alias (completed :: rest)
  = ([display_command cli alias], Returned data, rest).
Proof.
  intros Hsf H0 Hdata. rewrite org_display_cons by done.
  rewrite decide_False by (by intros ?). by rewrite Hdata.
Qed.

(** [sf_org_auth] once the executable is known. *)
Lemma sf_org_auth_picked cli alias login_url processes :
  pick_cli which = Ok cli →
  sf_org_auth which json_loads alias login_url processes
  = (data ← try_except (org_display json_loads cli alias)
              (_ ← org_login_web cli alias login_url;
               org_display json_loads cli alias);
     credentials_of data) processes.
Proof.
  intros Hcli. unfold sf_org_auth. rewrite Hcli.
  unfold mbind at 1, prog_bind at 1, bind at 1. simpl.
  by destruct ((_ ← try_except _ _; credentials_of _) processes) as [[? ?] ?].
Qed.

Lemma sf_org_auth_run cli alias login_url processes :
  pick_cli which = Ok cli →
  auth_run json_loads cli alias login_url processes
    (sf_org_auth which json_loads alias login_url processes).
Proof.
  intros Hcli. rewrite (sf_org_auth_picked cli) by done.
  apply pick_cli_startswith_sf in Hcli as [_ Hsf].
  assert (∀ data rest,
            (let '(trace', b, rest') := credentials_of data rest in
             ([display_command cli alias] ++ trace', b, rest') : _ * _ * _)
            = ([display_command cli alias],
               (credentials_of data rest).1.2, rest)) as Hcred1.
  { intros data rest.
    by destruct (credentials_of_pure data rest) as [a ->]. }
  unfold mbind, prog_bind, bind at 1, try_except.
  destruct processes as [|p1 rest].
  { rewrite org_display_nil by done. constructor. }
  destruct (display_ok_dec p1) as [(data & H0 & Hdata)|Hbad1].
  { rewrite (org_display_success _ _ _ _ data) by done.
    rewrite Hcred1. by constructor. }
  destruct (org_display_failure cli alias p1 rest Hsf Hbad1)
    as (e & -> & He).
  simpl caught. rewrite He. unfold bind.
  destruct rest as [|p2 rest].
  { rewrite org_login_web_nil by done. simpl. by constructor. }
  rewrite org_login_web_cons by done.
  destruct (decide (returncode p2 ≠ 0%Z)) as [H2|H2].
  { simpl. by constructor. }
  assert (returncode p2 = 0%Z) as H2'.
  { destruct (decide (returncode p2 = 0%Z)); [done|contradiction]. }
  destruct rest as [|p3 rest].
  { rewrite org_display_nil by done. simpl. by constructor. }
  destruct (display_ok_dec p3) as [(data & H0 & Hdata)|Hbad3].
  - rewrite (org_display_success _ _ _ _ data) by done. simpl.
    destruct (credentials_of_pure data rest) as [a Ha]. rewrite Ha. simpl.
    replace a with (credentials_of data rest).1.2 by (by rewrite Ha).
    by constructor.
  - destruct (org_display_failure cli alias p3 rest Hsf Hbad3)
      as (e3 & -> & _).
    simpl. by constructor.
Qed.

(** X5. [sf_org_auth] runs at most three commands, in this order: [org
    display], [org login web], [org display], each with the executable
    that [pick_cli] found.  The [force:] commands of the legacy CLI are
    never run, whatever is on the path. *)
Theorem sf_org_auth_commands alias login_url processes :
  ∃ cli,
    (sf_org_auth which json_loads alias login_url processes).1.1
      `prefix_of` [display_command cli alias;
                   login_command cli alias login_url;
                   display_command cli alias]
    ∧ ((sf_org_auth which json_loads alias login_url processes).1.1 ≠ [] →
       cli ∈ candidates ∧ which cli = true).
Proof.
  destruct (pick_cli which) as [cli|e] eqn:Hcli.
  - exists cli. split.
    + destruct (sf_org_auth_run cli alias login_url processes Hcli); simpl;
        by eexists.
    + intros _. split; [by apply pick_cli_startswith_sf|].
      unfold pick_cli in Hcli.
      destruct (first_available which candidates) as [c|] eqn:Hc; [|done].
      injection Hcli as <-.
      by apply first_available_spec in Hc as (_ & _ & _ & ? & _).
  - exists "sf". unfold sf_org_auth. rewrite Hcli. simpl.
    split; [apply prefix_nil|done].
Qed.


Lemma credentials_of_Returned data (processes : list CompletedProcess) auth :
  (credentials_of data processes).1.2 = Returned auth →
  ∃ fields result t u,
    data = JDict fields
    ∧ dict_get fields "result" = Some (JDict result)
    ∧ dict_get result "accessToken" = Some t
    ∧ dict_get result "instanceUrl" = Some u
    ∧ jtruthy t = true ∧ jtruthy u = true
    ∧ auth = [("accessToken", t); ("instanceUrl", u)].
Proof.
  unfold credentials_of.
  destruct data as [| | | | |fields]; try done. simpl.
  destruct (dict_get fields "result") as [v|] eqn:Hv; [|done].
  destruct (jtruthy v) eqn:Htruthy; [|done].
  destruct v as [| | | | |result]; try done. simpl.
  destruct (dict_get result "accessToken") as [t|] eqn:Ht;
    destruct (dict_get result "instanceUrl") as [u|] eqn:Hu; try done.
  destruct (jtruthy t) eqn:Htt; destruct (jtruthy u) eqn:Htu; try done.
  simpl. intros [= <-]. by exists fields, result, t, u.
Qed.

(** X7. The credentials [sf_org_auth] returns are the [accessToken] and
    [instanceUrl] of the [result] object that an [org display] with exit
    status 0 printed, and both are true values: an empty or missing
    field is never returned. *)
Theorem sf_org_auth_credentials alias login_url processes commands auth rest :
  sf_org_auth which json_loads alias login_url processes
  = (commands, Returned auth, rest) →
  ∃ completed fields result t u,
    completed ∈ processes
    ∧ returncode completed = 0%Z
    ∧ json_loads (stdout completed) = Some (JDict fields)
    ∧ dict_get fields "result" = Some (JDict result)
    ∧ dict_get result "accessToken" = Some t
    ∧ dict_get result "instanceUrl" = Some u
    ∧ jtruthy t = true ∧ jtruthy u = true
    ∧ auth = [("accessToken", t); ("instanceUrl", u)].
Proof.
  intros Hrun.
  destruct (pick_cli which) as [cli|e] eqn:Hcli.
  - pose proof (sf_org_auth_run cli alias login_url processes Hcli) as Hshape.
    rewrite Hrun in Hshape.
    inversion Hshape; subst;
      match goal with
      | H : (credentials_of _ _).1.2 = Returned _ |- _ =>
          apply credentials_of_Returned
            in H as (fields & result & t & u & -> & ?)
      end.
    + exists p1, fields, result, t, u. split; [left|]. by split.
    + exists p3, fields, result, t, u.
      split; [do 2 right; left|]. by split.
  - unfold sf_org_auth in Hrun. by rewrite Hcli in Hrun.
Qed.

(** The dictionary [sf_org_auth] returns has its two keys. *)
Lemma sf_org_auth_fields alias login_url processes commands auth rest :
  sf_org_auth which json_loads alias login_url processes
  = (commands, Returned auth, rest) →
  ∃ t u, auth = [("accessToken", t); ("instanceUrl", u)].
Proof.
  intros Hrun.
  destruct (pick_cli which) as [cli|e] eqn:Hcli.
  - pose proof (sf_org_auth_run cli alias login_url processes Hcli) as Hshape.
    rewrite Hrun in Hshape.
    inversion Hshape; subst;
      match goal with
      | H : (credentials_of _ _).1.2 = Returned _ |- _ =>
          apply credentials_of_Returned
            in H as (fields & result & t & u & _ & _ & _ & _ & _ & _ & ->)
      end; eauto.
  - unfold sf_org_auth in Hrun. by rewrite Hcli in Hrun.
Qed.

End Credentials.


Lemma sf_org_auth_credentials_witness :
  ∃ completed fields result t u,
    completed ∈ [display_done]
    ∧ cli.returncode completed = 0%Z
    ∧ loads_example (cli.stdout completed) = Some (JDict fields)
    ∧ dict_get fields "result" = Some (JDict result)
    ∧ dict_get result "accessToken" = Some t
    ∧ dict_get result "instanceUrl" = Some u
    ∧ py2.jtruthy t = true ∧ py2.jtruthy u = true
    ∧ [("accessToken", JStr "00D!token");
       ("instanceUrl", JStr "https://example.my.salesforce.com")]
      = [("accessToken", t); ("instanceUrl", u)].
Proof.
  apply (sf_org_auth_credentials which_sf loads_example "myorg" None
           [display_done]
           [["sf"; "org"; "display"; "--json"; "--target-org"; "myorg"]]
           _ []).
  vm_compute. reflexivity.
Defined.

(** ** Computations against a script *)

Section Scripted.
Import scripted.

Context {E R A B : Type} (m : prog E R A) (k : A → prog E R B).

Lemma bind_Returned script trace a rest :
  m script = (trace, Returned a, rest) →
  bind m k script
  = (trace ++ (k a rest).1.1, (k a rest).1.2, (k a rest).2).
Proof.
  intros H. unfold bind. rewrite H. by destruct (k a rest) as [[? ?] ?].
Qed.

Lemma bind_Raised script trace e rest :
  m script = (trace, Raised e, rest) →
  bind m k script = (trace, Raised e, rest).
Proof. intros H. unfold bind. by rewrite H. Qed.

Lemma bind_Blocked script trace rest :
  m script = (trace, Blocked, rest) →
  bind m k script = (trace, Blocked, rest).
Proof. intros H. unfold bind. by rewrite H. Qed.

End Scripted.

(** ** The bulk export *)

Section WaitErrors.

Variable repr : dict → string.
Variables instance_url access_token api_version job_id : string.

Local Abbreviation wait_job :=
  (bulk2_wait_job repr instance_url access_token api_version job_id).
Local Abbreviation poll :=
  (Get (wait_request instance_url access_token api_version job_id)).

Lemma wait_body_cases response :
  (∃ r, wait_body repr () response = Stop r)
  ∨ wait_body repr () response = Continue () [Sleep 3].
Proof.
  unfold wait_body.
  destruct (raise_for_status response); [|eauto].
  destruct (json response) as [info|]; [|eauto].
  destruct (terminal_state _) as [s|]; [|by right].
  destruct (negb _); eauto.
Qed.

(** The loop sends polls and sleeps, nothing else. *)
Lemma wait_job_trace script :
  Forall (λ e, e = poll ∨ e = Sleep 3) (wait_job script).1.
Proof.
  unfold bulk2_wait_job.
  induction script as [|[response|e] script IH]; simpl.
  - repeat constructor.
  - destruct (wait_body_cases response) as [[r ->]| ->]; simpl.
    + repeat constructor.
    + destruct (run_loop _ _ _ script) as [trace out]. simpl in *.
      constructor; [by left|]. constructor; [by right|]. done.
  - repeat constructor.
Qed.

(** A payload is returned for a reply of the script that reports the
    job complete. *)
Lemma wait_job_returns script trace payload :
  wait_job script = (trace, Finished (Ok payload)) →
  ∃ response,
    Ok response ∈ script ∧ raise_for_status response = Ok ()
    ∧ json response = Some payload
    ∧ dict_get payload "state" = Some (JStr "JobComplete").
Proof.
  unfold bulk2_wait_job. revert trace.
  induction script as [|[response|e] script IH]; intros trace;
    simpl; [done| |done].
  unfold wait_body at 1.
  destruct (raise_for_status response) as [[]|] eqn:Hst; [|done].
  destruct (json response) as [info|] eqn:Hinfo; [|done].
  destruct (terminal_state _) as [s|] eqn:Hs.
  - apply terminal_state_Some_inv in Hs as [Hstate _].
    destruct (bool_decide_reflect (s = "JobComplete")) as [->|Hne]; simpl.
    + intros [= _ <-]. exists response. split; [left|]. done.
    + done.
  - destruct (run_loop _ _ _ script) as [trace' out] eqn:Hrun.
    intros [= _ ->].
    destruct (IH trace' eq_refl) as (r & Hin & Hr).
    exists r. split; [by right|done].
Qed.

(** X8. A poll that fails ends the wait at once: after any number of
    polls that found the job in progress, a transport exception, an HTTP
    error status or a body that cannot be decoded makes the function
    raise, with no sleep and no further poll, whatever replies would
    follow.  The transport exception and the [HTTPError] of
    [raise_for_status] are raised as they are. *)
Theorem bulk2_wait_job_stops_at_error polls reply rest :
  Forall in_progress polls →
  match reply with
  | Raise _ => True
  | Ok response =>
      raise_for_status response ≠ Ok () ∨ json response = None
  end →
  ∃ e,
    wait_job ((Ok <$> polls) ++ reply :: rest)
    = (polled instance_url access_token api_version job_id (length polls)
       ++ [poll], Finished (Raise e))
    ∧ match reply with
      | Raise e' => e = e'
      | Ok response =>
          raise_for_status response = Raise e
          ∨ (raise_for_status response = Ok () ∧ json response = None)
      end.
Proof.
  intros Hpolls Hbad. rewrite wait_job_in_progress by done.
  unfold bulk2_wait_job. destruct reply as [response|e]; simpl.
  - unfold wait_body.
    destruct (raise_for_status response) as [[]|e] eqn:Hst.
    + destruct Hbad as [Hbad|Hjson]; [done|]. rewrite Hjson.
      eexists. split; [done|]. by right.
    + exists e. split; [done|]. by left.
  - by eexists.
Qed.

End WaitErrors.

Lemma bulk2_wait_job_stops_at_error_witness :
  bulk2_wait_job repr_flat "https://example.my.salesforce.com" "token" "60.0"
    "750" [Ok reply_in_progress; Ok reply_rejected; Ok reply_complete]
  = ([Get (wait_request "https://example.my.salesforce.com" "token" "60.0" "750");
      Sleep 3;
      Get (wait_request "https://example.my.salesforce.com" "token" "60.0" "750")],
     Finished (Raise (HTTPError 400))).
Proof.
  destruct (bulk2_wait_job_stops_at_error repr_flat
              "https://example.my.salesforce.com" "token" "60.0" "750"
              [reply_in_progress] (Ok reply_rejected) [Ok reply_complete])
    as (e & Hrun & He).
  - constructor; [|constructor]. split; [reflexivity|].
    eexists. split; [reflexivity|]. intros s [= <-]. done.
  - left. discriminate.
  - destruct He as [[= <-]|[[=] _]]. exact Hrun.
Defined.

Section FetchErrors.

Variable read_csv_text : string → result DataFrame.
Variables instance_url access_token api_version job_id : string.
Variable max_records : Z.

Local Abbreviation fetch :=
  (bulk2_fetch_results read_csv_text instance_url access_token api_version
     job_id max_records).

(** X9. The download is all or nothing: when a page cannot be fetched
    or read (a transport exception, an HTTP error status, or a non-blank
    body the CSV reader rejects), the function raises that exception
    after one request per reply; the pages read before are dropped and
    no further page is requested. *)
Theorem bulk2_fetch_results_all_or_nothing pages reply rest tables :
  Forall more_pages pages →
  Forall2 (λ r t, read_csv_text (text r) = Ok t) (nonblank_pages pages) tables →
  match reply with
  | Raise _ => True
  | Ok response =>
      raise_for_status response ≠ Ok ()
      ∨ (strip (text response) ≠ ""
         ∧ ∃ e, read_csv_text (text response) = Raise e)
  end →
  ∃ e,
    (fetch ((Ok <$> pages) ++ reply :: rest)).2 = Finished (Raise e)
    ∧ length (fetch ((Ok <$> pages) ++ reply :: rest)).1
      = Datatypes.S (length pages)
    ∧ match reply with
      | Raise e' => e = e'
      | Ok response =>
          raise_for_status response = Raise e
          ∨ read_csv_text (text response) = Raise e
      end.
Proof.
  intros Hpages Htables Hbad.
  destruct (fetch_more_pages read_csv_text instance_url access_token
              api_version job_id max_records pages (mkFetch None []) tables
              (reply :: rest) Hpages Htables) as [loc [H1 H2]].
  cbv zeta in H1, H2. cbn [frames app] in H1, H2.
  unfold bulk2_fetch_results. rewrite H1, H2.
  destruct reply as [response|e]; simpl.
  - unfold fetch_body.
    destruct (raise_for_status response) as [[]|e] eqn:Hst.
    + destruct Hbad as [Hbad|(Hne & e & He)]; [done|].
      unfold append_page. simpl.
      rewrite (proj2 (truthy_true _) Hne), He. simpl.
      exists e. split; [done|]. split; [lia|]. by right.
    + simpl. exists e. split; [done|]. split; [lia|]. by left.
  - exists e. split; [done|]. split; [lia|done].
Qed.

End FetchErrors.

Lemma bulk2_fetch_results_all_or_nothing_witness :
  (bulk2_fetch_results read_csv_plain "https://example.my.salesforce.com"
     "token" "60.0" "750" 50000
     [Ok page_1; Raise ConnectionError; Ok page_2]).2
  = Finished (Raise ConnectionError).
Proof.
  destruct (bulk2_fetch_results_all_or_nothing read_csv_plain
              "https://example.my.salesforce.com" "token" "60.0" "750" 50000
              [page_1] (Raise ConnectionError) [Ok page_2]
              [mkDataFrame ["ContentDocumentId"; "Title"]
                 [[Str "069A"; Str "First"]; [Str "069B"; Str "Second"]]])
    as (e & Hrun & _ & He).
  - constructor; [|constructor]. split; reflexivity.
  - vm_compute. repeat constructor.
  - exact I.
  - subst e. exact Hrun.
Defined.

Section BulkExport.
Import scripted py2 app.

Variable repr : dict → string.
Variable repr_container : jvalue → string.
Variable read_csv_text : string → result DataFrame.
Variable args : Args.
Variables instance_url access_token : string.

Local Abbreviation export :=
  (bulk_export repr repr_container read_csv_text args instance_url
     access_token).

Lemma of_run_eq {A} (f : list (result Response) → list event * run A) replies :
  of_run f replies
  = (Http <$> (f replies).1,
     match (f replies).2 with
     | Finished (Ok a) => Returned a
     | Finished (Raise e) => Raised (Builtin e)
     | Waiting => Blocked
     end,
     drop (length (filter (λ e, is_get e = true) (f replies).1)) replies).
Proof. unfold of_run. by destruct (f replies). Qed.

(** The POST is the only thing [bulk2_create_job] does, and it returns
    an identifier only for a reply that accepts the job. *)
Lemma bulk2_create_job_shape url token version soql replies :
  ∃ request a,
    bulk2_create_job url token version soql replies
    = ([Post request], a, tail replies)
    ∧ (∀ id, a = Returned id →
         ∃ created, head replies = Some created ∧ accepts_job created).
Proof.
  unfold bulk2_create_job. cbv zeta.
  unfold mbind, prog_bind, bind, ask, lift.
  destruct replies as [|[response|e] rest]; simpl.
  - eexists _, _. split; [reflexivity|]. done.
  - destruct (400 <=? status_code response)%Z eqn:Hstatus; simpl.
    { eexists _, _. split; [reflexivity|]. done. }
    destruct (json response) as [body|] eqn:Hbody; simpl.
    2: { eexists _, _. split; [reflexivity|]. done. }
    destruct (dict_get body "id") as [id|] eqn:Hid; simpl.
    2: { eexists _, _. split; [reflexivity|]. done. }
    eexists _, _. split; [reflexivity|].
    intros id' _. exists (Ok response). split; [done|].
    exists response, body. split; [done|].
    split; [by apply Z.leb_gt|]. split; [done|]. by eexists.
  - eexists _, _. split; [reflexivity|]. done.
Qed.

Lemma poll_no_results_request url token version job e :
  e = Get (wait_request url token version job) ∨ e = Sleep 3 →
  ¬ results_request (Http e).
Proof.
  intros He (request & [= ->] & Hin).
  destruct He as [[= ->]|[=]]. simpl in Hin.
  apply list_elem_of_singleton in Hin. discriminate Hin.
Qed.

(** X10. The bulk export asks for result pages only after the job was
    accepted and a poll reported it [JobComplete].  After a rejected
    creation, a failed or aborted job, or any error while waiting, no
    result page is requested. *)
Theorem bulk_export_results_after_complete replies e :
  e ∈ (export replies).1.1 →
  results_request e →
  ∃ created rest,
    replies = created :: rest
    ∧ accepts_job created
    ∧ ∃ reply, reply ∈ rest ∧ reports_complete reply.
Proof.
  unfold bulk_export. cbv zeta. unfold mbind, prog_bind.
  rewrite (bind_Returned _ _ replies [Print _] () replies) by reflexivity.
  destruct (bulk2_create_job_shape instance_url access_token
              (api_version args) build_contentversion_soql replies)
    as (request & a & Hcreate & Hid).
  destruct a as [id| |].
  - rewrite (bind_Returned _ _ _ _ _ _ Hcreate).
    destruct (Hid id eq_refl) as (created & Hhead & Hacc).
    destruct replies as [|c rest]; [done|]. injection Hhead as ->.
    simpl tail.
    set (job := str_value repr_container id).
    destruct (bulk2_wait_job repr instance_url access_token
                (api_version args) job rest) as [tw out] eqn:Hwait.
    pose proof (wait_job_trace repr instance_url access_token
                  (api_version args) job rest) as Htrace.
    rewrite Hwait in Htrace. simpl in Htrace.
    assert (∀ e, e ∈ [Print "Bulk exporting ContentVersion (IsLatest=true)..."]
                     ++ [Post request] ++ (Http <$> tw) →
                 ¬ results_request e) as Hnone.
    { intros e' He'. rewrite !elem_of_app in He'.
      destruct He' as [He'|[He'|He']].
      - apply list_elem_of_singleton in He' as ->. by intros (? & [=] & _).
      - apply list_elem_of_singleton in He' as ->. by intros (? & [=] & _).
      - apply list_elem_of_fmap in He' as (ev & -> & Hev).
        rewrite Forall_forall in Htrace.
        eapply poll_no_results_request. by apply Htrace. }
    destruct out as [[payload|err]|].
    + intros _ _.
      apply wait_job_returns in Hwait as (response & Hin & Hst & Hjson & Hstate).
      exists created, rest. split; [done|]. split; [done|].
      exists (Ok response). split; [done|]. by exists response, payload.
    + erewrite bind_Raised; [|by rewrite of_run_eq, Hwait].
      simpl. intros He Hreq. by destruct (Hnone e).
    + erewrite bind_Blocked; [|by rewrite of_run_eq, Hwait].
      simpl. intros He Hreq. by destruct (Hnone e).
  - rewrite (bind_Raised _ _ _ _ _ _ Hcreate). simpl.
    intros He (? & -> & _).
    rewrite !elem_of_cons in He. destruct He as [?|[?|?%elem_of_nil]]; done.
  - rewrite (bind_Blocked _ _ _ _ _ Hcreate). simpl.
    intros He (? & -> & _).
    rewrite !elem_of_cons in He. destruct He as [?|[?|?%elem_of_nil]]; done.
Qed.

End BulkExport.

Lemma bulk_export_results_after_complete_witness :
  ∃ created rest,
    [Ok reply_created; Ok reply_in_progress; Ok reply_complete;
     Ok page_metadata] = created :: rest
    ∧ accepts_job created
    ∧ ∃ reply, reply ∈ rest ∧ reports_complete reply.
Proof.
  apply (bulk_export_results_after_complete repr_flat (λ _, "?")
           read_csv_plain args_example "https://example.my.salesforce.com"
           "00D!token"
           [Ok reply_created; Ok reply_in_progress; Ok reply_complete;
            Ok page_metadata]
           (app.Http (Get (fetch_request "https://example.my.salesforce.com"
                             "00D!token" "60.0" "750" 50000
                             (mkFetch None []))))).
  - apply (list_elem_of_lookup_2 _ 5). vm_compute. reflexivity.
  - eexists. split; [reflexivity|]. simpl. right. left.
Defined.

(** ** [main] *)

Section MainRun.
Import scripted py2 app.

Variable which : string → bool.
Variable json_loads : string → option jvalue.
Variable repr : dict → string.
Variable repr_container : jvalue → string.
Variable read_csv : string → string → result DataFrame.
Variable read_csv_text : string → result DataFrame.
Variable to_numeric : cell → cell.
Variable megabytes : cell → cell.
Variable args : Args.

Lemma writes_app effects effects' :
  writes (effects ++ effects') = writes effects ++ writes effects'.
Proof. unfold writes. apply bind_app. Qed.

Lemma writes_Http trace : writes (Http <$> trace) = [].
Proof. induction trace as [|e trace IH]; [done|]. by rewrite fmap_cons. Qed.

(** The bulk export writes no report. *)
Lemma bulk_export_no_writes instance_url access_token replies :
  writes (bulk_export repr repr_container read_csv_text args instance_url
            access_token replies).1.1 = [].
Proof.
  unfold bulk_export. cbv zeta. unfold mbind, prog_bind.
  rewrite (bind_Returned _ _ replies [Print _] () replies) by reflexivity.
  destruct (bulk2_create_job_shape instance_url access_token
              (api_version args) build_contentversion_soql replies)
    as (request & a & Hcreate & _).
  destruct a as [id| |].
  - rewrite (bind_Returned _ _ _ _ _ _ Hcreate).
    set (job := str_value repr_container id).
    destruct (bulk2_wait_job repr instance_url access_token
                (api_version args) job (tail replies)) as [tw out] eqn:Hwait.
    destruct out as [[payload|err]|].
    + erewrite bind_Returned; [|by rewrite of_run_eq, Hwait].
      rewrite of_run_eq. simpl.
      by rewrite writes_app, !writes_Http.
    + erewrite bind_Raised; [|by rewrite of_run_eq, Hwait].
      simpl. apply writes_Http.
    + erewrite bind_Blocked; [|by rewrite of_run_eq, Hwait].
      simpl. apply writes_Http.
  - by rewrite (bind_Raised _ _ _ _ _ _ Hcreate).
  - by rewrite (bind_Blocked _ _ _ _ _ Hcreate).
Qed.

Lemma lift_Ok {E R A} (r : result A) (a : A) (script : list R) :
  r = Ok a → lift (E := E) r script = ([], Returned a, script).
Proof. by intros ->. Qed.

Lemma lift_Raise {E R A} (r : result A) e (script : list R) :
  r = Raise e → lift (E := E) r script = ([], Raised (Builtin e), script).
Proof. by intros ->. Qed.

(** What [main] writes once the metadata is downloaded: both reports,
    the tables of [reconcile], or an exception after at most the first. *)
Lemma write_reports_cases instance_url site docid_set cv replies :
  extract_docids site (docid_col args) = Ok docid_set →
  docid_set ≠ ∅ →
  ∃ trace a,
    write_reports to_numeric megabytes args instance_url site docid_set cv
      replies = (trace, a, replies)
    ∧ ((a = Returned ()
        ∧ ∃ matched merged,
            reconcile to_numeric megabytes site cv (docid_col args)
              instance_url = Ok (matched, merged)
            ∧ writes trace = [(out_files_only args, matched);
                              (out args, merged)])
       ∨ ((∃ e, a = Raised e)
          ∧ (writes trace = []
             ∨ ∃ matched, writes trace = [(out_files_only args, matched)]))).
Proof.
  intros Hset Hne.
  assert (∀ cv' ids unique_files matched merged,
            empty cv = false →
            add_size_columns to_numeric megabytes cv = Ok cv' →
            getitem cv' "ContentDocumentId" = Ok ids →
            drop_duplicates (getitem_mask cv' (isin ids docid_set))
              "ContentDocumentId" = Ok unique_files →
            add_file_urls unique_files instance_url = Ok matched →
            merge_site_tracker_and_files site matched (docid_col args)
              instance_url = Ok merged →
            reconcile to_numeric megabytes site cv (docid_col args)
              instance_url = Ok (matched, merged)) as Hreconcile.
  { intros cv' ids unique_files matched merged H1 H2 H3 H4 H5 H6.
    unfold reconcile, matched_files. rewrite Hset. simpl.
    rewrite decide_False by done. rewrite H1, H2. simpl.
    rewrite H3. simpl. rewrite H4. simpl. rewrite H5. simpl.
    by rewrite H6. }
  unfold write_reports, mbind, prog_bind, bind, lift, emit, ret, raise.
  destruct (empty cv) eqn:Hempty.
  { eexists _, _. split; [reflexivity|]. right. split; [by eexists|by left]. }
  destruct (add_size_columns to_numeric megabytes cv) as [cv'|e] eqn:Hcv;
    cbv beta iota zeta.
  2: { eexists _, _. split; [reflexivity|].
       right. split; [by eexists|by left]. }
  destruct (getitem cv' "ContentDocumentId") as [ids|e] eqn:Hids;
    cbv beta iota zeta.
  2: { eexists _, _. split; [reflexivity|].
       right. split; [by eexists|by left]. }
  destruct (drop_duplicates (getitem_mask cv' (isin ids docid_set))
              "ContentDocumentId") as [unique_files|e] eqn:Hunique;
    cbv beta iota zeta.
  2: { eexists _, _. split; [reflexivity|].
       right. split; [by eexists|by left]. }
  destruct (add_file_urls unique_files instance_url) as [matched|e] eqn:Hurls;
    cbv beta iota zeta.
  2: { eexists _, _. split; [reflexivity|].
       right. split; [by eexists|by left]. }
  destruct (merge_site_tracker_and_files site matched (docid_col args)
              instance_url) as [merged|e] eqn:Hmerge;
    cbv beta iota zeta.
  2: { eexists _, _. split; [reflexivity|].
       right. split; [by eexists|]. right. by eexists. }
  destruct (has_column merged "ContentSizeBytes") eqn:Hsizes.
  - destruct (getitem_has_column _ _ Hsizes) as [sizes ->].
    cbv beta iota zeta.
    eexists _, _. split; [reflexivity|]. left. split; [done|].
    exists matched, merged. split; [by eapply Hreconcile|done].
  - eexists _, _. split; [reflexivity|]. left. split; [done|].
    exists matched, merged. split; [by eapply Hreconcile|done].
Qed.

Local Abbreviation loaded :=
  (read_sitetracker_csv read_csv (sitetracker_csv args) (docid_col args)
     (sitetracker_columns_of (sitetracker_columns args)) (encoding args)).

(** [main] after the credentials: it returns after both reports, and
    raises or blocks after at most the first. *)
Lemma main_after_auth_cases instance_url access_token replies :
  ∃ effects a rest,
    main_after_auth repr repr_container read_csv read_csv_text to_numeric
      megabytes args instance_url access_token replies = (effects, a, rest)
    ∧ ((a = Returned ()
        ∧ ∃ site cv matched merged,
            loaded = Ok site
            ∧ (bulk_export repr repr_container read_csv_text args
                 instance_url access_token replies).1.2 = Returned cv
            ∧ reconcile to_numeric megabytes site cv (docid_col args)
                instance_url = Ok (matched, merged)
            ∧ writes effects = [(out_files_only args, matched);
                                (out args, merged)])
       ∨ (a ≠ Returned ()
          ∧ (writes effects = []
             ∨ ∃ matched, writes effects = [(out_files_only args, matched)]))).
Proof.
  unfold main_after_auth. cbv zeta.
  unfold mbind, prog_bind, bind, lift, emit, ret, raise.
  destruct loaded as [site|e] eqn:Hsite; cbv beta iota zeta.
  2: { eexists _, _, _. split; [reflexivity|]. right. split; [done|by left]. }
  destruct (extract_docids site (docid_col args)) as [docid_set|e] eqn:Hset;
    cbv beta iota zeta.
  2: { eexists _, _, _. split; [reflexivity|]. right. split; [done|by left]. }
  destruct (decide (docid_set = ∅)) as [Hempty|Hne].
  { eexists _, _, _. split; [reflexivity|]. right. split; [done|by left]. }
  pose proof (bulk_export_no_writes instance_url access_token replies)
    as Hnone.
  destruct (bulk_export repr repr_container read_csv_text args instance_url
              access_token replies) as [[te ae] re] eqn:Hexport.
  simpl in Hnone.
  destruct ae as [cv| |]; cbv beta iota zeta.
  - destruct (write_reports_cases instance_url site docid_set cv re Hset Hne)
      as (tw & aw & -> & Hcases).
    eexists _, _, _. split; [reflexivity|].
    match goal with
    | |- context [writes ?t] =>
        assert (writes t = writes tw) as ->
          by (transitivity (writes (te ++ tw));
              [reflexivity|by rewrite writes_app, Hnone])
    end.
    destruct Hcases as [(-> & matched & merged & Hrec & ->)
                        |((e & ->) & Hwrites)].
    + left. split; [done|]. by exists site, cv, matched, merged.
    + right. split; [done|]. done.
  - eexists _, _, _. split; [reflexivity|]. right. split; [done|]. left.
    exact Hnone.
  - eexists _, _, _. split; [reflexivity|]. right. split; [done|]. left.
    exact Hnone.
Qed.

Local Abbreviation run_main :=
  (main which json_loads repr repr_container read_csv read_csv_text
     to_numeric megabytes args).

(** X11. [main] returns only after it has written both reports, the
    files-only report first, and they are the two tables of [reconcile]
    for the loaded file and the table the bulk export returned.  When
    it does not return, it has written nothing or the files-only report
    alone. *)
Theorem main_reports processes replies :
  let '(commands, effects, a) := run_main processes replies in
  (a = Returned ()
   ∧ ∃ site cv instance_url access_token matched merged,
       loaded = Ok site
       ∧ (bulk_export repr repr_container read_csv_text args instance_url
            access_token replies).1.2 = Returned cv
       ∧ reconcile to_numeric megabytes site cv (docid_col args)
           instance_url = Ok (matched, merged)
       ∧ writes effects = [(out_files_only args, matched);
                           (out args, merged)])
  ∨ (a ≠ Returned ()
     ∧ (writes effects = []
        ∨ ∃ matched, writes effects = [(out_files_only args, matched)])).
Proof.
  unfold main.
  destruct (cli.sf_org_auth which json_loads (alias args) (login_url args)
              processes) as [[commands [auth|e|]] rest] eqn:Hauth.
  - apply sf_org_auth_fields in Hauth as (t & u & ->). simpl.
    destruct (main_after_auth_cases (str_value repr_container u)
                (str_value repr_container t) replies)
      as (effects & a & rest' & -> & Hcases).
    destruct Hcases
      as [(-> & site & cv & matched & merged & ? & ? & ? & ?)|?].
    + left. split; [done|]. by eexists site, cv, _, _, matched, merged.
    + by right.
  - right. split; [done|by left].
  - right. split; [done|by left].
Qed.

(** X12. When the header of the file has the identifier label once,
    the column argument names it at most once, and the column holds no
    identifier (every cell missing or blank), [main] ends with
    [SystemExit] and the message about missing ContentDocumentIds,
    whatever other columns were requested: it has sent no request,
    written no report and printed nothing. *)
Theorem main_no_identifiers processes replies commands auth rest dataframe
    column :
  cli.sf_org_auth which json_loads (alias args) (login_url args) processes
  = (commands, Returned auth, rest) →
  read_csv (sitetracker_csv args) (encoding args) = Ok dataframe →
  getitem dataframe (docid_col args) = Ok column →
  repeated (docid_col args) (columns dataframe) = false →
  (∀ names, sitetracker_columns_of (sitetracker_columns args) = Some names →
            repeated (docid_col args) names = false) →
  (∀ x, ¬ column_docids column x) →
  run_main processes replies
  = (commands, [],
     Raised (Builtin (SystemExit (ExitObj
       "No ContentDocumentIds found in the SiteTracker CSV.")))).
Proof.
  intros Hauth Hread Hcolumn Hfile Hrequest Hnone. unfold main. rewrite Hauth.
  apply sf_org_auth_fields in Hauth as (t & u & ->). simpl.
  assert (docid_col args ∈ columns dataframe) as Hdocid.
  { apply getitem_Ok in Hcolumn as (i & Hi & _).
    apply get_loc_Some in Hi as [Hi _]. by eapply list_elem_of_lookup_2. }
  destruct (read_sitetracker_csv_Ok read_csv (sitetracker_csv args)
              (docid_col args)
              (sitetracker_columns_of (sitetracker_columns args))
              (encoding args) dataframe Hread Hdocid)
    as (site & Hsite & _ & Hcol).
  rewrite Hcolumn in Hcol.
  assert (repeated (docid_col args) (columns site) = false) as Honce.
  { eapply (read_sitetracker_csv_docid_once read_csv); [exact Hread|done|
                                                          |exact Hsite].
    intros names Hnames. rewrite <- (Hrequest names Hnames). f_equal.
    pose proof (sitetracker_columns_of_plain _ _ Hnames) as Hplain.
    clear -Hplain. induction Hplain as [|col names [_ Hcol] _ IH]; [done|].
    by rewrite fmap_cons, Hcol, IH. }
  assert (extract_docids site (docid_col args) = Ok ∅) as Hset.
  { destruct (extract_docids_returns _ _ _ Hcol Honce) as [docids Hd].
    rewrite Hd. f_equal. apply leibniz_equiv, set_equiv. intros x.
    rewrite (elem_of_extract_docids _ _ _ _ x Hcol Hd).
    split; [by intros ?%Hnone|by intros ?%not_elem_of_empty]. }
  unfold main_after_auth. cbv zeta. unfold mbind, prog_bind.
  erewrite bind_Returned; [|by apply lift_Ok]. cbv beta.
  erewrite bind_Returned; [|by apply lift_Ok]. cbv beta.
  by rewrite decide_True by done.
Qed.

End MainRun.

Lemma main_no_identifiers_witness :
  app.main which_sf loads_example repr_flat (λ _, "?")
    (one_file "attachments.csv" blank_docids_csv) read_csv_plain id id
    args_example [display_done] [Ok reply_created]
  = ([["sf"; "org"; "display"; "--json"; "--target-org"; "myorg"]], [],
     scripted.Raised (scripted.Builtin (SystemExit (ExitObj
       "No ContentDocumentIds found in the SiteTracker CSV.")))).
Proof.
  apply (main_no_identifiers which_sf loads_example repr_flat (λ _, "?")
           (one_file "attachments.csv" blank_docids_csv) read_csv_plain id id
           args_example [display_done] [Ok reply_created] _
           [("accessToken", JStr "00D!token");
            ("instanceUrl", JStr "https://example.my.salesforce.com")]
           [] blank_docids_csv [Str ""; NaN]).
  - vm_compute. reflexivity.
  - reflexivity.
  - reflexivity.
  - reflexivity.
  - intros names [= <-]. reflexivity.
  - intros x (Hne & c & Hc & Hna & Hx).
    apply elem_of_cons in Hc as [->|Hc]; [by simpl in Hx|].
    apply list_elem_of_singleton in Hc as ->. discriminate Hna.
Defined.

(** The run of the examples, from the credentials to the two reports. *)
Example main_example :
  app.main which_sf loads_example repr_flat (λ _, "?")
    (one_file "attachments.csv" attachments_csv) read_csv_plain id id
    args_example [display_done]
    [Ok reply_created; Ok reply_in_progress; Ok reply_complete;
     Ok page_metadata]
  = ([["sf"; "org"; "display"; "--json"; "--target-org"; "myorg"]],
     [app.Print "SiteTracker rows loaded: 2";
      app.Print "Distinct ContentDocumentIds in SiteTracker: 2";
      app.Print "Bulk exporting ContentVersion (IsLatest=true)...";
      app.Post
        (app.mkPost
           "https://example.my.salesforce.com/services/data/v60.0/jobs/query"
           [("Authorization", "Bearer 00D!token");
            ("Content-Type", "application/json")]
           [("operation", JStr "query");
            ("query", JStr "SELECT ContentDocumentId, Title, FileType, FileExtension, ContentSize, CreatedDate, CreatedById, CreatedBy.Name, LastModifiedDate, OwnerId FROM ContentVersion WHERE IsLatest = true");
            ("contentType", JStr "CSV");
            ("columnDelimiter", JStr "COMMA");
            ("lineEnding", JStr "LF")]
           60);
      app.Http (Get (wait_request "https://example.my.salesforce.com"
                       "00D!token" "60.0" "750"));
      app.Http (Sleep 3);
      app.Http (Get (wait_request "https://example.my.salesforce.com"
                       "00D!token" "60.0" "750"));
      app.Http (Get (fetch_request "https://example.my.salesforce.com"
                       "00D!token" "60.0" "750" 50000 (mkFetch None [])));
      app.Print "Downloaded ContentVersion rows: 3";
      app.Print "Matched ContentVersion rows to SiteTracker docids: 2";
      app.ToCsv "files.csv"
        (mkDataFrame
           ["ContentDocumentId"; "Title"; "ContentSize"; "ContentSizeBytes";
            "ContentSizeMB"; "FileUrl"]
           [[Str "DOC1"; Str "First"; Str "10"; Str "10"; Str "10";
             Str "https://example.my.salesforce.com/lightning/r/ContentDocument/DOC1/view"]]);
      app.Print "Wrote file details only: files.csv";
      app.ToCsv "merged.csv"
        (mkDataFrame
           ["Name"; "Other"; "sitetracker__ContentDocumentRecord__c";
            "ContentDocumentId"; "Title"; "ContentSize"; "ContentSizeBytes";
            "ContentSizeMB"; "FileUrl"]
           [[Str "A"; Str "X"; Str "DOC1"; Str "DOC1"; Str "First"; Str "10";
             Str "10"; Str "10";
             Str "https://example.my.salesforce.com/lightning/r/ContentDocument/DOC1/view"];
            [Str "B"; Str "Y"; Str "DOC2"; NaN; NaN; NaN; NaN; NaN; NaN]]);
      app.Print "Wrote merged output: merged.csv";
      app.Print "Rows with no matched file size (missing/permission/invalid docid): 1"],
     scripted.Returned ()).
Proof. vm_compute. reflexivity. Qed.

(** ** The row counts of the reports *)

Lemma reconcile_row_count_witness :
  ∃ matched merged,
    reconcile id id attachments_csv content_versions_example
      "sitetracker__ContentDocumentRecord__c"
      "https://example.my.salesforce.com" = Ok (matched, merged)
    ∧ len merged = 2.
Proof.
  destruct (reconcile id id attachments_csv content_versions_example
              "sitetracker__ContentDocumentRecord__c"
              "https://example.my.salesforce.com")
    as [[matched merged]|e] eqn:Hrec; [|vm_compute in Hrec; discriminate Hrec].
  exists matched, merged. split; [reflexivity|].
  destruct (reconcile_row_count id id attachments_csv
              content_versions_example
              "sitetracker__ContentDocumentRecord__c"
              "https://example.my.salesforce.com" matched merged)
    as [Hlen _].
  - repeat constructor.
  - exact Hrec.
  - exact Hlen.
Defined.

(** ** The loader and the older script *)

Section ScriptLoad.

Variable read_csv : string → string → result DataFrame.
Variable read_csv_default : string → result DataFrame.

(** X13. The loader of the module, called as [main] calls it, and the
    inline code of the older script return the same table or raise the
    same exception, provided that the column argument is absent, empty,
    or names at least one column.  For an argument of commas and blanks
    only they differ: the loader returns every column of the file, the
    script the identifier column alone. *)
Theorem loader_agrees_with_script path docid_col arg encoding :
  read_csv path encoding = read_csv_default path →
  (sitetracker_columns_of arg ≠ Some [] →
   read_sitetracker_csv read_csv path docid_col (sitetracker_columns_of arg)
     encoding
   = script_load read_csv_default path docid_col arg)
  ∧ (∀ dataframe,
       sitetracker_columns_of arg = Some [] →
       read_csv_default path = Ok dataframe →
       docid_col ∈ columns dataframe →
       read_sitetracker_csv read_csv path docid_col
         (sitetracker_columns_of arg) encoding = Ok dataframe
       ∧ script_load read_csv_default path docid_col arg
         = getitem_list dataframe [docid_col]).
Proof.
  intros Hsame. split.
  - intros Hsome. unfold read_sitetracker_csv, script_load. rewrite Hsame.
    destruct (read_csv_default path) as [st|e]; [|done]. simpl.
    destruct (has_column st docid_col); [|done]. simpl.
    destruct arg as [text|]; [|done].
    destruct (sitetracker_columns_of (Some text)) as [selected|] eqn:Harg.
    + pose proof (keep_cols_of_main read_csv st text docid_col selected Harg)
        as Hkeep.
      cbv zeta in Hkeep.
      assert (truthy text = true) as ->.
      { simpl in Harg. by destruct (truthy text). }
      destruct selected as [|col selected]; [done|]. by rewrite Hkeep.
    + simpl in Harg. by destruct (truthy text).
  - intros dataframe Harg Hread Hdocid.
    unfold read_sitetracker_csv, script_load. rewrite Hsame, Hread, Harg.
    simpl. unfold has_column. rewrite bool_decide_eq_true_2 by done. simpl.
    split; [done|].
    destruct arg as [text|]; [|done]. simpl in Harg.
    destruct (truthy text); [|done]. injection Harg as Harg.
    unfold script_keep_cols. cbv zeta. by rewrite Harg.
Qed.

End ScriptLoad.

Lemma loader_agrees_with_script_witness :
  read_sitetracker_csv (one_file "attachments.csv" attachments_csv)
    "attachments.csv" "sitetracker__ContentDocumentRecord__c"
    (sitetracker_columns_of (Some "Name, Missing")) "utf-8-sig"
  = script_load (λ path, one_file "attachments.csv" attachments_csv path "")
      "attachments.csv" "sitetracker__ContentDocumentRecord__c"
      (Some "Name, Missing").
Proof.
  destruct (loader_agrees_with_script
              (one_file "attachments.csv" attachments_csv)
              (λ path, one_file "attachments.csv" attachments_csv path "")
              "attachments.csv" "sitetracker__ContentDocumentRecord__c"
              (Some "Name, Missing") "utf-8-sig") as [Hagree _].
  - reflexivity.
  - apply Hagree. vm_compute. discriminate.
Defined.

(** An argument of commas and blanks: the loader keeps every column,
    the script the identifier column alone. *)
Example loader_and_script_differ :
  read_sitetracker_csv (one_file "attachments.csv" attachments_csv)
    "attachments.csv" "sitetracker__ContentDocumentRecord__c"
    (sitetracker_columns_of (Some " , ")) "utf-8-sig"
  = Ok attachments_csv
  ∧ script_load (λ path, one_file "attachments.csv" attachments_csv path "")
      "attachments.csv" "sitetracker__ContentDocumentRecord__c" (Some " , ")
    = Ok (mkDataFrame ["sitetracker__ContentDocumentRecord__c"]
            [[Str "DOC1"]; [Str "DOC2"]]).
Proof. split; vm_compute; reflexivity. Qed.
